(** * RF_clone.ino: the control loop of the RF cloner, embedded in Rocq

    The sketch is a single-threaded polling loop over a handful of global
    variables.  The globals become one record [State]; every routine of the
    sketch becomes a command [Cmd] that maps a state to the next state and
    to the list of actions it performed on the outside world (serial lines,
    radio calls, frames pushed to the display).  What the routine reads from
    the outside world (clock, pins, receiver, hardware probe) is passed in
    as an argument. *)

From Stdlib Require Import ZArith List Bool String Ascii Lia Sorted.
From Stdlib Require DecimalString HexadecimalString.
Import ListNotations.
Local Open Scope Z_scope.

(** ** Machine integers of the ESP32 target

    [unsigned long] and [unsigned int] are 32 bits wide and wrap; [int] is a
    32-bit two's complement number. *)
Module Word.

Definition modulus : Z := 2 ^ 32.
Definition half : Z := 2 ^ 31.

(** Value of an unsigned 32-bit expression. *)
Definition wrap (z : Z) : Z := z mod modulus.

(** [a - b] on [unsigned long]. *)
Definition sub (a b : Z) : Z := wrap (a - b).

(** Value of an expression stored into an [int]. *)
Definition to_int (z : Z) : Z := (z + half) mod modulus - half.

End Word.

(** ** Configuration (the #define block) *)

Definition SCREEN_WIDTH : Z := 128.
Definition RF_TX_PIN : Z := 4.
Definition BTN_UP : Z := 12.
Definition BTN_DOWN : Z := 13.
Definition BTN_SELECT : Z := 15.
Definition BTN_BACK : Z := 27.

Definition DEBOUNCE_DELAY : Z := 200.
Definition RF_CHECK_INTERVAL : Z := 3000.
Definition ANIM_SPEED : Z := 120.
Definition TRANSMIT_INTERVAL : Z := 500.
Definition JAM_INTERVAL : Z := 50.

Definition menuItems : Z := 3.

(** ** System state *)

Inductive Mode : Type := MENU | READ | EMULATE | JAM.

Definition Mode_eqb (a b : Mode) : bool :=
  match a, b with
  | MENU, MENU | READ, READ | EMULATE, EMULATE | JAM, JAM => true
  | _, _ => false
  end.

(** The enumerator's integer value, as [String(currentMode)] prints it. *)
Definition Mode_to_Z (m : Mode) : Z :=
  match m with MENU => 0 | READ => 1 | EMULATE => 2 | JAM => 3 end.

Record ButtonState : Type := mkButtonState {
  up : bool;
  down : bool;
  select : bool;
  back : bool;
  upLast : bool;
  downLast : bool;
  selectLast : bool;
  backLast : bool;
  lastPress : Z
}.

Record RFSignal : Type := mkRFSignal {
  value : Z;
  bitLength : Z;
  protocol : Z;
  pulseLength : Z;
  valid : bool;
  captureTime : Z
}.

Record State : Type := mkState {
  currentMode : Mode;
  menuSelection : Z;
  rfModuleConnected : bool;
  lastRFCheck : Z;
  btnState : ButtonState;
  capturedSignal : RFSignal;
  isTransmitting : bool;
  isJamming : bool;
  lastTransmit : Z;
  lastJam : Z;
  transmitCount : Z;
  animFrame : Z;
  lastAnimUpdate : Z
}.

(** The initialisers of the globals. *)
Definition initial : State :=
  {| currentMode := MENU;
     menuSelection := 0;
     rfModuleConnected := false;
     lastRFCheck := 0;
     btnState := mkButtonState false false false false false false false false 0;
     capturedSignal := mkRFSignal 0 0 0 0 false 0;
     isTransmitting := false;
     isJamming := false;
     lastTransmit := 0;
     lastJam := 0;
     transmitCount := 0;
     animFrame := 0;
     lastAnimUpdate := 0 |}.

(** Assignments to one global. *)
Definition set_currentMode (v : Mode) (s : State) : State :=
  mkState v (menuSelection s) (rfModuleConnected s) (lastRFCheck s) (btnState s)
    (capturedSignal s) (isTransmitting s) (isJamming s) (lastTransmit s) (lastJam s)
    (transmitCount s) (animFrame s) (lastAnimUpdate s).
Definition set_menuSelection (v : Z) (s : State) : State :=
  mkState (currentMode s) v (rfModuleConnected s) (lastRFCheck s) (btnState s)
    (capturedSignal s) (isTransmitting s) (isJamming s) (lastTransmit s) (lastJam s)
    (transmitCount s) (animFrame s) (lastAnimUpdate s).
Definition set_rfModuleConnected (v : bool) (s : State) : State :=
  mkState (currentMode s) (menuSelection s) v (lastRFCheck s) (btnState s)
    (capturedSignal s) (isTransmitting s) (isJamming s) (lastTransmit s) (lastJam s)
    (transmitCount s) (animFrame s) (lastAnimUpdate s).
Definition set_lastRFCheck (v : Z) (s : State) : State :=
  mkState (currentMode s) (menuSelection s) (rfModuleConnected s) v (btnState s)
    (capturedSignal s) (isTransmitting s) (isJamming s) (lastTransmit s) (lastJam s)
    (transmitCount s) (animFrame s) (lastAnimUpdate s).
Definition set_btnState (v : ButtonState) (s : State) : State :=
  mkState (currentMode s) (menuSelection s) (rfModuleConnected s) (lastRFCheck s) v
    (capturedSignal s) (isTransmitting s) (isJamming s) (lastTransmit s) (lastJam s)
    (transmitCount s) (animFrame s) (lastAnimUpdate s).
Definition set_capturedSignal (v : RFSignal) (s : State) : State :=
  mkState (currentMode s) (menuSelection s) (rfModuleConnected s) (lastRFCheck s)
    (btnState s) v (isTransmitting s) (isJamming s) (lastTransmit s) (lastJam s)
    (transmitCount s) (animFrame s) (lastAnimUpdate s).
Definition set_isTransmitting (v : bool) (s : State) : State :=
  mkState (currentMode s) (menuSelection s) (rfModuleConnected s) (lastRFCheck s)
    (btnState s) (capturedSignal s) v (isJamming s) (lastTransmit s) (lastJam s)
    (transmitCount s) (animFrame s) (lastAnimUpdate s).
Definition set_isJamming (v : bool) (s : State) : State :=
  mkState (currentMode s) (menuSelection s) (rfModuleConnected s) (lastRFCheck s)
    (btnState s) (capturedSignal s) (isTransmitting s) v (lastTransmit s) (lastJam s)
    (transmitCount s) (animFrame s) (lastAnimUpdate s).
Definition set_lastTransmit (v : Z) (s : State) : State :=
  mkState (currentMode s) (menuSelection s) (rfModuleConnected s) (lastRFCheck s)
    (btnState s) (capturedSignal s) (isTransmitting s) (isJamming s) v (lastJam s)
    (transmitCount s) (animFrame s) (lastAnimUpdate s).
Definition set_lastJam (v : Z) (s : State) : State :=
  mkState (currentMode s) (menuSelection s) (rfModuleConnected s) (lastRFCheck s)
    (btnState s) (capturedSignal s) (isTransmitting s) (isJamming s) (lastTransmit s) v
    (transmitCount s) (animFrame s) (lastAnimUpdate s).
Definition set_transmitCount (v : Z) (s : State) : State :=
  mkState (currentMode s) (menuSelection s) (rfModuleConnected s) (lastRFCheck s)
    (btnState s) (capturedSignal s) (isTransmitting s) (isJamming s) (lastTransmit s)
    (lastJam s) v (animFrame s) (lastAnimUpdate s).
Definition set_animFrame (v : Z) (s : State) : State :=
  mkState (currentMode s) (menuSelection s) (rfModuleConnected s) (lastRFCheck s)
    (btnState s) (capturedSignal s) (isTransmitting s) (isJamming s) (lastTransmit s)
    (lastJam s) (transmitCount s) v (lastAnimUpdate s).
Definition set_lastAnimUpdate (v : Z) (s : State) : State :=
  mkState (currentMode s) (menuSelection s) (rfModuleConnected s) (lastRFCheck s)
    (btnState s) (capturedSignal s) (isTransmitting s) (isJamming s) (lastTransmit s)
    (lastJam s) (transmitCount s) (animFrame s) v.

(** Assignments inside [btnState]. *)
Definition set_samples (u d se b : bool) (bs : ButtonState) : ButtonState :=
  mkButtonState u d se b (upLast bs) (downLast bs) (selectLast bs) (backLast bs)
    (lastPress bs).
Definition set_lastPress (v : Z) (bs : ButtonState) : ButtonState :=
  mkButtonState (up bs) (down bs) (select bs) (back bs) (upLast bs) (downLast bs)
    (selectLast bs) (backLast bs) v.
Definition set_lasts (bs : ButtonState) : ButtonState :=
  mkButtonState (up bs) (down bs) (select bs) (back bs) (up bs) (down bs)
    (select bs) (back bs) (lastPress bs).

(** ** The outside world *)

Inductive Level : Type := LOW | HIGH.

Definition Level_eqb (a b : Level) : bool :=
  match a, b with
  | LOW, LOW | HIGH, HIGH => true
  | _, _ => false
  end.

(** [digitalRead]: the level of each input pin at the time of the call. *)
Definition Gpio : Type := Z -> Level.

(** What the receiver library hands over for one decoded transmission. *)
Record RxEvent : Type := mkRxEvent {
  rxValue : Z;
  rxBitlength : Z;
  rxProtocol : Z;
  rxDelay : Z
}.

(** What a drawing routine puts on the display, reduced to the data the
    picture is computed from.  The random static of the Jam screen is left
    out. *)
Inductive Frame : Type :=
| FrWarning (message detail : string) (triangle : bool)
| FrMenu (highlight : Z) (rf : string) (sigOk : bool)
| FrRead (scanPos : Z) (info : option (Z * Z * Z * option Z))
| FrEmulate (info : option (Z * Z * Z * option (Z * Z)))
| FrJam (jamming : bool)
| FrBlank
| FrBoot (progress : Z).

(** Actions on the outside world, in program order. *)
Inductive Event : Type :=
| Serial (line : string)           (* a line written to the serial log *)
| RxAvailable (b : bool)           (* rfReceiver.available() in handleRFReception *)
| RxReset                          (* rfReceiver.resetAvailable() *)
| TxSetProtocol (p : Z)            (* rfTransmitter.setProtocol *)
| TxSetPulseLength (p : Z)         (* rfTransmitter.setPulseLength *)
| TxSend (v bits : Z)              (* rfTransmitter.send *)
| LinkListen (heard : bool)        (* the 100 ms listening loop of checkRFModule *)
| PinWrite (pin : Z) (l : Level)   (* digitalWrite *)
| Draw (f : Frame)                 (* clearDisplay ... display() *)
| Delay (ms : Z).

(** [millis()] when the true time since boot is [T] milliseconds. *)
Definition millis (T : Z) : Z := Word.wrap T.

(** ** Commands: state passing with an action log *)

Definition Cmd : Type := State -> State * list Event.

Definition skip : Cmd := fun s => (s, []).
Definition emit (e : Event) : Cmd := fun s => (s, [e]).
Definition modify (f : State -> State) : Cmd := fun s => (f s, []).
Definition seq (c1 c2 : Cmd) : Cmd :=
  fun s => (fst (c2 (fst (c1 s))), snd (c1 s) ++ snd (c2 (fst (c1 s)))).
Definition ifS (cond : State -> bool) (c1 c2 : Cmd) : Cmd :=
  fun s => if cond s then c1 s else c2 s.
Definition when (cond : State -> bool) (c : Cmd) : Cmd := ifS cond c skip.
Definition println (line : State -> string) : Cmd := fun s => (s, [Serial (line s)]).

Notation "c1 ;; c2" := (seq c1 c2) (at level 61, right associativity).

(** ** Text conversions used by the log *)

(** [String(n)] for an [int]. *)
Definition String_of_int (n : Z) : string :=
  DecimalString.NilZero.string_of_int (Z.to_int n).

Definition upcase (c : ascii) : ascii :=
  let n := nat_of_ascii c in
  if (andb (Nat.leb 97 n) (Nat.leb n 102)) then ascii_of_nat (n - 32) else c.

Fixpoint upcase_string (t : string) : string :=
  match t with
  | EmptyString => EmptyString
  | String c r => String (upcase c) (upcase_string r)
  end.

(** [print(n, HEX)] for an unsigned number. *)
Definition String_of_hex (n : Z) : string :=
  upcase_string (HexadecimalString.NilZero.string_of_uint (N.to_hex_uint (Z.to_N n))).

(** ** Button handling *)

Definition readButtons (gpio : Gpio) : Cmd :=
  modify (fun s =>
    set_btnState
      (set_samples (Level_eqb (gpio BTN_UP) LOW) (Level_eqb (gpio BTN_DOWN) LOW)
                   (Level_eqb (gpio BTN_SELECT) LOW) (Level_eqb (gpio BTN_BACK) LOW)
                   (btnState s)) s).

Definition buttonRisingEdge (current last : bool) : bool := current && negb last.

(** [btnState.lastPress = now;] *)
Definition stamp (now : Z) : Cmd :=
  modify (fun s => set_btnState (set_lastPress now (btnState s)) s).

(** The UP block. *)
Definition onUp (now : Z) : Cmd :=
  when (fun s => buttonRisingEdge (up (btnState s)) (upLast (btnState s)))
    (when (fun s => Mode_eqb (currentMode s) MENU)
       (modify (fun s => set_menuSelection (Word.to_int (menuSelection s - 1)) s) ;;
        when (fun s => menuSelection s <? 0) (modify (set_menuSelection (menuItems - 1))) ;;
        println (fun s => "Menu UP -> " ++ String_of_int (menuSelection s))%string) ;;
     stamp now).

(** The DOWN block. *)
Definition onDown (now : Z) : Cmd :=
  when (fun s => buttonRisingEdge (down (btnState s)) (downLast (btnState s)))
    (when (fun s => Mode_eqb (currentMode s) MENU)
       (modify (fun s => set_menuSelection (Word.to_int (menuSelection s + 1)) s) ;;
        when (fun s => menuItems <=? menuSelection s) (modify (set_menuSelection 0)) ;;
        println (fun s => "Menu DOWN -> " ++ String_of_int (menuSelection s))%string) ;;
     stamp now).

(** [switch(menuSelection)] of the SELECT block; no case, no effect. *)
Definition enterSelected : Cmd :=
  fun s =>
    if menuSelection s =? 0 then
      (modify (set_currentMode READ) ;; println (fun _ => "-> READ MODE"%string)) s
    else if menuSelection s =? 1 then
      (modify (set_currentMode EMULATE) ;; println (fun _ => "-> EMULATE MODE"%string)) s
    else if menuSelection s =? 2 then
      (modify (set_currentMode JAM) ;; println (fun _ => "-> JAM MODE"%string)) s
    else skip s.

Definition onOff (b : bool) : string := if b then "ON"%string else "OFF"%string.

(** The SELECT block. *)
Definition onSelect (now : Z) : Cmd :=
  when (fun s => buttonRisingEdge (select (btnState s)) (selectLast (btnState s)))
    (println (fun s => "SELECT pressed in mode: " ++
                       String_of_int (Mode_to_Z (currentMode s)))%string ;;
     ifS (fun s => Mode_eqb (currentMode s) MENU)
       (enterSelected ;;
        modify (set_isTransmitting false) ;;
        modify (set_isJamming false) ;;
        modify (set_transmitCount 0))
       (ifS (fun s => Mode_eqb (currentMode s) EMULATE)
          (ifS (fun s => valid (capturedSignal s))
             (modify (fun s => set_isTransmitting (negb (isTransmitting s)) s) ;;
              modify (set_transmitCount 0) ;;
              modify (set_lastTransmit 0) ;;
              println (fun s => "Transmit: " ++ onOff (isTransmitting s))%string)
             (println (fun _ => "ERROR: No signal captured!"%string)))
          (when (fun s => Mode_eqb (currentMode s) JAM)
             (modify (fun s => set_isJamming (negb (isJamming s)) s) ;;
              modify (set_lastJam 0) ;;
              println (fun s => "Jamming: " ++ onOff (isJamming s))%string))) ;;
     stamp now).

(** The BACK block. *)
Definition onBack (now : Z) : Cmd :=
  when (fun s => buttonRisingEdge (back (btnState s)) (backLast (btnState s)))
    (println (fun _ => "BACK -> MENU"%string) ;;
     modify (set_currentMode MENU) ;;
     modify (set_isTransmitting false) ;;
     modify (set_isJamming false) ;;
     stamp now).

(** The four assignments that close handleButtons. *)
Definition updateLast : Cmd :=
  modify (fun s => set_btnState (set_lasts (btnState s)) s).

(** The test that guards the early return. *)
Definition debounced (now : Z) (s : State) : bool :=
  Word.sub now (lastPress (btnState s)) <? DEBOUNCE_DELAY.

(** [handleButtons()]; [now] is the value [millis()] returns in it. *)
Definition handleButtons (now : Z) (gpio : Gpio) : Cmd :=
  readButtons gpio ;;
  ifS (debounced now)
    skip
    (onUp now ;; onDown now ;; onSelect now ;; onBack now ;; updateLast).

(** ** RF module detection *)

(** [checkRFModule()].  [heard] tells whether the receiver reported a
    transmission during the 100 ms listening loop, [txOk] whether the TX
    pin read back HIGH after being driven HIGH. *)
Definition checkRFModule (heard txOk : bool) : bool * list Event :=
  if heard then (true, [LinkListen true; RxReset])
  else (txOk, [LinkListen false; PinWrite RF_TX_PIN HIGH; Delay 10;
               PinWrite RF_TX_PIN LOW]).

(** ** RF operations *)

(** [handleRFReception()].  [rx] is what the receiver holds when polled
    ([None]: nothing available), [now] what [millis()] returns. *)
Definition handleRFReception (rx : option RxEvent) (now : Z) : Cmd :=
  match rx with
  | None => emit (RxAvailable false)
  | Some ev =>
      emit (RxAvailable true) ;;
      (if negb (rxValue ev =? 0) then
         modify (set_capturedSignal
                   (mkRFSignal (rxValue ev) (rxBitlength ev) (rxProtocol ev)
                               (rxDelay ev) true now)) ;;
         println (fun _ => "=== SIGNAL CAPTURED ==="%string) ;;
         println (fun s => "Value: " ++ String_of_hex (value (capturedSignal s)))%string ;;
         println (fun s => "Bits: " ++ String_of_int (bitLength (capturedSignal s)))%string ;;
         println (fun s => "Protocol: " ++ String_of_int (protocol (capturedSignal s)))%string ;;
         println (fun s => "Pulse: " ++ String_of_int (pulseLength (capturedSignal s)))%string
       else skip) ;;
      emit RxReset
  end.

(** The gate of [transmitSignal]. *)
Definition transmitDue (now : Z) (s : State) : bool :=
  TRANSMIT_INTERVAL <=? Word.sub now (lastTransmit s).

(** [transmitSignal()]. *)
Definition transmitSignal (now : Z) : Cmd :=
  when (transmitDue now)
    (when (fun s => valid (capturedSignal s))
       ((fun s => (s, [TxSetProtocol (protocol (capturedSignal s));
                       TxSetPulseLength (pulseLength (capturedSignal s));
                       TxSend (value (capturedSignal s)) (bitLength (capturedSignal s))])) ;;
        modify (fun s => set_transmitCount (Word.to_int (transmitCount s + 1)) s) ;;
        modify (set_lastTransmit now) ;;
        println (fun s => "TX #" ++ String_of_int (transmitCount s))%string)).

(** The gate of [jamSignals]. *)
Definition jamDue (now : Z) (s : State) : bool :=
  JAM_INTERVAL <=? Word.sub now (lastJam s).

(** [jamSignals()]; [rnd] is the number [random(1, 16777215)] returns. *)
Definition jamSignals (now rnd : Z) : Cmd :=
  when (jamDue now)
    ((fun s => (s, [TxSetProtocol (animFrame s mod 3 + 1); TxSend rnd 24])) ;;
     modify (set_lastJam now)).

(** ** Display routines *)

Definition displayWarning (message detail : string) (now : Z) : Cmd :=
  emit (Draw (FrWarning message detail ((now / 400) mod 2 =? 0))).

Definition drawMenu : Cmd :=
  fun s => (s, [Draw (FrMenu (menuSelection s)
                             (if rfModuleConnected s then "OK" else "ERR")
                             (valid (capturedSignal s)))]).

Definition drawReadMode (now : Z) : Cmd :=
  fun s =>
    let c := capturedSignal s in
    let age := Word.sub now (captureTime c) / 1000 in
    (s, [Draw (FrRead (Word.wrap (animFrame s * 3) mod (SCREEN_WIDTH - 20))
                 (if valid c
                  then Some (value c, bitLength c, protocol c,
                             if age <? 60 then Some age else None)
                  else None))]).

Definition drawEmulateMode : Cmd :=
  fun s =>
    let c := capturedSignal s in
    (s, [Draw (FrEmulate
                 (if valid c
                  then Some (value c, bitLength c, protocol c,
                             if isTransmitting s
                             then Some (Word.wrap (animFrame s * 2) mod 25, transmitCount s)
                             else None)
                  else None))]).

Definition drawJamMode : Cmd :=
  fun s => (s, [Draw (FrJam (isJamming s))]).

(** The item loop of [drawMenu], call by call.  [FrMenu] above keeps what
    the screen shows; the calls below are the ones that draw the three
    rows, with the highlight bar behind the selected one. *)

Inductive Color : Type := WHITE | BLACK.

(** The display calls the menu loop makes. *)
Inductive Gfx : Type :=
| FillRect (x y w h : Z) (c : Color)
| SetTextColor (c : Color)
| SetCursor (x y : Z)
| PrintStr (text : string).

(** [items] of drawMenu. *)
Definition items : list string := ["READ"; "EMULATE"; "JAM"]%string.

(** The body of the loop of drawMenu for index [i]. *)
Definition drawMenuItem (i : Z) (s : State) : list Gfx :=
  let y := 20 + i * 13 in
  if i =? menuSelection s then
    [FillRect 5 (y - 2) (SCREEN_WIDTH - 10) 11 WHITE;
     SetTextColor BLACK;
     SetCursor 15 y;
     PrintStr "> ";
     PrintStr (nth (Z.to_nat i) items ""%string);
     SetTextColor WHITE]
  else
    [SetCursor 20 y; PrintStr (nth (Z.to_nat i) items ""%string)].

(** [for(int i = 0; i < menuItems; i++)], with [n] rounds left. *)
Fixpoint drawMenuItemsFrom (n : nat) (i : Z) (s : State) : list Gfx :=
  match n with
  | O => []
  | S n' => drawMenuItem i s ++ drawMenuItemsFrom n' (i + 1) s
  end.

Definition drawMenuItems (s : State) : list Gfx :=
  drawMenuItemsFrom (Z.to_nat menuItems) 0 s.

(** ** Setup *)

(** [bootAnimation()]: three frames with a growing progress bar.  The
    wave pixels, computed with [sin], are not part of the frame data. *)
Definition bootAnimation : list Event :=
  flat_map (fun frame => [Draw (FrBoot (frame * (SCREEN_WIDTH - 20) / 2)); Delay 400])
           [0; 1; 2]
  ++ [Delay 600].

(** [setup()].  [None] is the endless [while(1)] taken when the display
    does not start; serial output is kept line by line. *)
Definition setup (gpio : Gpio) (displayOk heard txOk : bool) (s : State)
  : option (State * list Event) :=
  let s1 := fst ((readButtons gpio ;; updateLast) s) in
  if negb displayOk then None
  else
    let chk := checkRFModule heard txOk in
    Some (set_currentMode MENU (set_rfModuleConnected (fst chk) s1),
          [Delay 100;
           Serial ""; Serial ""; Serial "=================================";
           Serial "RF Cloner - Starting...";
           Serial "Created by: Nihal MP";
           Serial "================================="; Serial "";
           Serial "Buttons: UP=12 DN=13 SEL=15 BACK=27";
           Delay 250;
           Serial "Display: OK (SH1106 128x64)";
           Draw FrBlank]
          ++ bootAnimation
          ++ [Serial "RF RX: GPIO5 | RF TX: GPIO4"]
          ++ snd chk
          ++ [Serial ("Checking RF module... " ++
                      (if fst chk then "CONNECTED" else "NOT FOUND"))]
          ++ (if fst chk then [] else
                [Serial "WARNING: RF module not detected!";
                 Serial "Check connections and power."])
          ++ [Serial ""; Serial "=== READY ==="; Serial ""]).

(** ** Main loop *)

(** Everything one pass of [loop()] reads from the outside world.  The
    [t_] fields are the true times, in milliseconds since boot, at which
    the pass calls [millis()]. *)
Record Tick : Type := mkTick {
  t_check : Z;        (* the recheck test *)
  t_checked : Z;      (* lastRFCheck = millis() *)
  t_anim : Z;         (* the animation test *)
  t_animated : Z;     (* lastAnimUpdate = millis() *)
  t_buttons : Z;      (* handleButtons *)
  t_action : Z;       (* handleRFReception / transmitSignal / jamSignals *)
  t_draw : Z;         (* displayWarning / drawReadMode *)
  gpio : Gpio;
  heard : bool;
  txOk : bool;
  rx : option RxEvent;
  rnd : Z
}.

Definition recheckDue (now : Z) (s : State) : bool :=
  RF_CHECK_INTERVAL <? Word.sub now (lastRFCheck s).

Definition animDue (now : Z) (s : State) : bool :=
  ANIM_SPEED <? Word.sub now (lastAnimUpdate s).

(** The periodic RF module check. *)
Definition monitor (tk : Tick) : Cmd :=
  when (recheckDue (millis (t_check tk)))
    (fun s =>
       let chk := checkRFModule (heard tk) (txOk tk) in
       (set_lastRFCheck (millis (t_checked tk)) (set_rfModuleConnected (fst chk) s),
        snd chk ++
        (if Bool.eqb (rfModuleConnected s) (fst chk) then []
         else [Serial ("RF Status changed: " ++
                       (if fst chk then "CONNECTED" else "DISCONNECTED"))]))).

(** The animation frame update. *)
Definition animate (tk : Tick) : Cmd :=
  when (animDue (millis (t_anim tk)))
    (modify (fun s => set_animFrame (Word.wrap (animFrame s + 1) mod 1000) s) ;;
     modify (set_lastAnimUpdate (millis (t_animated tk)))).

Definition rfError (tk : Tick) : Cmd :=
  displayWarning "RF Module Error" "Check Connection" (millis (t_draw tk)).

(** [switch(currentMode)]. *)
Definition modeLogic (tk : Tick) : Cmd :=
  fun s =>
    match currentMode s with
    | MENU => drawMenu s
    | READ =>
        if negb (rfModuleConnected s) then rfError tk s
        else (handleRFReception (rx tk) (millis (t_action tk)) ;;
              drawReadMode (millis (t_draw tk))) s
    | EMULATE =>
        if negb (rfModuleConnected s) then rfError tk s
        else (when isTransmitting (transmitSignal (millis (t_action tk))) ;;
              drawEmulateMode) s
    | JAM =>
        if negb (rfModuleConnected s) then rfError tk s
        else (when isJamming (jamSignals (millis (t_action tk)) (rnd tk)) ;;
              drawJamMode) s
    end.

(** The part of a pass that precedes the mode switch. *)
Definition prelude (tk : Tick) : Cmd :=
  monitor tk ;; animate tk ;; handleButtons (millis (t_buttons tk)) (gpio tk).

(** One pass of [loop()]. *)
Definition loop (tk : Tick) : Cmd :=
  prelude tk ;; modeLogic tk ;; emit (Delay 30).

(** Successive passes.  The log keeps, for each pass, the time of its
    radio action together with what the pass did. *)
Fixpoint run (ticks : list Tick) (s : State) : State * list (Z * list Event) :=
  match ticks with
  | [] => (s, [])
  | tk :: rest =>
      let r := loop tk s in
      let r' := run rest (fst r) in
      (fst r', (t_action tk, snd r) :: snd r')
  end.

(** * Vocabulary of the properties *)

(** ** Buttons *)

(** A button reads as pressed when its pin is low. *)
Definition pressed (g : Gpio) (pin : Z) : bool := Level_eqb (g pin) LOW.

(** The state [readButtons] leaves behind. *)
Definition sampled (g : Gpio) (s : State) : State :=
  set_btnState
    (set_samples (pressed g BTN_UP) (pressed g BTN_DOWN) (pressed g BTN_SELECT)
                 (pressed g BTN_BACK) (btnState s)) s.

(** The tests of the four blocks, on the state [readButtons] produced. *)
Definition upEdge (s : State) : bool :=
  buttonRisingEdge (up (btnState s)) (upLast (btnState s)).
Definition downEdge (s : State) : bool :=
  buttonRisingEdge (down (btnState s)) (downLast (btnState s)).
Definition selectEdge (s : State) : bool :=
  buttonRisingEdge (select (btnState s)) (selectLast (btnState s)).
Definition backEdge (s : State) : bool :=
  buttonRisingEdge (back (btnState s)) (backLast (btnState s)).
Definition anyEdge (s : State) : bool :=
  upEdge s || downEdge s || selectEdge s || backEdge s.

(** The state after [btnState.lastPress = now]. *)
Definition stamped (now : Z) (s : State) : State :=
  set_btnState (set_lastPress now (btnState s)) s.

(** The state after the four closing assignments. *)
Definition snapshot (s : State) : State :=
  set_btnState (set_lasts (btnState s)) s.

(** The states between the blocks of a call that passed the debounce test. *)
Definition afterUp (now : Z) (s : State) : State := fst (onUp now s).
Definition afterDown (now : Z) (s : State) : State := fst (onDown now (afterUp now s)).
Definition afterSelect (now : Z) (s : State) : State :=
  fst (onSelect now (afterDown now s)).
Definition afterBack (now : Z) (s : State) : State :=
  fst (onBack now (afterSelect now s)).

(** The selection names one of the menu items. *)
Definition inMenuRange (s : State) : Prop := 0 <= menuSelection s < menuItems.

(** [s'] differs from [s] in [btnState] at most. *)
Definition onlyButtons (s s' : State) : Prop := s' = set_btnState (btnState s') s.

(** [s'] agrees with [s] on everything handleButtons has no business with. *)
Definition buttonsFrame (s s' : State) : Prop :=
  rfModuleConnected s' = rfModuleConnected s /\
  lastRFCheck s' = lastRFCheck s /\
  capturedSignal s' = capturedSignal s /\
  animFrame s' = animFrame s /\
  lastAnimUpdate s' = lastAnimUpdate s.

(** The flags follow the mode: replay is on only in Emulate mode and with
    a capture, jamming only in Jam mode. *)
Definition flagsFollowMode (s : State) : Prop :=
  (isTransmitting s = true ->
   currentMode s = EMULATE /\ valid (capturedSignal s) = true) /\
  (isJamming s = true -> currentMode s = JAM).

(** ** Logs *)

Definition isSerial (e : Event) : bool :=
  match e with Serial _ => true | _ => false end.

(** Calls into the receiver or the transmitter object. *)
Definition isRadio (e : Event) : bool :=
  match e with
  | RxAvailable _ | RxReset | TxSetProtocol _ | TxSetPulseLength _ | TxSend _ _ => true
  | _ => false
  end.

(** Calls into the transmitter object. *)
Definition isTx (e : Event) : bool :=
  match e with
  | TxSetProtocol _ | TxSetPulseLength _ | TxSend _ _ => true
  | _ => false
  end.

Definition isSend (e : Event) : bool :=
  match e with TxSend _ _ => true | _ => false end.

(** The frames a log put on the display, in order. *)
Definition frames (evs : list Event) : list Frame :=
  flat_map (fun e => match e with Draw f => [f] | _ => [] end) evs.

(** The warning screen of the mode switch, triangle shown or not. *)
Definition rfWarning (triangle : bool) : Frame :=
  FrWarning "RF Module Error" "Check Connection" triangle.

(** A pass whose radio action is suppressed: no call into the receiver or
    the transmitter, and the warning screen as its only frame. *)
Definition suppressed (evs : list Event) : Prop :=
  filter isRadio evs = [] /\ exists triangle, frames evs = [rfWarning triangle].

(** ** Runs *)

(** The state the mode switch of a pass sees. *)
Definition atSwitch (tk : Tick) (s : State) : State := fst (prelude tk s).

(** [P] holds at the mode switch of every pass of a run. *)
Fixpoint throughout (P : State -> bool) (ticks : list Tick) (s : State) : Prop :=
  match ticks with
  | [] => True
  | tk :: rest => P (atSwitch tk s) = true /\ throughout P rest (fst (loop tk s))
  end.

(** The link is reported down while a radio mode is active. *)
Definition linkDown (s : State) : bool :=
  negb (rfModuleConnected s) && negb (Mode_eqb (currentMode s) MENU).

(** The record a nonzero reception leaves in [capturedSignal]. *)
Definition captureOf (ev : RxEvent) (now : Z) : RFSignal :=
  mkRFSignal (rxValue ev) (rxBitlength ev) (rxProtocol ev) (rxDelay ev) true now.

(** The receiver hands the pass nothing, or a zero value. *)
Definition quiet (tk : Tick) : Prop :=
  match rx tk with
  | Some ev => rxValue ev = 0
  | None => True
  end.

(** ** Replay *)

(** Replay is switched on: Emulate mode, transmitting, with a capture. *)
Definition replaying (s : State) : bool :=
  isTransmitting s && Mode_eqb (currentMode s) EMULATE && valid (capturedSignal s).

(** The transmitter calls of one replay of the record [c]. *)
Definition replayCall (c : RFSignal) : list Event :=
  [TxSetProtocol (protocol c); TxSetPulseLength (pulseLength c);
   TxSend (value c) (bitLength c)].

(** The times of the [send] calls in the log of a run. *)
Definition sendTimes (log : list (Z * list Event)) : list Z :=
  flat_map (fun pass => map (fun _ => fst pass) (filter isSend (snd pass))) log.

(** [t] lies in the window of length TRANSMIT_INTERVAL that starts at [w]. *)
Definition inWindow (w t : Z) : bool := (w <=? t) && (t <? w + TRANSMIT_INTERVAL).

(** Two sends at least one interval apart. *)
Definition apart (a b : Z) : Prop := a + TRANSMIT_INTERVAL <= b.

(** [transmitCount++], on an [int]. *)
Definition increment (c : Z) : Z := Word.to_int (c + 1).

(** The counter when the first mode switch of a run is reached. *)
Definition countAtStart (ticks : list Tick) (s : State) : Z :=
  match ticks with
  | [] => transmitCount s
  | tk :: _ => transmitCount (atSwitch tk s)
  end.

(** ** The clock *)

(** A test written as [now >= last + interval] on [unsigned long], the
    form the sketch avoids; kept for comparison only. *)
Definition naiveDue (interval now last : Z) : bool :=
  Word.wrap (last + interval) <=? now.

(** A state whose five time stamps were all taken at true time [T]. *)
Definition stampedAt (T : Z) : State :=
  mkState MENU 0 false (millis T)
    (mkButtonState false false false false false false false false (millis T))
    (mkRFSignal 0 0 0 0 false 0) false false (millis T) (millis T) 0 0 (millis T).

(** True times just before and just after the clock wraps. *)
Definition beforeWrap : Z := Word.modulus - 100.
Definition afterWrap : Z := Word.modulus + 450.

(** ** Example inputs *)

(** No button down; one button held. *)
Definition released : Gpio := fun _ => HIGH.
Definition holding (pin : Z) : Gpio := fun p => if p =? pin then LOW else HIGH.

(** A pass during which the clock reads [T] at every call, the link check
    hears nothing and the TX pin reads back [linkOk]. *)
Definition tickAt (T : Z) (g : Gpio) (linkOk : bool) (r : option RxEvent) : Tick :=
  mkTick T T T T T T T g false linkOk r 1.

(** A decoded remote-control code, and a reception of pure noise. *)
Definition remote : RxEvent := mkRxEvent 0xABCD12 24 1 350.
Definition noise : RxEvent := mkRxEvent 0 0 0 0.

(** The state [setup] hands to the loop when display and link are fine. *)
Definition booted : State :=
  match setup released true false true initial with
  | Some r => fst r
  | None => initial
  end.

(** The state one second after boot, when a press of Back has just been
    accepted in the menu. *)
Definition pressedAt1000 : State := fst (handleButtons 1000 (holding BTN_BACK) booted).

(** Emulate mode with the link up: without a capture, with one, and with
    replay switched on. *)
Definition emulateEmpty : State :=
  set_rfModuleConnected true (set_currentMode EMULATE initial).
Definition emulateReady : State :=
  set_capturedSignal (captureOf remote 2000) emulateEmpty.
Definition replayOn : State := set_isTransmitting true emulateReady.

(** Read mode with the link reported down. *)
Definition readLinkLost : State := set_currentMode READ initial.

(** Three passes with the link down and a transmission waiting in the
    receiver; the third one runs the link check, which fails. *)
Definition linkLostRun : list Tick :=
  [tickAt 1000 released false (Some remote);
   tickAt 1030 released false (Some remote);
   tickAt 3500 released false (Some remote)].

(** Three passes, 30 ms and 470 ms apart, with no button touched. *)
Definition replayRun : list Tick :=
  [tickAt 10000 released true None;
   tickAt 10030 released true None;
   tickAt 10500 released true None].

(** Two passes in which the receiver has nothing but noise. *)
Definition quietRun : list Tick :=
  [tickAt 1000 released true (Some noise); tickAt 1030 released true None].

(** The walk through the menu of the end-to-end scenario: enter Read,
    receive a code, go back, move down to Emulate, enter it, start replay,
    and let half a second pass.  Each press is followed by a pass, outside
    the debounce window, that samples the button as released. *)
Definition scenario : list Tick :=
  [tickAt 3000 (holding BTN_SELECT) true None;
   tickAt 3250 released true (Some remote);
   tickAt 3500 (holding BTN_BACK) true None;
   tickAt 3750 released true None;
   tickAt 4000 (holding BTN_DOWN) true None;
   tickAt 4250 released true None;
   tickAt 4500 (holding BTN_SELECT) true None;
   tickAt 4750 released true None;
   tickAt 5000 (holding BTN_SELECT) true None;
   tickAt 5030 released true None;
   tickAt 5500 released true None].

(** ** Passes *)

(** Polls of the receiver made by handleRFReception. *)
Definition isPoll (e : Event) : bool :=
  match e with RxAvailable _ => true | _ => false end.

(** The frame [f] is the one the mode switch draws in state [d]. *)
Definition frameFits (d : State) (f : Frame) : Prop :=
  match f with
  | FrMenu _ _ _ => currentMode d = MENU
  | FrWarning _ _ _ => currentMode d <> MENU /\ rfModuleConnected d = false
  | FrRead _ _ => currentMode d = READ /\ rfModuleConnected d = true
  | FrEmulate _ => currentMode d = EMULATE /\ rfModuleConnected d = true
  | FrJam _ => currentMode d = JAM /\ rfModuleConnected d = true
  | FrBlank | FrBoot _ => False
  end.

(** The transmitter calls of one jamming burst in state [d]. *)
Definition jamCall (rnd : Z) (d : State) : list Event :=
  [TxSetProtocol (animFrame d mod 3 + 1); TxSend rnd 24].

(** The state handleButtons of a pass starts from. *)
Definition beforeButtons (tk : Tick) (s : State) : State :=
  fst (animate tk (fst (monitor tk s))).

(** The mode, the selection and the two flags agree. *)
Definition sameModeState (s s' : State) : Prop :=
  currentMode s' = currentMode s /\ menuSelection s' = menuSelection s /\
  isTransmitting s' = isTransmitting s /\ isJamming s' = isJamming s.

(** The animation counter is below its reset value. *)
Definition inAnimRange (s : State) : Prop := 0 <= animFrame s < 1000.

(** ** Jamming *)

(** Jamming is switched on: Jam mode with the flag set. *)
Definition jamming (s : State) : bool :=
  isJamming s && Mode_eqb (currentMode s) JAM.

(** [t] lies in the window of length [d] that starts at [w]. *)
Definition inWindowOf (d w t : Z) : bool := (w <=? t) && (t <? w + d).

(** Two events at least [d] apart. *)
Definition apartBy (d a b : Z) : Prop := a + d <= b.

(** A burst as jamSignals makes it: one of the protocols 1, 2, 3 and a
    send of 24 bits. *)
Definition isJamCall (evs : list Event) : Prop :=
  exists p v, evs = [TxSetProtocol p; TxSend v 24] /\ 1 <= p <= 3.

(** Jam mode with the link up, jamming off and on. *)
Definition jamReady : State :=
  set_rfModuleConnected true (set_currentMode JAM initial).
Definition jamOn : State := set_isJamming true jamReady.

(** Passes 30 ms apart, then one 20 ms later. *)
Definition jamRun : list Tick :=
  [tickAt 10000 released true None;
   tickAt 10030 released true None;
   tickAt 10060 released true None;
   tickAt 10080 released true None].

(** ** Calls and receptions in a row *)

(** Successive calls of handleButtons, each with its clock reading and its
    pin levels. *)
Fixpoint handleAll (calls : list (Z * Gpio)) (s : State) : State * list Event :=
  match calls with
  | [] => (s, [])
  | c :: rest =>
      let r1 := handleButtons (fst c) (snd c) s in
      let r2 := handleAll rest (fst r1) in
      (fst r2, snd r1 ++ snd r2)
  end.

(** The record after the receptions of a run, had every one of them been
    polled: each nonzero value replaces the record, anything else leaves
    it. *)
Fixpoint lastCapture (ticks : list Tick) (c : RFSignal) : RFSignal :=
  match ticks with
  | [] => c
  | tk :: rest =>
      lastCapture rest
        (match rx tk with
         | Some ev => if rxValue ev =? 0 then c else captureOf ev (millis (t_action tk))
         | None => c
         end)
  end.

(** Read mode with the link up. *)
Definition reading (s : State) : bool :=
  rfModuleConnected s && Mode_eqb (currentMode s) READ.

(** ** Link checks *)

Definition isListen (e : Event) : bool :=
  match e with LinkListen _ => true | _ => false end.

(** The true times at which the passes of a run start a link check. *)
Fixpoint checkTimes (ticks : list Tick) (s : State) : list Z :=
  match ticks with
  | [] => []
  | tk :: rest =>
      (if existsb isListen (snd (loop tk s)) then [t_check tk] else [])
      ++ checkTimes rest (fst (loop tk s))
  end.

(** The clock readings of the link monitor in the order the passes take
    them: the test, then the stamp. *)
Definition monitorClock (ticks : list Tick) : list Z :=
  flat_map (fun tk => [t_check tk; t_checked tk]) ticks.

(** Read mode with the link up and nothing received yet. *)
Definition readReady : State :=
  set_rfModuleConnected true (set_currentMode READ initial).

(** A second remote-control code. *)
Definition remote2 : RxEvent := mkRxEvent 0x123456 24 2 400.

(** Four passes in Read mode: a code, noise, a second code, nothing. *)
Definition receptions : list Tick :=
  [tickAt 1000 released true (Some remote);
   tickAt 1030 released true (Some noise);
   tickAt 1060 released true (Some remote2);
   tickAt 1090 released true None].

(** Passes at 1, 3.5, 5 and 7 seconds. *)
Definition slowRun : list Tick :=
  [tickAt 1000 released true None;
   tickAt 3500 released true None;
   tickAt 5000 released true None;
   tickAt 7000 released true None].

(** ** The display *)

(** The moving shapes of a frame lie within the width of the display: the
    dot of the Read sweep, drawn with radius 2 at [10 + scanPos], and the
    four waves of the Emulate screen, drawn with radius 4 at
    [15 + i * 25 + offset] for [i] from 0 to 3. *)
Definition frameOnScreen (f : Frame) : Prop :=
  match f with
  | FrRead scanPos _ => 0 <= 10 + scanPos - 2 /\ 10 + scanPos + 2 < SCREEN_WIDTH
  | FrEmulate (Some (_, _, _, Some (offset, _))) =>
      0 <= 15 + offset - 4 /\ 15 + 3 * 25 + offset + 4 < SCREEN_WIDTH
  | _ => True
  end.

Definition isFillRect (c : Gfx) : bool :=
  match c with FillRect _ _ _ _ _ => true | _ => false end.

Definition isSetTextColor (c : Gfx) : bool :=
  match c with SetTextColor _ => true | _ => false end.

(** ** The TX pin *)

Definition isPinWrite (e : Event) : bool :=
  match e with PinWrite _ _ => true | _ => false end.

(** ** Further example inputs *)

(** What [setup] returns when the display starts: the state it hands to
    the loop, and its log. *)
Definition powerUp (g : Gpio) (heard txOk : bool) : State * list Event :=
  match setup g true heard txOk initial with
  | Some r => r
  | None => (initial, [])
  end.

(** Up and Down held down together. *)
Definition holdingUpDown : Gpio :=
  fun p => if (p =? BTN_UP) || (p =? BTN_DOWN) then LOW else HIGH.

(** * Properties *)

Arguments String_of_int : simpl never.
Arguments String_of_hex : simpl never.
Arguments Word.to_int : simpl never.
Arguments Word.sub : simpl never.
Arguments Word.wrap : simpl never.
Arguments String.append : simpl never.
Arguments Z.ltb : simpl never.
Arguments Z.leb : simpl never.
Arguments Z.eqb : simpl never.
Arguments pressed : simpl never.

(** ** Tactics *)

Ltac unfold_buttons :=
  unfold onUp, onDown, onSelect, onBack, enterSelected, updateLast,
    stamp, readButtons, buttonRisingEdge in *.

Ltac unfold_cmds :=
  unfold when, ifS, seq, modify, println, emit, skip in *.

Ltac unfold_edges :=
  unfold anyEdge, upEdge, downEdge, selectEdge, backEdge, stamped, snapshot in *.

(** Split on the condition of an innermost conditional. *)
Ltac split_if :=
  match goal with
  | |- context [if ?b then _ else _] =>
      lazymatch b with
      | context [if _ then _ else _] => fail
      | _ => destruct b eqn:?
      end
  end.

(** Run a command symbolically, one case per path through it. *)
Ltac crunch := unfold_buttons; unfold_cmds; cbn; repeat (split_if; cbn).

(** The same for one block of handleButtons. *)
Ltac block := unfold_edges; crunch.

Ltac zify_tests :=
  repeat match goal with
  | H : (_ <? _) = true |- _ => apply Z.ltb_lt in H
  | H : (_ <? _) = false |- _ => apply Z.ltb_ge in H
  | H : (_ <=? _) = true |- _ => apply Z.leb_le in H
  | H : (_ <=? _) = false |- _ => apply Z.leb_gt in H
  | H : (_ =? _) = true |- _ => apply Z.eqb_eq in H
  | H : (_ =? _) = false |- _ => apply Z.eqb_neq in H
  end.

(** ** Machine arithmetic *)

Lemma to_int_small z : - Word.half <= z < Word.half -> Word.to_int z = z.
Proof.
  intros H. unfold Word.to_int, Word.modulus, Word.half in *.
  rewrite Z.mod_small; lia.
Qed.

(** The wrapped difference of two clock readings is the true elapsed time,
    as long as less than a full clock period went by. *)
Lemma sub_millis T0 T1 :
  T0 <= T1 < T0 + Word.modulus ->
  Word.sub (millis T1) (millis T0) = T1 - T0.
Proof.
  intros H. unfold Word.sub, millis, Word.wrap.
  rewrite <- Zminus_mod. apply Z.mod_small. lia.
Qed.

(** Without any bound, it never exceeds the true elapsed time. *)
Lemma sub_millis_le T0 T1 :
  T0 <= T1 -> 0 <= Word.sub (millis T1) (millis T0) <= T1 - T0.
Proof.
  intros H. unfold Word.sub, millis, Word.wrap.
  rewrite <- Zminus_mod.
  assert (0 < Word.modulus) by (unfold Word.modulus; lia).
  split.
  - apply Z.mod_pos_bound; assumption.
  - apply Z.mod_le; lia.
Qed.

(** ** Sampling and the debounce guard *)

Lemma readButtons_sampled g s : readButtons g s = (sampled g s, []).
Proof. reflexivity. Qed.

Lemma handleButtons_debounced now g s :
  debounced now s = true ->
  handleButtons now g s = (sampled g s, []).
Proof.
  intros H. unfold handleButtons, seq, ifS.
  rewrite readButtons_sampled. cbn [fst snd].
  change (debounced now (sampled g s)) with (debounced now s).
  rewrite H. reflexivity.
Qed.

Lemma handleButtons_open now g s :
  debounced now s = false ->
  handleButtons now g s =
  (onUp now ;; onDown now ;; onSelect now ;; onBack now ;; updateLast) (sampled g s).
Proof.
  intros H. unfold handleButtons.
  unfold seq at 1. unfold ifS.
  rewrite readButtons_sampled. cbn [fst snd app].
  change (debounced now (sampled g s)) with (debounced now s).
  rewrite H. symmetry. apply surjective_pairing.
Qed.

(** ** The four blocks of handleButtons, one at a time *)

Lemma onUp_idle now s : upEdge s = false -> onUp now s = (s, []).
Proof.
  intros H. unfold upEdge in H. unfold onUp, when, ifS. rewrite H. reflexivity.
Qed.

Lemma onDown_idle now s : downEdge s = false -> onDown now s = (s, []).
Proof.
  intros H. unfold downEdge in H. unfold onDown, when, ifS. rewrite H. reflexivity.
Qed.

Lemma onSelect_idle now s : selectEdge s = false -> onSelect now s = (s, []).
Proof.
  intros H. unfold selectEdge in H. unfold onSelect, when, ifS. rewrite H. reflexivity.
Qed.

Lemma onBack_idle now s : backEdge s = false -> onBack now s = (s, []).
Proof.
  intros H. unfold backEdge in H. unfold onBack, when, ifS. rewrite H. reflexivity.
Qed.

(** Which globals a block may assign. *)
Lemma onUp_shape now s :
  fst (onUp now s) =
  set_btnState
    (set_lastPress (if upEdge s then now else lastPress (btnState s)) (btnState s))
    (set_menuSelection (menuSelection (fst (onUp now s))) s).
Proof. block; destruct s as [? ? ? ? [] ? ? ? ? ? ? ? ?]; reflexivity. Qed.

Lemma onDown_shape now s :
  fst (onDown now s) =
  set_btnState
    (set_lastPress (if downEdge s then now else lastPress (btnState s)) (btnState s))
    (set_menuSelection (menuSelection (fst (onDown now s))) s).
Proof. block; destruct s as [? ? ? ? [] ? ? ? ? ? ? ? ?]; reflexivity. Qed.

Lemma onSelect_shape now s :
  fst (onSelect now s) =
  let r := fst (onSelect now s) in
  set_btnState
    (set_lastPress (if selectEdge s then now else lastPress (btnState s)) (btnState s))
    (set_currentMode (currentMode r)
       (set_isTransmitting (isTransmitting r)
          (set_isJamming (isJamming r)
             (set_lastTransmit (lastTransmit r)
                (set_lastJam (lastJam r)
                   (set_transmitCount (transmitCount r) s)))))).
Proof. block; destruct s as [? ? ? ? [] ? ? ? ? ? ? ? ?]; reflexivity. Qed.

Lemma onBack_shape now s :
  fst (onBack now s) =
  let r := fst (onBack now s) in
  set_btnState
    (set_lastPress (if backEdge s then now else lastPress (btnState s)) (btnState s))
    (set_currentMode (currentMode r)
       (set_isTransmitting (isTransmitting r) (set_isJamming (isJamming r) s))).
Proof. block; destruct s as [? ? ? ? [] ? ? ? ? ? ? ? ?]; reflexivity. Qed.

(** The UP block in Menu: decrement, wrap below zero to the last item. *)
Lemma onUp_menu now s :
  upEdge s = true -> currentMode s = MENU ->
  menuSelection (fst (onUp now s)) =
  if Word.to_int (menuSelection s - 1) <? 0 then menuItems - 1
  else Word.to_int (menuSelection s - 1).
Proof.
  intros He Hm. unfold upEdge in He. unfold onUp, when, ifS, seq, modify, println.
  rewrite He, Hm. cbn. destruct (_ <? 0); reflexivity.
Qed.

(** The DOWN block in Menu: increment, wrap at the item count to zero. *)
Lemma onDown_menu now s :
  downEdge s = true -> currentMode s = MENU ->
  menuSelection (fst (onDown now s)) =
  if menuItems <=? Word.to_int (menuSelection s + 1) then 0
  else Word.to_int (menuSelection s + 1).
Proof.
  intros He Hm. unfold downEdge in He. unfold onDown, when, ifS, seq, modify, println.
  rewrite He, Hm. cbn. destruct (_ <=? _); reflexivity.
Qed.

(** Outside Menu neither block touches the selection. *)
Lemma onUp_other now s :
  currentMode s <> MENU -> menuSelection (fst (onUp now s)) = menuSelection s.
Proof.
  intros H. block; try reflexivity; destruct (currentMode s); cbn in *; congruence.
Qed.

Lemma onDown_other now s :
  currentMode s <> MENU -> menuSelection (fst (onDown now s)) = menuSelection s.
Proof.
  intros H. block; try reflexivity; destruct (currentMode s); cbn in *; congruence.
Qed.

Lemma onUp_range now s : inMenuRange s -> inMenuRange (fst (onUp now s)).
Proof.
  unfold inMenuRange, menuItems. intros H.
  destruct (upEdge s) eqn:He; [| rewrite onUp_idle; assumption].
  destruct (currentMode s) eqn:Hm;
    try (rewrite onUp_other; [assumption | congruence]).
  rewrite onUp_menu by assumption.
  rewrite to_int_small by (unfold Word.half; lia).
  destruct (_ <? 0) eqn:Ht; zify_tests; unfold menuItems; lia.
Qed.

Lemma onDown_range now s : inMenuRange s -> inMenuRange (fst (onDown now s)).
Proof.
  unfold inMenuRange, menuItems. intros H.
  destruct (downEdge s) eqn:He; [| rewrite onDown_idle; assumption].
  destruct (currentMode s) eqn:Hm;
    try (rewrite onDown_other; [assumption | congruence]).
  rewrite onDown_menu by assumption.
  rewrite to_int_small by (unfold Word.half; lia).
  destruct (_ <=? _) eqn:Ht; zify_tests; unfold menuItems in *; lia.
Qed.

(** The four outcomes of [switch(menuSelection)]. *)
Lemma enterSelected_state s :
  fst (enterSelected s) =
  if menuSelection s =? 0 then set_currentMode READ s
  else if menuSelection s =? 1 then set_currentMode EMULATE s
  else if menuSelection s =? 2 then set_currentMode JAM s
  else s.
Proof. unfold enterSelected. repeat (destruct (_ =? _)); reflexivity. Qed.

(** The SELECT block, mode by mode. *)
Lemma onSelect_menu now s :
  selectEdge s = true -> currentMode s = MENU ->
  fst (onSelect now s) =
  stamped now
    (set_transmitCount 0
       (set_isJamming false (set_isTransmitting false (fst (enterSelected s))))).
Proof.
  intros He Hm. unfold selectEdge in He.
  unfold onSelect, when, ifS, seq, modify, println.
  rewrite He. cbn [fst snd]. rewrite Hm. reflexivity.
Qed.

Lemma onSelect_emulate_valid now s :
  selectEdge s = true -> currentMode s = EMULATE -> valid (capturedSignal s) = true ->
  fst (onSelect now s) =
  stamped now
    (set_lastTransmit 0 (set_transmitCount 0 (set_isTransmitting (negb (isTransmitting s)) s))).
Proof.
  intros He Hm Hv. unfold selectEdge in He.
  unfold onSelect, when, ifS, seq, modify, println.
  rewrite He. cbn [fst snd]. rewrite Hm, Hv. reflexivity.
Qed.

Lemma onSelect_emulate_invalid now s :
  selectEdge s = true -> currentMode s = EMULATE -> valid (capturedSignal s) = false ->
  onSelect now s =
  (stamped now s,
   [Serial "SELECT pressed in mode: 2"; Serial "ERROR: No signal captured!"]).
Proof.
  intros He Hm Hv. unfold selectEdge in He.
  unfold onSelect, when, ifS, seq, modify, println.
  rewrite He. cbn [fst snd]. rewrite Hm, Hv. reflexivity.
Qed.

Lemma onSelect_jam now s :
  selectEdge s = true -> currentMode s = JAM ->
  fst (onSelect now s) =
  stamped now (set_lastJam 0 (set_isJamming (negb (isJamming s)) s)).
Proof.
  intros He Hm. unfold selectEdge in He.
  unfold onSelect, when, ifS, seq, modify, println.
  rewrite He. cbn [fst snd]. rewrite Hm. reflexivity.
Qed.

Lemma onSelect_read now s :
  selectEdge s = true -> currentMode s = READ ->
  fst (onSelect now s) = stamped now s.
Proof.
  intros He Hm. unfold selectEdge in He.
  unfold onSelect, when, ifS, seq, modify, println.
  rewrite He. cbn [fst snd]. rewrite Hm. reflexivity.
Qed.

(** The BACK block. *)
Lemma onBack_fire now s :
  backEdge s = true ->
  fst (onBack now s) =
  stamped now (set_isJamming false (set_isTransmitting false (set_currentMode MENU s))).
Proof.
  intros He. unfold backEdge in He.
  unfold onBack, when, ifS, seq, modify, println.
  rewrite He. reflexivity.
Qed.

(** A block changes nothing in [btnState] but the stamp. *)
Lemma onUp_btnState now s :
  btnState (fst (onUp now s)) =
  set_lastPress (if upEdge s then now else lastPress (btnState s)) (btnState s).
Proof. rewrite onUp_shape. reflexivity. Qed.

Lemma onDown_btnState now s :
  btnState (fst (onDown now s)) =
  set_lastPress (if downEdge s then now else lastPress (btnState s)) (btnState s).
Proof. rewrite onDown_shape. reflexivity. Qed.

Lemma onSelect_btnState now s :
  btnState (fst (onSelect now s)) =
  set_lastPress (if selectEdge s then now else lastPress (btnState s)) (btnState s).
Proof. rewrite onSelect_shape. reflexivity. Qed.

Lemma onBack_btnState now s :
  btnState (fst (onBack now s)) =
  set_lastPress (if backEdge s then now else lastPress (btnState s)) (btnState s).
Proof. rewrite onBack_shape. reflexivity. Qed.

(** Hence the edge tests of the later blocks see what [readButtons] left. *)
Lemma edges_after_stamp s s' v :
  btnState s' = set_lastPress v (btnState s) ->
  upEdge s' = upEdge s /\ downEdge s' = downEdge s /\
  selectEdge s' = selectEdge s /\ backEdge s' = backEdge s.
Proof. unfold_edges. intros ->. repeat split. Qed.

(** ** A whole call of handleButtons *)

Section OpenCall.

Variables (now : Z) (s : State).

Lemma blocks_edges :
  downEdge (afterUp now s) = downEdge s /\
  selectEdge (afterDown now s) = selectEdge s /\
  backEdge (afterSelect now s) = backEdge s.
Proof.
  destruct (edges_after_stamp s (afterUp now s) _ (onUp_btnState now s))
    as (_ & Hd1 & Hs1 & Hb1).
  destruct (edges_after_stamp (afterUp now s) (afterDown now s) _
              (onDown_btnState now (afterUp now s))) as (_ & _ & Hs2 & Hb2).
  destruct (edges_after_stamp (afterDown now s) (afterSelect now s) _
              (onSelect_btnState now (afterDown now s))) as (_ & _ & _ & Hb3).
  repeat split; congruence.
Qed.

Lemma blocks_btnState :
  btnState (afterBack now s) =
  set_lastPress (if anyEdge s then now else lastPress (btnState s)) (btnState s).
Proof.
  destruct blocks_edges as (Hd & Hs & Hb).
  unfold afterBack. rewrite onBack_btnState, Hb.
  unfold afterSelect. rewrite onSelect_btnState, Hs.
  unfold afterDown. rewrite onDown_btnState, Hd.
  unfold afterUp. rewrite onUp_btnState.
  unfold anyEdge.
  destruct (upEdge s), (downEdge s), (selectEdge s), (backEdge s); reflexivity.
Qed.

Lemma blocks_mode_before_select : currentMode (afterDown now s) = currentMode s.
Proof.
  unfold afterDown, afterUp. rewrite onDown_shape. cbn.
  rewrite onUp_shape. reflexivity.
Qed.

Lemma blocks_range : inMenuRange s -> inMenuRange (afterBack now s).
Proof.
  intros H. unfold afterBack, afterSelect. rewrite onBack_shape. cbn.
  rewrite onSelect_shape. cbn.
  change (inMenuRange (afterDown now s)).
  unfold afterDown, afterUp. apply onDown_range, onUp_range, H.
Qed.

End OpenCall.

Lemma handleButtons_open_state now g s :
  debounced now s = false ->
  fst (handleButtons now g s) = snapshot (afterBack now (sampled g s)).
Proof. intros H. rewrite (handleButtons_open _ _ _ H). reflexivity. Qed.

(** After a call that passes the debounce test, [btnState] holds the new
    samples, the snapshot taken from them, and a fresh stamp if any of the
    four edges was seen. *)
Lemma handleButtons_open_btnState now g s :
  debounced now s = false ->
  btnState (fst (handleButtons now g s)) =
  set_lasts (set_lastPress
               (if anyEdge (sampled g s) then now else lastPress (btnState s))
               (btnState (sampled g s))).
Proof.
  intros H. rewrite (handleButtons_open_state _ _ _ H).
  unfold snapshot. cbn [btnState set_btnState].
  rewrite blocks_btnState. reflexivity.
Qed.

Lemma onlyButtons_trans s1 s2 s3 :
  onlyButtons s1 s2 -> onlyButtons s2 s3 -> onlyButtons s1 s3.
Proof. unfold onlyButtons. intros H1 H2. rewrite H2, H1. reflexivity. Qed.

Lemma onlyButtons_set b s : onlyButtons s (set_btnState b s).
Proof. reflexivity. Qed.

Lemma onUp_onlyButtons now s : currentMode s <> MENU -> onlyButtons s (fst (onUp now s)).
Proof.
  intros H. pose proof (onUp_shape now s) as Hs.
  rewrite (onUp_other _ _ H) in Hs.
  unfold onlyButtons. rewrite onUp_btnState, Hs. destruct s; reflexivity.
Qed.

Lemma onDown_onlyButtons now s : currentMode s <> MENU -> onlyButtons s (fst (onDown now s)).
Proof.
  intros H. pose proof (onDown_shape now s) as Hs.
  rewrite (onDown_other _ _ H) in Hs.
  unfold onlyButtons. rewrite onDown_btnState, Hs. destruct s; reflexivity.
Qed.

Lemma onlyButtons_mode s s' : onlyButtons s s' -> currentMode s' = currentMode s.
Proof. intros ->. reflexivity. Qed.

(** ** Debounce and the snapshot *)

(** C1 as stated fails.  One second after boot a press of Back was
    accepted; at 1100 ms Up is sampled as pressed.  The call returns early
    and the snapshot of Up stays low although the sample is high; at
    1250 ms, with Up still held, the edge is handled: the menu selection
    moves. *)
Lemma snapshot_stale_after_debounced_call :
  debounced 1100 pressedAt1000 = true /\
  up (btnState (fst (handleButtons 1100 (holding BTN_UP) pressedAt1000))) = true /\
  upLast (btnState (fst (handleButtons 1100 (holding BTN_UP) pressedAt1000)))
  <> up (btnState (fst (handleButtons 1100 (holding BTN_UP) pressedAt1000))) /\
  menuSelection (fst (handleButtons 1100 (holding BTN_UP) pressedAt1000)) = 0 /\
  menuSelection
    (fst (handleButtons 1250 (holding BTN_UP)
            (fst (handleButtons 1100 (holding BTN_UP) pressedAt1000)))) = 2 /\
  lastPress
    (btnState
       (fst (handleButtons 1250 (holding BTN_UP)
               (fst (handleButtons 1100 (holding BTN_UP) pressedAt1000))))) = 1250 /\
  snd (handleButtons 1250 (holding BTN_UP)
         (fst (handleButtons 1100 (holding BTN_UP) pressedAt1000)))
  = [Serial "Menu UP -> 2"].
Proof.
  vm_compute. repeat split; try reflexivity. discriminate.
Qed.

(** C1, as amended.  A call that passes the debounce test leaves the
    snapshot equal to the samples it has just taken.  A call that returns
    early because [now - lastPress < DEBOUNCE_DELAY] refreshes the four
    current samples and nothing else: the snapshot keeps its old value.
    The next call therefore behaves exactly as if the early-returning call
    had not happened, and a rising edge first sampled inside the debounce
    window is accepted by the first call outside the window that still
    samples the button as pressed. *)
Theorem snapshot_updated_by_open_calls_only now g s :
  (debounced now s = false ->
   upLast (btnState (fst (handleButtons now g s))) = pressed g BTN_UP /\
   downLast (btnState (fst (handleButtons now g s))) = pressed g BTN_DOWN /\
   selectLast (btnState (fst (handleButtons now g s))) = pressed g BTN_SELECT /\
   backLast (btnState (fst (handleButtons now g s))) = pressed g BTN_BACK) /\
  (debounced now s = true ->
   handleButtons now g s = (sampled g s, []) /\
   (forall now2 g2,
       handleButtons now2 g2 (fst (handleButtons now g s)) = handleButtons now2 g2 s) /\
   (forall now2 g2,
       debounced now2 s = false -> anyEdge (sampled g2 s) = true ->
       lastPress (btnState (fst (handleButtons now2 g2 (fst (handleButtons now g s)))))
       = now2)).
Proof.
  split.
  - intros Hd. rewrite (handleButtons_open_btnState _ _ _ Hd). repeat split.
  - intros Hd. rewrite (handleButtons_debounced _ _ _ Hd). cbn [fst].
    split; [reflexivity | split].
    + reflexivity.
    + intros now2 g2 Hopen He.
      change (handleButtons now2 g2 (sampled g s)) with (handleButtons now2 g2 s).
      rewrite (handleButtons_open_btnState _ _ _ Hopen), He. reflexivity.
Qed.

Lemma snapshot_updated_by_open_calls_only_witness :
  (debounced 1250 pressedAt1000 = false /\
   upLast (btnState (fst (handleButtons 1250 (holding BTN_UP) pressedAt1000))) = true) /\
  (debounced 1100 pressedAt1000 = true /\
   anyEdge (sampled (holding BTN_UP) pressedAt1000) = true /\
   handleButtons 1100 (holding BTN_UP) pressedAt1000
   = (sampled (holding BTN_UP) pressedAt1000, []) /\
   lastPress (btnState (fst (handleButtons 1250 (holding BTN_UP)
     (fst (handleButtons 1100 (holding BTN_UP) pressedAt1000))))) = 1250).
Proof.
  split.
  - split; [reflexivity |].
    apply (proj1 (snapshot_updated_by_open_calls_only 1250 (holding BTN_UP) pressedAt1000)).
    reflexivity.
  - destruct (proj2 (snapshot_updated_by_open_calls_only 1100 (holding BTN_UP)
                       pressedAt1000) eq_refl) as (H1 & _ & H3).
    split; [reflexivity | split; [reflexivity | split; [exact H1 |]]].
    apply H3; reflexivity.
Defined.

(** ** Presses without effect *)

Lemma onlyButtons_sampled g s : onlyButtons s (sampled g s).
Proof. apply onlyButtons_set. Qed.

Lemma onlyButtons_stamped now s : onlyButtons s (stamped now s).
Proof. apply onlyButtons_set. Qed.

Lemma onlyButtons_snapshot s : onlyButtons s (snapshot s).
Proof. apply onlyButtons_set. Qed.

(** Outside Menu, and without a Back edge, only the SELECT block can
    change anything but [btnState]. *)
Lemma afterDown_onlyButtons now s :
  currentMode s <> MENU -> onlyButtons s (afterDown now s).
Proof.
  intros H. unfold afterDown, afterUp.
  assert (H1 := onUp_onlyButtons now s H).
  eapply onlyButtons_trans; [exact H1 |].
  apply onDown_onlyButtons. rewrite (onlyButtons_mode _ _ H1). exact H.
Qed.

Lemma afterBack_idle now s :
  backEdge s = false -> afterBack now s = afterSelect now s.
Proof.
  intros H. unfold afterBack.
  destruct (blocks_edges now s) as (_ & _ & Hb).
  rewrite onBack_idle; [reflexivity | congruence].
Qed.

Lemma afterSelect_idle now s :
  selectEdge s = false -> afterSelect now s = afterDown now s.
Proof.
  intros H. unfold afterSelect.
  destruct (blocks_edges now s) as (_ & Hs & _).
  rewrite onSelect_idle; [reflexivity | congruence].
Qed.

Lemma afterDown_idle now s :
  upEdge s = false -> downEdge s = false -> afterDown now s = s.
Proof.
  intros Hu Hd. unfold afterDown, afterUp.
  rewrite (onUp_idle _ _ Hu). cbn [fst]. rewrite (onDown_idle _ _ Hd). reflexivity.
Qed.

Lemma read_call_onlyButtons now g s :
  debounced now s = false -> currentMode s = READ -> backEdge (sampled g s) = false ->
  onlyButtons s (fst (handleButtons now g s)).
Proof.
  intros Hd Hm Hb. rewrite (handleButtons_open_state _ _ _ Hd).
  set (s0 := sampled g s) in *.
  assert (Hm0 : currentMode s0 = READ) by exact Hm.
  assert (H2 : onlyButtons s0 (afterDown now s0))
    by (apply afterDown_onlyButtons; congruence).
  assert (H3 : onlyButtons s0 (afterSelect now s0)).
  { destruct (selectEdge s0) eqn:Hs.
    - unfold afterSelect. rewrite onSelect_read.
      + eapply onlyButtons_trans; [exact H2 | apply onlyButtons_stamped].
      + destruct (blocks_edges now s0) as (_ & Hs' & _). congruence.
      + rewrite (onlyButtons_mode _ _ H2). exact Hm0.
    - rewrite (afterSelect_idle _ _ Hs). exact H2. }
  rewrite (afterBack_idle _ _ Hb).
  eapply onlyButtons_trans; [apply onlyButtons_sampled |].
  eapply onlyButtons_trans; [exact H3 | apply onlyButtons_snapshot].
Qed.

Lemma menu_back_onlyButtons now g s :
  debounced now s = false -> currentMode s = MENU ->
  isTransmitting s = false -> isJamming s = false ->
  upEdge (sampled g s) = false -> downEdge (sampled g s) = false ->
  selectEdge (sampled g s) = false ->
  onlyButtons s (fst (handleButtons now g s)).
Proof.
  intros Hd Hm Ht Hj Hu Hdn Hs. rewrite (handleButtons_open_state _ _ _ Hd).
  set (s0 := sampled g s) in *.
  eapply onlyButtons_trans; [| apply onlyButtons_snapshot].
  unfold afterBack. rewrite (afterSelect_idle _ _ Hs), (afterDown_idle _ _ Hu Hdn).
  destruct (backEdge s0) eqn:Hb.
  - rewrite (onBack_fire _ _ Hb). subst s0. unfold onlyButtons.
    destruct s; cbn in *; subst; reflexivity.
  - rewrite (onBack_idle _ _ Hb). apply onlyButtons_sampled.
Qed.

(** C10.  On a call that passes the debounce test, a rising edge on any of
    the four buttons leaves [lastPress = now], whatever the mode.  This
    includes presses that change nothing else: any press without a Back
    edge in Read mode, and Back in the menu with both flags already off.
    Every call made less than DEBOUNCE_DELAY later then returns early and
    handles no edge of any button. *)
Theorem every_accepted_edge_stamps now g s :
  debounced now s = false -> anyEdge (sampled g s) = true ->
  lastPress (btnState (fst (handleButtons now g s))) = now /\
  (currentMode s = READ -> backEdge (sampled g s) = false ->
   onlyButtons s (fst (handleButtons now g s))) /\
  (currentMode s = MENU -> isTransmitting s = false -> isJamming s = false ->
   upEdge (sampled g s) = false -> downEdge (sampled g s) = false ->
   selectEdge (sampled g s) = false ->
   onlyButtons s (fst (handleButtons now g s))) /\
  (forall now2 g2,
      (Word.sub now2 now <? DEBOUNCE_DELAY) = true ->
      handleButtons now2 g2 (fst (handleButtons now g s)) =
      (sampled g2 (fst (handleButtons now g s)), [])).
Proof.
  intros Hd He.
  assert (Hstamp : lastPress (btnState (fst (handleButtons now g s))) = now).
  { rewrite (handleButtons_open_btnState _ _ _ Hd), He. reflexivity. }
  split; [exact Hstamp | split; [| split]].
  - intros Hm Hb. apply read_call_onlyButtons; assumption.
  - intros. apply menu_back_onlyButtons; assumption.
  - intros now2 g2 H2. apply handleButtons_debounced.
    unfold debounced. rewrite Hstamp. exact H2.
Qed.

Lemma every_accepted_edge_stamps_witness :
  debounced 5000 readLinkLost = false /\
  anyEdge (sampled (holding BTN_UP) readLinkLost) = true /\
  lastPress (btnState (fst (handleButtons 5000 (holding BTN_UP) readLinkLost))) = 5000 /\
  onlyButtons readLinkLost (fst (handleButtons 5000 (holding BTN_UP) readLinkLost)) /\
  handleButtons 5199 (holding BTN_SELECT)
    (fst (handleButtons 5000 (holding BTN_UP) readLinkLost))
  = (sampled (holding BTN_SELECT)
       (fst (handleButtons 5000 (holding BTN_UP) readLinkLost)), []).
Proof.
  pose proof (every_accepted_edge_stamps 5000 (holding BTN_UP) readLinkLost
                eq_refl eq_refl) as (H1 & H2 & _ & H4).
  split; [reflexivity | split; [reflexivity | split; [exact H1 | split]]].
  - apply H2; reflexivity.
  - apply H4. reflexivity.
Defined.

(** ** Menu navigation *)

Lemma afterBack_menuSelection now s :
  menuSelection (afterBack now s) = menuSelection (afterDown now s).
Proof.
  unfold afterBack, afterSelect. rewrite onBack_shape. cbn.
  rewrite onSelect_shape. reflexivity.
Qed.

Lemma handleButtons_range now g s :
  inMenuRange s -> inMenuRange (fst (handleButtons now g s)).
Proof.
  intros H. destruct (debounced now s) eqn:Hd.
  - rewrite (handleButtons_debounced _ _ _ Hd). exact H.
  - rewrite (handleButtons_open_state _ _ _ Hd).
    change (inMenuRange (afterBack now (sampled g s))).
    apply blocks_range. exact H.
Qed.

Lemma up_call_menuSelection now g s :
  debounced now s = false -> downEdge (sampled g s) = false ->
  menuSelection (fst (handleButtons now g s)) =
  menuSelection (fst (onUp now (sampled g s))).
Proof.
  intros Hd Hdn. rewrite (handleButtons_open_state _ _ _ Hd).
  change (menuSelection (afterBack now (sampled g s)) =
          menuSelection (afterUp now (sampled g s))).
  rewrite afterBack_menuSelection. unfold afterDown.
  destruct (blocks_edges now (sampled g s)) as (Hd1 & _ & _).
  rewrite onDown_idle; [reflexivity | congruence].
Qed.

Lemma down_call_menuSelection now g s :
  debounced now s = false -> upEdge (sampled g s) = false ->
  menuSelection (fst (handleButtons now g s)) =
  menuSelection (fst (onDown now (sampled g s))).
Proof.
  intros Hd Hu. rewrite (handleButtons_open_state _ _ _ Hd).
  change (menuSelection (afterBack now (sampled g s)) =
          menuSelection (fst (onDown now (sampled g s)))).
  rewrite afterBack_menuSelection. unfold afterDown, afterUp.
  rewrite (onUp_idle _ _ Hu). reflexivity.
Qed.

(** C8.  Every call of handleButtons keeps [menuSelection] within
    [0, menuItems).  In the menu, the UP block takes selection 0 to 2 and
    the DOWN block takes selection 2 to 0; so does a whole call that
    accepts an Up edge (respectively a Down edge) and not the opposite
    one. *)
Theorem menu_wraparound now g s :
  (inMenuRange s -> inMenuRange (fst (handleButtons now g s))) /\
  (currentMode s = MENU -> upEdge s = true ->
   menuSelection s = 0 -> menuSelection (fst (onUp now s)) = 2) /\
  (currentMode s = MENU -> downEdge s = true ->
   menuSelection s = 2 -> menuSelection (fst (onDown now s)) = 0) /\
  (debounced now s = false -> currentMode s = MENU ->
   upEdge (sampled g s) = true -> downEdge (sampled g s) = false ->
   menuSelection s = 0 -> menuSelection (fst (handleButtons now g s)) = 2) /\
  (debounced now s = false -> currentMode s = MENU ->
   downEdge (sampled g s) = true -> upEdge (sampled g s) = false ->
   menuSelection s = 2 -> menuSelection (fst (handleButtons now g s)) = 0).
Proof.
  split; [apply handleButtons_range |].
  split; [| split; [| split]].
  - intros Hm He H0. rewrite (onUp_menu _ _ He Hm), H0. reflexivity.
  - intros Hm He H2. rewrite (onDown_menu _ _ He Hm), H2. reflexivity.
  - intros Hd Hm Hu Hdn H0. rewrite (up_call_menuSelection _ _ _ Hd Hdn).
    rewrite (onUp_menu _ _ Hu Hm). change (menuSelection (sampled g s)) with (menuSelection s).
    rewrite H0. reflexivity.
  - intros Hd Hm Hdn Hu H2. rewrite (down_call_menuSelection _ _ _ Hd Hu).
    rewrite (onDown_menu _ _ Hdn Hm). change (menuSelection (sampled g s)) with (menuSelection s).
    rewrite H2. reflexivity.
Qed.

Lemma menu_wraparound_witness :
  inMenuRange initial /\
  inMenuRange (fst (handleButtons 5000 (holding BTN_UP) initial)) /\
  menuSelection (fst (handleButtons 5000 (holding BTN_UP) initial)) = 2 /\
  menuSelection
    (fst (handleButtons 5000 (holding BTN_DOWN) (set_menuSelection 2 initial))) = 0.
Proof.
  assert (Hr : inMenuRange initial) by (unfold inMenuRange, menuItems; cbn; lia).
  destruct (menu_wraparound 5000 (holding BTN_UP) initial) as (H1 & _ & _ & H4 & _).
  destruct (menu_wraparound 5000 (holding BTN_DOWN) (set_menuSelection 2 initial))
    as (_ & _ & _ & _ & H5).
  split; [exact Hr | split; [exact (H1 Hr) | split]].
  - apply H4; reflexivity.
  - apply H5; reflexivity.
Defined.

(** ** Sequencing *)

(** The log of a sequence is the concatenation of the logs. *)
Lemma snd_seq c1 c2 s : snd ((c1 ;; c2) s) = snd (c1 s) ++ snd (c2 (fst (c1 s))).
Proof. reflexivity. Qed.

(** ** What each part of a pass may assign *)

Lemma monitor_shape tk s :
  fst (monitor tk s) =
  set_lastRFCheck (lastRFCheck (fst (monitor tk s)))
    (set_rfModuleConnected (rfModuleConnected (fst (monitor tk s))) s).
Proof.
  unfold monitor, when, ifS. destruct (recheckDue _ s); destruct s; reflexivity.
Qed.

Lemma animate_shape tk s :
  fst (animate tk s) =
  set_lastAnimUpdate (lastAnimUpdate (fst (animate tk s)))
    (set_animFrame (animFrame (fst (animate tk s))) s).
Proof.
  unfold animate, when, ifS. destruct (animDue _ s); destruct s; reflexivity.
Qed.

Lemma buttonsFrame_trans s1 s2 s3 :
  buttonsFrame s1 s2 -> buttonsFrame s2 s3 -> buttonsFrame s1 s3.
Proof.
  unfold buttonsFrame. intros (? & ? & ? & ? & ?) (? & ? & ? & ? & ?).
  repeat split; congruence.
Qed.

Lemma onUp_frame now s : buttonsFrame s (fst (onUp now s)).
Proof. rewrite onUp_shape. repeat split. Qed.

Lemma onDown_frame now s : buttonsFrame s (fst (onDown now s)).
Proof. rewrite onDown_shape. repeat split. Qed.

Lemma onSelect_frame now s : buttonsFrame s (fst (onSelect now s)).
Proof. rewrite onSelect_shape. repeat split. Qed.

Lemma onBack_frame now s : buttonsFrame s (fst (onBack now s)).
Proof. rewrite onBack_shape. repeat split. Qed.

Lemma handleButtons_frame now g s : buttonsFrame s (fst (handleButtons now g s)).
Proof.
  destruct (debounced now s) eqn:Hd.
  - rewrite (handleButtons_debounced _ _ _ Hd). repeat split.
  - rewrite (handleButtons_open_state _ _ _ Hd).
    apply buttonsFrame_trans with (afterBack now (sampled g s)); [| repeat split].
    apply buttonsFrame_trans with (sampled g s); [repeat split |].
    unfold afterBack, afterSelect, afterDown, afterUp.
    eapply buttonsFrame_trans; [apply onUp_frame |].
    eapply buttonsFrame_trans; [apply onDown_frame |].
    eapply buttonsFrame_trans; [apply onSelect_frame | apply onBack_frame].
Qed.

(** The log of handleButtons holds serial lines only. *)
Lemma onUp_serial now s : forallb isSerial (snd (onUp now s)) = true.
Proof. block; reflexivity. Qed.

Lemma onDown_serial now s : forallb isSerial (snd (onDown now s)) = true.
Proof. block; reflexivity. Qed.

Lemma onSelect_serial now s : forallb isSerial (snd (onSelect now s)) = true.
Proof. block; reflexivity. Qed.

Lemma onBack_serial now s : forallb isSerial (snd (onBack now s)) = true.
Proof. block; reflexivity. Qed.

Lemma handleButtons_serial now g s :
  forallb isSerial (snd (handleButtons now g s)) = true.
Proof.
  destruct (debounced now s) eqn:Hd.
  - rewrite (handleButtons_debounced _ _ _ Hd). reflexivity.
  - rewrite (handleButtons_open _ _ _ Hd).
    rewrite !snd_seq, !forallb_app.
    rewrite onUp_serial, onDown_serial, onSelect_serial, onBack_serial.
    reflexivity.
Qed.

Lemma serial_not_radio evs :
  forallb isSerial evs = true -> filter isRadio evs = [] /\ frames evs = [].
Proof.
  induction evs as [| e evs IH]; [split; reflexivity |].
  cbn [forallb]. intros H. apply andb_true_iff in H. destruct H as (He & H).
  destruct (IH H) as (IH1 & IH2).
  destruct e; try discriminate. cbn. auto.
Qed.

(** ** Reception *)

Lemma handleRFReception_zero ev now s :
  rxValue ev = 0 ->
  handleRFReception (Some ev) now s = (s, [RxAvailable true; RxReset]).
Proof.
  intros H. unfold handleRFReception. rewrite H. reflexivity.
Qed.

Lemma handleRFReception_nonzero ev now s :
  rxValue ev <> 0 ->
  fst (handleRFReception (Some ev) now s) = set_capturedSignal (captureOf ev now) s.
Proof.
  intros H. unfold handleRFReception.
  apply Z.eqb_neq in H. rewrite H. reflexivity.
Qed.

Lemma modeLogic_read tk s :
  currentMode s = READ -> rfModuleConnected s = true ->
  modeLogic tk s =
  (handleRFReception (rx tk) (millis (t_action tk)) ;; drawReadMode (millis (t_draw tk))) s.
Proof. intros Hm Hc. unfold modeLogic. rewrite Hm, Hc. reflexivity. Qed.

(** C4.  When the receiver holds a transmission at the poll: a value of
    zero leaves the whole state, and so the captured record and its
    [valid] flag, as it was, and the transmission is dropped by
    [resetAvailable]; a nonzero value replaces the record by the received
    value, bit length, protocol and pulse length, [valid = true], and the
    clock reading as capture time.  In Read mode with the link up this is
    what the mode switch does. *)
Theorem reception_overwrites_unless_zero ev now s :
  (rxValue ev = 0 ->
   handleRFReception (Some ev) now s = (s, [RxAvailable true; RxReset])) /\
  (rxValue ev <> 0 ->
   fst (handleRFReception (Some ev) now s) =
   set_capturedSignal
     (mkRFSignal (rxValue ev) (rxBitlength ev) (rxProtocol ev) (rxDelay ev) true now) s) /\
  (forall tk,
      currentMode s = READ -> rfModuleConnected s = true ->
      rx tk = Some ev -> millis (t_action tk) = now ->
      fst (modeLogic tk s) = fst (handleRFReception (Some ev) now s)).
Proof.
  split; [apply handleRFReception_zero | split].
  - apply handleRFReception_nonzero.
  - intros tk Hm Hc Hrx Hnow. rewrite (modeLogic_read _ _ Hm Hc), Hrx, Hnow.
    reflexivity.
Qed.

Lemma reception_overwrites_unless_zero_witness :
  handleRFReception (Some noise) 2000 emulateReady
  = (emulateReady, [RxAvailable true; RxReset]) /\
  capturedSignal (fst (handleRFReception (Some remote) 2000 initial))
  = mkRFSignal 0xABCD12 24 1 350 true 2000.
Proof.
  destruct (reception_overwrites_unless_zero noise 2000 emulateReady) as (H1 & _).
  destruct (reception_overwrites_unless_zero remote 2000 initial) as (_ & H2 & _).
  split; [apply H1; reflexivity |].
  rewrite H2; [reflexivity | discriminate].
Defined.

(** ** The mode switch *)

Lemma modeLogic_store tk s :
  capturedSignal (fst (modeLogic tk s)) =
  match currentMode s, rfModuleConnected s, rx tk with
  | READ, true, Some ev =>
      if rxValue ev =? 0 then capturedSignal s
      else captureOf ev (millis (t_action tk))
  | _, _, _ => capturedSignal s
  end.
Proof.
  unfold modeLogic, rfError, displayWarning, drawMenu, handleRFReception,
    transmitSignal, jamSignals, drawEmulateMode, drawJamMode, drawReadMode.
  destruct (currentMode s), (rfModuleConnected s); try reflexivity.
  - destruct (rx tk) as [ev |]; [| reflexivity].
    destruct (rxValue ev =? 0); reflexivity.
  - unfold_cmds. cbn. repeat (split_if; cbn); reflexivity.
  - unfold_cmds. cbn. repeat (split_if; cbn); reflexivity.
Qed.

(** The mode switch leaves the mode, the selection, the flags, the link
    status and the buttons alone. *)
Lemma modeLogic_shape tk s :
  fst (modeLogic tk s) =
  let r := fst (modeLogic tk s) in
  set_capturedSignal (capturedSignal r)
    (set_lastTransmit (lastTransmit r)
       (set_lastJam (lastJam r) (set_transmitCount (transmitCount r) s))).
Proof.
  unfold modeLogic, rfError, displayWarning, drawMenu, handleRFReception,
    transmitSignal, jamSignals, drawEmulateMode, drawJamMode, drawReadMode.
  destruct (currentMode s), (rfModuleConnected s);
    try (destruct s; reflexivity).
  - destruct (rx tk) as [ev |]; [| destruct s; reflexivity].
    destruct (rxValue ev =? 0); destruct s; reflexivity.
  - unfold_cmds. cbn. repeat (split_if; cbn); destruct s; reflexivity.
  - unfold_cmds. cbn. repeat (split_if; cbn); destruct s; reflexivity.
Qed.

(** ** The part of a pass before the mode switch *)

Lemma atSwitch_eq tk s :
  atSwitch tk s =
  fst (handleButtons (millis (t_buttons tk)) (gpio tk)
         (fst (animate tk (fst (monitor tk s))))).
Proof. reflexivity. Qed.

Lemma loop_state tk s : fst (loop tk s) = fst (modeLogic tk (atSwitch tk s)).
Proof. reflexivity. Qed.

Lemma loop_log tk s :
  snd (loop tk s) =
  snd (prelude tk s) ++ snd (modeLogic tk (atSwitch tk s)) ++ [Delay 30].
Proof. reflexivity. Qed.

Lemma atSwitch_store tk s : capturedSignal (atSwitch tk s) = capturedSignal s.
Proof.
  rewrite atSwitch_eq.
  destruct (handleButtons_frame (millis (t_buttons tk)) (gpio tk)
              (fst (animate tk (fst (monitor tk s))))) as (_ & _ & -> & _).
  rewrite animate_shape. cbn. rewrite monitor_shape. reflexivity.
Qed.

Lemma atSwitch_link tk s :
  rfModuleConnected (atSwitch tk s) = rfModuleConnected (fst (monitor tk s)).
Proof.
  rewrite atSwitch_eq.
  destruct (handleButtons_frame (millis (t_buttons tk)) (gpio tk)
              (fst (animate tk (fst (monitor tk s))))) as (-> & _).
  rewrite animate_shape. reflexivity.
Qed.

(** ** The captured signal over a run *)

Lemma loop_store tk s :
  capturedSignal (fst (loop tk s)) =
  match currentMode (atSwitch tk s), rfModuleConnected (atSwitch tk s), rx tk with
  | READ, true, Some ev =>
      if rxValue ev =? 0 then capturedSignal s
      else captureOf ev (millis (t_action tk))
  | _, _, _ => capturedSignal s
  end.
Proof.
  rewrite loop_state, modeLogic_store, atSwitch_store. reflexivity.
Qed.

Lemma loop_store_cases tk s :
  capturedSignal (fst (loop tk s)) = capturedSignal s \/
  exists ev,
    rx tk = Some ev /\ rxValue ev <> 0 /\
    currentMode (atSwitch tk s) = READ /\
    rfModuleConnected (atSwitch tk s) = true /\
    capturedSignal (fst (loop tk s)) = captureOf ev (millis (t_action tk)).
Proof.
  rewrite loop_store.
  destruct (currentMode (atSwitch tk s)); auto.
  destruct (rfModuleConnected (atSwitch tk s)); auto.
  destruct (rx tk) as [ev |]; auto.
  destruct (rxValue ev =? 0) eqn:Hz; auto.
  right. exists ev. apply Z.eqb_neq in Hz. auto.
Qed.

Lemma loop_keeps_valid tk s :
  valid (capturedSignal s) = true -> valid (capturedSignal (fst (loop tk s))) = true.
Proof.
  intros H. destruct (loop_store_cases tk s) as [-> | (ev & _ & _ & _ & _ & ->)];
    [exact H | reflexivity].
Qed.

Lemma run_keeps_valid ticks :
  forall s, valid (capturedSignal s) = true ->
            valid (capturedSignal (fst (run ticks s))) = true.
Proof.
  induction ticks as [| tk rest IH]; intros s H; [exact H |].
  cbn [run fst]. apply IH, loop_keeps_valid, H.
Qed.

Lemma loop_quiet tk s :
  quiet tk -> capturedSignal (fst (loop tk s)) = capturedSignal s.
Proof.
  unfold quiet. intros H.
  destruct (loop_store_cases tk s) as [-> | (ev & Hrx & Hnz & _)]; [reflexivity |].
  rewrite Hrx in H. contradiction.
Qed.

Lemma run_quiet ticks :
  forall s, Forall quiet ticks -> capturedSignal (fst (run ticks s)) = capturedSignal s.
Proof.
  induction ticks as [| tk rest IH]; intros s H; [reflexivity |].
  inversion H as [| ? ? Hq Hrest]; subst.
  cbn [run fst]. rewrite (IH _ Hrest). apply loop_quiet, Hq.
Qed.

Lemma setup_store g d h t s :
  match setup g d h t s with
  | Some r => capturedSignal (fst r) = capturedSignal s
  | None => True
  end.
Proof. unfold setup. destruct d; cbn; [reflexivity | exact I]. Qed.

(** C5.  [valid] is false in the initial state and after [setup].  Over
    any run in which the receiver delivers nothing or zero values the
    record stays as it was; over any run at all, [valid] once true stays
    true.  A pass changes the single record only by overwriting it with a
    nonzero reception made in Read mode. *)
Theorem valid_never_cleared :
  valid (capturedSignal initial) = false /\
  (forall g d h t,
      match setup g d h t initial with
      | Some r => valid (capturedSignal (fst r)) = false
      | None => True
      end) /\
  (forall ticks s,
      Forall quiet ticks -> capturedSignal (fst (run ticks s)) = capturedSignal s) /\
  (forall ticks s,
      valid (capturedSignal s) = true ->
      valid (capturedSignal (fst (run ticks s))) = true) /\
  (forall tk s,
      capturedSignal (fst (loop tk s)) = capturedSignal s \/
      exists ev,
        rx tk = Some ev /\ rxValue ev <> 0 /\
        currentMode (atSwitch tk s) = READ /\
        rfModuleConnected (atSwitch tk s) = true /\
        capturedSignal (fst (loop tk s)) =
        mkRFSignal (rxValue ev) (rxBitlength ev) (rxProtocol ev) (rxDelay ev) true
                   (millis (t_action tk))).
Proof.
  split; [reflexivity | split; [| split; [| split]]].
  - intros g d h t. pose proof (setup_store g d h t initial) as H.
    destruct (setup g d h t initial); [rewrite H; reflexivity | exact I].
  - intros ticks s. apply run_quiet.
  - intros ticks s. apply run_keeps_valid.
  - apply loop_store_cases.
Qed.

Lemma valid_never_cleared_witness :
  Forall quiet quietRun /\
  capturedSignal (fst (run quietRun (set_currentMode READ initial)))
  = capturedSignal initial /\
  valid (capturedSignal
           (fst (run [tickAt 5000 (holding BTN_BACK) true (Some noise)] emulateReady)))
  = true.
Proof.
  destruct valid_never_cleared as (_ & _ & H3 & H4 & _).
  assert (Hq : Forall quiet quietRun) by (repeat constructor).
  split; [exact Hq | split].
  - apply (H3 _ (set_currentMode READ initial) Hq).
  - apply H4. reflexivity.
Defined.

(** ** Link-gated suppression *)

Lemma modeLogic_down tk s :
  linkDown s = true ->
  modeLogic tk s = (s, [Draw (rfWarning ((millis (t_draw tk) / 400) mod 2 =? 0))]).
Proof.
  unfold linkDown, modeLogic. intros H. apply andb_true_iff in H.
  destruct H as (Hc & Hm). rewrite Hc.
  destruct (currentMode s); [discriminate | reflexivity ..].
Qed.

Lemma monitor_log_down tk s :
  rfModuleConnected (fst (monitor tk s)) = false ->
  filter isRadio (snd (monitor tk s)) = [] /\ frames (snd (monitor tk s)) = [].
Proof.
  unfold monitor, when, ifS, checkRFModule.
  destruct (recheckDue _ s); [| split; reflexivity].
  destruct (heard tk); cbn; [discriminate |].
  intros ->. destruct (rfModuleConnected s); split; reflexivity.
Qed.

Lemma animate_log tk s : snd (animate tk s) = [].
Proof. unfold animate, when, ifS. destruct (animDue _ s); reflexivity. Qed.

Lemma filter_radio_app a b : filter isRadio (a ++ b) = filter isRadio a ++ filter isRadio b.
Proof. apply filter_app. Qed.

Lemma frames_app a b : frames (a ++ b) = frames a ++ frames b.
Proof. unfold frames. apply flat_map_app. Qed.

Lemma prelude_log_down tk s :
  rfModuleConnected (atSwitch tk s) = false ->
  filter isRadio (snd (prelude tk s)) = [] /\ frames (snd (prelude tk s)) = [].
Proof.
  rewrite atSwitch_link. intros H.
  destruct (monitor_log_down tk s H) as (Hr & Hf).
  unfold prelude. rewrite !snd_seq, animate_log. cbn [app].
  destruct (serial_not_radio _
              (handleButtons_serial (millis (t_buttons tk)) (gpio tk)
                 (fst (animate tk (fst (monitor tk s)))))) as (Hr' & Hf').
  rewrite filter_radio_app, frames_app, Hr, Hf, Hr', Hf'. split; reflexivity.
Qed.

Lemma loop_down tk s :
  linkDown (atSwitch tk s) = true -> suppressed (snd (loop tk s)).
Proof.
  intros H. assert (Hc : rfModuleConnected (atSwitch tk s) = false).
  { unfold linkDown in H. apply andb_true_iff in H. destruct H as (H & _).
    destruct (rfModuleConnected (atSwitch tk s)); [discriminate | reflexivity]. }
  destruct (prelude_log_down tk s Hc) as (Hr & Hf).
  rewrite loop_log, (modeLogic_down _ _ H). unfold suppressed.
  rewrite !filter_radio_app, !frames_app, Hr, Hf. cbn. eauto.
Qed.

(** C2.  Over any run of passes: if at the mode switch of every pass the
    link flag is false and the mode is Read, Emulate or Jam, then no pass
    calls into the receiver or the transmitter, and every pass draws
    exactly one frame, the warning screen.  The listening and the pin
    probe of the link check itself, logged as [LinkListen] and [PinWrite],
    belong to the monitor and not to the mode. *)
Theorem link_down_suppresses_radio ticks :
  forall s, throughout linkDown ticks s ->
            Forall (fun pass => suppressed (snd pass)) (snd (run ticks s)).
Proof.
  induction ticks as [| tk rest IH]; intros s H; cbn [run snd]; [constructor |].
  destruct H as (Hd & Hrest). constructor.
  - cbn [snd]. apply loop_down, Hd.
  - apply IH, Hrest.
Qed.

Lemma link_down_suppresses_radio_witness :
  throughout linkDown linkLostRun readLinkLost /\
  Forall (fun pass => suppressed (snd pass)) (snd (run linkLostRun readLinkLost)).
Proof.
  assert (H : throughout linkDown linkLostRun readLinkLost) by (vm_compute; auto).
  split; [exact H | apply link_down_suppresses_radio, H].
Defined.

(** ** Entering and leaving a mode *)

(** The SELECT block changes the mode only by entering one from the menu,
    and then it has cleared the flags and the counter. *)
Lemma onSelect_entry now s :
  currentMode (fst (onSelect now s)) <> currentMode s ->
  isTransmitting (fst (onSelect now s)) = false /\
  isJamming (fst (onSelect now s)) = false /\
  transmitCount (fst (onSelect now s)) = 0.
Proof. block; intros H; try congruence; auto. Qed.

Lemma afterDown_mode now s : currentMode (afterDown now s) = currentMode s.
Proof. apply blocks_mode_before_select. Qed.

Lemma handleButtons_back now g s :
  debounced now s = false -> backEdge (sampled g s) = true ->
  currentMode (fst (handleButtons now g s)) = MENU /\
  isTransmitting (fst (handleButtons now g s)) = false /\
  isJamming (fst (handleButtons now g s)) = false.
Proof.
  intros Hd Hb. rewrite (handleButtons_open_state _ _ _ Hd).
  unfold afterBack. rewrite onBack_fire; [repeat split |].
  destruct (blocks_edges now (sampled g s)) as (_ & _ & H). congruence.
Qed.

Lemma handleButtons_entry now g s :
  currentMode (fst (handleButtons now g s)) <> currentMode s ->
  currentMode (fst (handleButtons now g s)) <> MENU ->
  isTransmitting (fst (handleButtons now g s)) = false /\
  isJamming (fst (handleButtons now g s)) = false /\
  transmitCount (fst (handleButtons now g s)) = 0.
Proof.
  destruct (debounced now s) eqn:Hd.
  - rewrite (handleButtons_debounced _ _ _ Hd). intros H. contradiction H. reflexivity.
  - destruct (backEdge (sampled g s)) eqn:Hb.
    + destruct (handleButtons_back _ _ _ Hd Hb) as (Hm & _). congruence.
    + rewrite (handleButtons_open_state _ _ _ Hd).
      rewrite (afterBack_idle _ _ Hb).
      change (currentMode (snapshot ?x)) with (currentMode x).
      change (isTransmitting (snapshot ?x)) with (isTransmitting x).
      change (isJamming (snapshot ?x)) with (isJamming x).
      change (transmitCount (snapshot ?x)) with (transmitCount x).
      intros Hne _. unfold afterSelect in *. apply onSelect_entry.
      rewrite afterDown_mode. exact Hne.
Qed.

Lemma select_call_state now g s :
  debounced now s = false ->
  upEdge (sampled g s) = false -> downEdge (sampled g s) = false ->
  backEdge (sampled g s) = false ->
  fst (handleButtons now g s) = snapshot (fst (onSelect now (sampled g s))).
Proof.
  intros Hd Hu Hdn Hb. rewrite (handleButtons_open_state _ _ _ Hd).
  rewrite (afterBack_idle _ _ Hb). unfold afterSelect.
  rewrite (afterDown_idle _ _ Hu Hdn). reflexivity.
Qed.

(** The mode switch reads no button and assigns none. *)
Lemma modeLogic_mode tk s : currentMode (fst (modeLogic tk s)) = currentMode s.
Proof. rewrite modeLogic_shape. reflexivity. Qed.

Lemma modeLogic_isTransmitting tk s :
  isTransmitting (fst (modeLogic tk s)) = isTransmitting s.
Proof. rewrite modeLogic_shape. reflexivity. Qed.

Lemma modeLogic_isJamming tk s : isJamming (fst (modeLogic tk s)) = isJamming s.
Proof. rewrite modeLogic_shape. reflexivity. Qed.

Lemma modeLogic_idle_count tk s :
  isTransmitting s = false -> transmitCount (fst (modeLogic tk s)) = transmitCount s.
Proof.
  intros H. unfold modeLogic, rfError, displayWarning, drawMenu, handleRFReception,
    jamSignals, drawEmulateMode, drawJamMode, drawReadMode.
  destruct (currentMode s), (rfModuleConnected s); try reflexivity.
  - destruct (rx tk) as [ev |]; [| reflexivity].
    destruct (rxValue ev =? 0); reflexivity.
  - unfold_cmds. cbn. rewrite H. reflexivity.
  - unfold_cmds. cbn. repeat (split_if; cbn); reflexivity.
Qed.

Lemma atSwitch_mode_before tk s :
  currentMode (fst (animate tk (fst (monitor tk s)))) = currentMode s.
Proof. rewrite animate_shape. cbn. rewrite monitor_shape. reflexivity. Qed.

Lemma loop_entry tk s :
  currentMode (fst (loop tk s)) <> currentMode s ->
  currentMode (fst (loop tk s)) <> MENU ->
  isTransmitting (fst (loop tk s)) = false /\
  isJamming (fst (loop tk s)) = false /\
  transmitCount (fst (loop tk s)) = 0.
Proof.
  rewrite loop_state, modeLogic_mode, modeLogic_isTransmitting, modeLogic_isJamming.
  rewrite atSwitch_eq. rewrite <- (atSwitch_mode_before tk s).
  intros Hne Hm.
  destruct (handleButtons_entry _ _ _ Hne Hm) as (Ht & Hj & Hc).
  rewrite modeLogic_idle_count; auto.
Qed.

(** C6.  In the menu the SELECT block enters Read, Emulate or Jam for
    selection 0, 1 or 2 and leaves both flags false and the counter 0; so
    does a whole call that accepts a Select edge alone.  A call that
    accepts a Back edge ends in the menu with both flags false, in any
    mode and whatever else was pressed.  Hence a pass that enters Emulate
    or Jam ends with both flags false and the counter 0. *)
Theorem select_enters_back_leaves now g s :
  (selectEdge s = true -> currentMode s = MENU ->
   (menuSelection s = 0 -> currentMode (fst (onSelect now s)) = READ) /\
   (menuSelection s = 1 -> currentMode (fst (onSelect now s)) = EMULATE) /\
   (menuSelection s = 2 -> currentMode (fst (onSelect now s)) = JAM) /\
   isTransmitting (fst (onSelect now s)) = false /\
   isJamming (fst (onSelect now s)) = false /\
   transmitCount (fst (onSelect now s)) = 0) /\
  (debounced now s = false -> currentMode s = MENU ->
   selectEdge (sampled g s) = true -> upEdge (sampled g s) = false ->
   downEdge (sampled g s) = false -> backEdge (sampled g s) = false ->
   (menuSelection s = 0 -> currentMode (fst (handleButtons now g s)) = READ) /\
   (menuSelection s = 1 -> currentMode (fst (handleButtons now g s)) = EMULATE) /\
   (menuSelection s = 2 -> currentMode (fst (handleButtons now g s)) = JAM) /\
   isTransmitting (fst (handleButtons now g s)) = false /\
   isJamming (fst (handleButtons now g s)) = false /\
   transmitCount (fst (handleButtons now g s)) = 0) /\
  (debounced now s = false -> backEdge (sampled g s) = true ->
   currentMode (fst (handleButtons now g s)) = MENU /\
   isTransmitting (fst (handleButtons now g s)) = false /\
   isJamming (fst (handleButtons now g s)) = false) /\
  (forall tk,
      currentMode (fst (loop tk s)) <> currentMode s ->
      currentMode (fst (loop tk s)) = EMULATE \/ currentMode (fst (loop tk s)) = JAM ->
      isTransmitting (fst (loop tk s)) = false /\
      isJamming (fst (loop tk s)) = false /\
      transmitCount (fst (loop tk s)) = 0).
Proof.
  assert (Hblock : forall s0, selectEdge s0 = true -> currentMode s0 = MENU ->
    (menuSelection s0 = 0 -> currentMode (fst (onSelect now s0)) = READ) /\
    (menuSelection s0 = 1 -> currentMode (fst (onSelect now s0)) = EMULATE) /\
    (menuSelection s0 = 2 -> currentMode (fst (onSelect now s0)) = JAM) /\
    isTransmitting (fst (onSelect now s0)) = false /\
    isJamming (fst (onSelect now s0)) = false /\
    transmitCount (fst (onSelect now s0)) = 0).
  { intros s0 He Hm. rewrite (onSelect_menu _ _ He Hm), enterSelected_state.
    repeat split; intros ->; reflexivity. }
  split; [apply Hblock | split; [| split]].
  - intros Hd Hm Hs Hu Hdn Hb. rewrite (select_call_state _ _ _ Hd Hu Hdn Hb).
    apply (Hblock (sampled g s) Hs Hm).
  - apply handleButtons_back.
  - intros tk Hne Hin. apply loop_entry; [exact Hne |].
    destruct Hin as [-> | ->]; discriminate.
Qed.

Lemma select_enters_back_leaves_witness :
  currentMode (fst (handleButtons 5000 (holding BTN_SELECT) initial)) = READ /\
  currentMode (fst (handleButtons 5000 (holding BTN_SELECT) (set_menuSelection 1 initial)))
  = EMULATE /\
  currentMode (fst (handleButtons 5000 (holding BTN_SELECT) (set_menuSelection 2 initial)))
  = JAM /\
  currentMode (fst (handleButtons 5000 (holding BTN_BACK) replayOn)) = MENU /\
  isTransmitting (fst (handleButtons 5000 (holding BTN_BACK) replayOn)) = false /\
  transmitCount (fst (loop (tickAt 5000 (holding BTN_SELECT) true None)
                           (set_transmitCount 7 (set_menuSelection 1 initial)))) = 0.
Proof.
  destruct (select_enters_back_leaves 5000 (holding BTN_SELECT) initial)
    as (_ & H0 & _).
  destruct (select_enters_back_leaves 5000 (holding BTN_SELECT)
              (set_menuSelection 1 initial)) as (_ & H1 & _).
  destruct (select_enters_back_leaves 5000 (holding BTN_SELECT)
              (set_menuSelection 2 initial)) as (_ & H2 & _).
  destruct (select_enters_back_leaves 5000 (holding BTN_BACK) replayOn)
    as (_ & _ & H3 & _).
  destruct (select_enters_back_leaves 5000 released
              (set_transmitCount 7 (set_menuSelection 1 initial)))
    as (_ & _ & _ & H4).
  destruct (H0 eq_refl eq_refl eq_refl eq_refl eq_refl eq_refl) as (A & _).
  destruct (H1 eq_refl eq_refl eq_refl eq_refl eq_refl eq_refl) as (_ & B & _).
  destruct (H2 eq_refl eq_refl eq_refl eq_refl eq_refl eq_refl) as (_ & _ & C & _).
  destruct (H3 eq_refl eq_refl) as (D & E & _).
  destruct (H4 (tickAt 5000 (holding BTN_SELECT) true None)) as (_ & _ & F).
  - discriminate.
  - left. reflexivity.
  - repeat split; auto.
Defined.

(** ** SELECT in Emulate *)

Lemma onlyButtons_store s s' : onlyButtons s s' -> capturedSignal s' = capturedSignal s.
Proof. intros ->. reflexivity. Qed.

Lemma onUp_log_other now s : currentMode s <> MENU -> snd (onUp now s) = [].
Proof.
  intros H. block; try reflexivity; destruct (currentMode s); cbn in *; congruence.
Qed.

Lemma onDown_log_other now s : currentMode s <> MENU -> snd (onDown now s) = [].
Proof.
  intros H. block; try reflexivity; destruct (currentMode s); cbn in *; congruence.
Qed.

(** The mode switch does not look at the buttons. *)
Lemma modeLogic_ignores_buttons tk s s' :
  onlyButtons s s' -> snd (modeLogic tk s') = snd (modeLogic tk s).
Proof.
  intros ->.
  unfold modeLogic, rfError, displayWarning, drawMenu, handleRFReception,
    transmitSignal, jamSignals, drawEmulateMode, drawJamMode, drawReadMode,
    transmitDue, jamDue.
  cbn [currentMode rfModuleConnected set_btnState].
  destruct (currentMode s), (rfModuleConnected s); try reflexivity.
  - destruct (rx tk) as [ev |]; [| reflexivity].
    destruct (rxValue ev =? 0); reflexivity.
  - unfold_cmds. cbn. repeat (split_if; cbn); reflexivity.
  - unfold_cmds. cbn. repeat (split_if; cbn); reflexivity.
Qed.

Section EmulateSelect.

Variables (now : Z) (g : Gpio) (s : State).
Hypothesis Hopen : debounced now s = false.
Hypothesis Hmode : currentMode s = EMULATE.
Hypothesis Hselect : selectEdge (sampled g s) = true.
Hypothesis Hback : backEdge (sampled g s) = false.

Lemma emulate_before_select :
  onlyButtons (sampled g s) (afterDown now (sampled g s)) /\
  currentMode (afterDown now (sampled g s)) = EMULATE /\
  selectEdge (afterDown now (sampled g s)) = true.
Proof.
  assert (H : onlyButtons (sampled g s) (afterDown now (sampled g s))).
  { apply afterDown_onlyButtons.
    change (currentMode (sampled g s)) with (currentMode s). congruence. }
  split; [exact H | split].
  - rewrite (onlyButtons_mode _ _ H). exact Hmode.
  - destruct (blocks_edges now (sampled g s)) as (_ & He & _). congruence.
Qed.

Lemma emulate_select_state :
  fst (handleButtons now g s) =
  snapshot (fst (onSelect now (afterDown now (sampled g s)))).
Proof.
  rewrite (handleButtons_open_state _ _ _ Hopen), (afterBack_idle _ _ Hback).
  reflexivity.
Qed.

Lemma emulate_select_log :
  snd (handleButtons now g s) = snd (onSelect now (afterDown now (sampled g s))).
Proof.
  rewrite (handleButtons_open _ _ _ Hopen), !snd_seq.
  rewrite onUp_log_other
    by (change (currentMode (sampled g s)) with (currentMode s); congruence).
  rewrite onDown_log_other.
  2:{ rewrite (onlyButtons_mode (sampled g s)).
      - change (currentMode (sampled g s)) with (currentMode s). congruence.
      - apply onUp_onlyButtons.
        change (currentMode (sampled g s)) with (currentMode s). congruence. }
  cbn [app].
  change (fst (onDown now (fst (onUp now (sampled g s)))))
    with (afterDown now (sampled g s)).
  rewrite onBack_idle.
  - cbn [snd fst]. unfold updateLast, modify. cbn [snd]. rewrite app_nil_r.
    reflexivity.
  - destruct (blocks_edges now (sampled g s)) as (_ & _ & Hb).
    unfold afterSelect in Hb. congruence.
Qed.

Lemma emulate_select_valid :
  valid (capturedSignal s) = true ->
  isTransmitting (fst (handleButtons now g s)) = negb (isTransmitting s) /\
  transmitCount (fst (handleButtons now g s)) = 0 /\
  lastTransmit (fst (handleButtons now g s)) = 0.
Proof.
  intros Hv. destruct emulate_before_select as (Hob & Hm & He).
  rewrite emulate_select_state, onSelect_emulate_valid; try assumption.
  - rewrite Hob. repeat split.
  - rewrite (onlyButtons_store _ _ Hob). exact Hv.
Qed.

Lemma emulate_select_invalid :
  valid (capturedSignal s) = false ->
  onlyButtons s (fst (handleButtons now g s)) /\
  snd (handleButtons now g s) =
  [Serial "SELECT pressed in mode: 2"; Serial "ERROR: No signal captured!"].
Proof.
  intros Hv. destruct emulate_before_select as (Hob & Hm & He).
  assert (Hv' : valid (capturedSignal (afterDown now (sampled g s))) = false)
    by (rewrite (onlyButtons_store _ _ Hob); exact Hv).
  rewrite emulate_select_state, emulate_select_log.
  rewrite (onSelect_emulate_invalid _ _ He Hm Hv'). split; [| reflexivity].
  cbn [fst].
  eapply onlyButtons_trans; [apply onlyButtons_sampled |].
  eapply onlyButtons_trans; [exact Hob |].
  eapply onlyButtons_trans; [apply onlyButtons_stamped | apply onlyButtons_snapshot].
Qed.

End EmulateSelect.

(** C7.  In Emulate mode the SELECT block, with a valid capture, negates
    [isTransmitting] and sets [transmitCount] and [lastTransmit] to 0.
    Without a valid capture it assigns no global other than the debounce
    stamp that every accepted press gets, and writes the serial lines
    "SELECT pressed in mode: 2" and "ERROR: No signal captured!".  The same
    holds for a whole call that accepts the Select edge and no Back edge:
    in the refused case the state differs in [btnState] only, the log
    holds those two lines and no frame, and the mode switch draws what it
    would have drawn without the press. *)
Theorem emulate_select_toggles_or_refuses now g s :
  (selectEdge s = true -> currentMode s = EMULATE ->
   valid (capturedSignal s) = true ->
   fst (onSelect now s) =
   stamped now
     (set_lastTransmit 0
        (set_transmitCount 0 (set_isTransmitting (negb (isTransmitting s)) s)))) /\
  (selectEdge s = true -> currentMode s = EMULATE ->
   valid (capturedSignal s) = false ->
   onSelect now s =
   (stamped now s,
    [Serial "SELECT pressed in mode: 2"; Serial "ERROR: No signal captured!"])) /\
  (debounced now s = false -> currentMode s = EMULATE ->
   selectEdge (sampled g s) = true -> backEdge (sampled g s) = false ->
   (valid (capturedSignal s) = true ->
    isTransmitting (fst (handleButtons now g s)) = negb (isTransmitting s) /\
    transmitCount (fst (handleButtons now g s)) = 0 /\
    lastTransmit (fst (handleButtons now g s)) = 0) /\
   (valid (capturedSignal s) = false ->
    onlyButtons s (fst (handleButtons now g s)) /\
    snd (handleButtons now g s) =
    [Serial "SELECT pressed in mode: 2"; Serial "ERROR: No signal captured!"] /\
    frames (snd (handleButtons now g s)) = [] /\
    forall tk,
      snd (modeLogic tk (fst (handleButtons now g s))) = snd (modeLogic tk s))).
Proof.
  split; [apply onSelect_emulate_valid | split; [apply onSelect_emulate_invalid |]].
  intros Hd Hm Hs Hb. split.
  - apply emulate_select_valid; assumption.
  - intros Hv.
    destruct (emulate_select_invalid now g s Hd Hm Hs Hb Hv) as (Hob & Hlog).
    split; [exact Hob | split; [exact Hlog | split]].
    + rewrite Hlog. reflexivity.
    + intros tk. apply modeLogic_ignores_buttons, Hob.
Qed.

Lemma emulate_select_toggles_or_refuses_witness :
  isTransmitting (fst (handleButtons 5000 (holding BTN_SELECT) emulateReady)) = true /\
  lastTransmit (fst (handleButtons 5000 (holding BTN_SELECT) replayOn)) = 0 /\
  onlyButtons emulateEmpty (fst (handleButtons 5000 (holding BTN_SELECT) emulateEmpty)) /\
  snd (handleButtons 5000 (holding BTN_SELECT) emulateEmpty)
  = [Serial "SELECT pressed in mode: 2"; Serial "ERROR: No signal captured!"].
Proof.
  destruct (emulate_select_toggles_or_refuses 5000 (holding BTN_SELECT) emulateReady)
    as (_ & _ & H1).
  destruct (emulate_select_toggles_or_refuses 5000 (holding BTN_SELECT) replayOn)
    as (_ & _ & H2).
  destruct (emulate_select_toggles_or_refuses 5000 (holding BTN_SELECT) emulateEmpty)
    as (_ & _ & H3).
  destruct (H1 eq_refl eq_refl eq_refl eq_refl) as (V1 & _).
  destruct (H2 eq_refl eq_refl eq_refl eq_refl) as (V2 & _).
  destruct (H3 eq_refl eq_refl eq_refl eq_refl) as (_ & I3).
  destruct (V1 eq_refl) as (A & _).
  destruct (V2 eq_refl) as (_ & _ & B).
  destruct (I3 eq_refl) as (C & D & _).
  repeat split; assumption.
Defined.

(** ** Replay gating *)

(** One pass of the mode switch while replay is on. *)
Lemma modeLogic_replay tk s :
  replaying s = true ->
  let due := rfModuleConnected s && transmitDue (millis (t_action tk)) s in
  fst (modeLogic tk s) =
  (if due
   then set_lastTransmit (millis (t_action tk)) (set_transmitCount (increment (transmitCount s)) s)
   else s) /\
  filter isTx (snd (modeLogic tk s)) = (if due then replayCall (capturedSignal s) else []).
Proof.
  unfold replaying. intros H.
  apply andb_true_iff in H. destruct H as (H & Hv).
  apply andb_true_iff in H. destruct H as (Ht & Hm).
  destruct (currentMode s) eqn:Hmode; try discriminate. clear Hm.
  unfold modeLogic. rewrite Hmode.
  destruct (rfModuleConnected s); cbn [negb andb].
  - unfold transmitSignal, drawEmulateMode. unfold_cmds. cbn. rewrite Ht.
    destruct (transmitDue (millis (t_action tk)) s); cbn.
    + rewrite Hv. cbn. split; reflexivity.
    + split; reflexivity.
  - split; reflexivity.
Qed.

(** Before the mode switch nothing calls the transmitter. *)
Lemma monitor_log_tx tk s : filter isTx (snd (monitor tk s)) = [].
Proof.
  unfold monitor, when, ifS, checkRFModule.
  destruct (recheckDue _ s); [| reflexivity].
  destruct (heard tk), (txOk tk), (rfModuleConnected s); reflexivity.
Qed.

Lemma serial_not_tx evs : forallb isSerial evs = true -> filter isTx evs = [].
Proof.
  induction evs as [| e evs IH]; [reflexivity |].
  cbn [forallb]. intros H. apply andb_true_iff in H. destruct H as (He & H).
  destruct e; try discriminate. cbn. auto.
Qed.

Lemma prelude_log_tx tk s : filter isTx (snd (prelude tk s)) = [].
Proof.
  unfold prelude. rewrite !snd_seq, animate_log. cbn [app].
  rewrite filter_app, monitor_log_tx, serial_not_tx; [reflexivity |].
  apply handleButtons_serial.
Qed.

Lemma loop_log_tx tk s :
  filter isTx (snd (loop tk s)) = filter isTx (snd (modeLogic tk (atSwitch tk s))).
Proof.
  rewrite loop_log, !filter_app, prelude_log_tx. cbn. apply app_nil_r.
Qed.

Lemma sends_of_tx evs : filter isSend evs = filter isSend (filter isTx evs).
Proof.
  induction evs as [| e evs IH]; [reflexivity |].
  destruct e; cbn; rewrite <- ?IH; reflexivity.
Qed.

(** Replay stays on only if no block of handleButtons touched the gate. *)
Lemma onSelect_keeps_replay now s :
  isTransmitting s = true -> isTransmitting (fst (onSelect now s)) = true ->
  lastTransmit (fst (onSelect now s)) = lastTransmit s /\
  transmitCount (fst (onSelect now s)) = transmitCount s.
Proof. block; intros H1 H2; try discriminate; try rewrite H1 in *; try discriminate; auto. Qed.

Lemma handleButtons_keeps_replay now g s :
  isTransmitting s = true -> isTransmitting (fst (handleButtons now g s)) = true ->
  lastTransmit (fst (handleButtons now g s)) = lastTransmit s /\
  transmitCount (fst (handleButtons now g s)) = transmitCount s.
Proof.
  destruct (debounced now s) eqn:Hd.
  - rewrite (handleButtons_debounced _ _ _ Hd). auto.
  - rewrite (handleButtons_open_state _ _ _ Hd).
    change (isTransmitting (snapshot ?x)) with (isTransmitting x).
    change (lastTransmit (snapshot ?x)) with (lastTransmit x).
    change (transmitCount (snapshot ?x)) with (transmitCount x).
    intros H0 H4.
    destruct (backEdge (sampled g s)) eqn:Hb.
    + unfold afterBack in H4. rewrite onBack_fire in H4; [discriminate |].
      destruct (blocks_edges now (sampled g s)) as (_ & _ & H). congruence.
    + rewrite (afterBack_idle _ _ Hb) in *. unfold afterSelect in *.
      assert (H2 : isTransmitting (afterDown now (sampled g s)) = true
                   /\ lastTransmit (afterDown now (sampled g s)) = lastTransmit s
                   /\ transmitCount (afterDown now (sampled g s)) = transmitCount s).
      { unfold afterDown, afterUp. rewrite onDown_shape. cbn.
        rewrite onUp_shape. cbn. auto. }
      destruct H2 as (Ht & Hl & Hc).
      destruct (onSelect_keeps_replay _ _ Ht H4) as (-> & ->). auto.
Qed.

Lemma atSwitch_keeps_replay tk s :
  isTransmitting s = true -> isTransmitting (atSwitch tk s) = true ->
  lastTransmit (atSwitch tk s) = lastTransmit s /\
  transmitCount (atSwitch tk s) = transmitCount s.
Proof.
  rewrite atSwitch_eq. intros H0 H1.
  assert (H : isTransmitting (fst (animate tk (fst (monitor tk s)))) = true
              /\ lastTransmit (fst (animate tk (fst (monitor tk s)))) = lastTransmit s
              /\ transmitCount (fst (animate tk (fst (monitor tk s)))) = transmitCount s).
  { rewrite animate_shape. cbn. rewrite monitor_shape. cbn. auto. }
  destruct H as (Ht & Hl & Hc).
  destruct (handleButtons_keeps_replay _ _ _ Ht H1) as (-> & ->). auto.
Qed.

(** A whole pass while replay is on at its mode switch. *)
Lemma pass_replay tk s :
  replaying (atSwitch tk s) = true ->
  let due := rfModuleConnected (atSwitch tk s)
             && transmitDue (millis (t_action tk)) (atSwitch tk s) in
  isTransmitting (fst (loop tk s)) = true /\
  capturedSignal (fst (loop tk s)) = capturedSignal s /\
  lastTransmit (fst (loop tk s)) =
    (if due then millis (t_action tk) else lastTransmit (atSwitch tk s)) /\
  transmitCount (fst (loop tk s)) =
    (if due then increment (transmitCount (atSwitch tk s))
     else transmitCount (atSwitch tk s)) /\
  filter isTx (snd (loop tk s)) = (if due then replayCall (capturedSignal s) else []).
Proof.
  intros H. cbv zeta.
  destruct (modeLogic_replay tk _ H) as (Hst & Hlog).
  rewrite loop_log_tx, Hlog, loop_state, Hst, atSwitch_store.
  assert (Ht : isTransmitting (atSwitch tk s) = true).
  { unfold replaying in H. destruct (isTransmitting (atSwitch tk s)); [reflexivity | discriminate]. }
  destruct (rfModuleConnected (atSwitch tk s) && transmitDue _ (atSwitch tk s));
    cbn [isTransmitting capturedSignal lastTransmit transmitCount
         set_lastTransmit set_transmitCount];
    rewrite ?atSwitch_store; auto.
Qed.

Lemma sendTimes_cons t evs log :
  sendTimes ((t, evs) :: log) =
  map (fun _ => t) (filter isSend (filter isTx evs)) ++ sendTimes log.
Proof. unfold sendTimes. cbn [flat_map fst snd]. rewrite <- sends_of_tx. reflexivity. Qed.

(** Sends an interval apart: no window of that length holds two. *)
Lemma apart_window l :
  StronglySorted apart l ->
  forall w, (List.length (filter (inWindow w) l) <= 1)%nat.
Proof.
  induction 1 as [| a l Hs IH Hall]; intros w; [cbn; lia |].
  cbn [filter]. destruct (inWindow w a) eqn:Ha; [| apply IH].
  assert (Hnone : filter (inWindow w) l = []).
  { clear IH Hs. induction l as [| b l IHl]; [reflexivity |].
    inversion Hall as [| ? ? Hab Hrest]; subst.
    cbn [filter]. rewrite (IHl Hrest).
    unfold inWindow, apart in *.
    apply andb_true_iff in Ha. destruct Ha as (Ha1 & Ha2).
    apply Z.leb_le in Ha1. apply Z.ltb_lt in Ha2.
    destruct (w <=? b) eqn:H1; [| reflexivity].
    destruct (b <? w + TRANSMIT_INTERVAL) eqn:H2; [| reflexivity].
    apply Z.ltb_lt in H2. lia. }
  rewrite Hnone. cbn. lia.
Qed.

(** After a send at true time [L], every later send of the run comes at
    least one interval after [L], and the sends are an interval apart. *)
Lemma run_replay_after ticks :
  forall s L,
    isTransmitting s = true -> lastTransmit s = millis L ->
    Forall (fun t => L <= t) (map t_action ticks) ->
    StronglySorted Z.le (map t_action ticks) ->
    throughout replaying ticks s ->
    Forall (apart L) (sendTimes (snd (run ticks s))) /\
    StronglySorted apart (sendTimes (snd (run ticks s))).
Proof.
  induction ticks as [| tk rest IH]; intros s L Ht HL Hge Hsorted Hthr.
  - cbn. split; constructor.
  - destruct Hthr as (Hrep & Hrest).
    inversion Hge as [| ? ? HLt Hge']; subst.
    inversion Hsorted as [| ? ? Hsorted' Hle]; subst.
    destruct (pass_replay tk s Hrep) as (Ht' & _ & Hlast & _ & Hlog).
    assert (Hrt : isTransmitting (atSwitch tk s) = true).
    { unfold replaying in Hrep.
      destruct (isTransmitting (atSwitch tk s)); [reflexivity | discriminate]. }
    destruct (atSwitch_keeps_replay tk s Ht Hrt) as (Hl & _).
    cbn [run snd]. rewrite sendTimes_cons, Hlog.
    destruct (rfModuleConnected (atSwitch tk s)
              && transmitDue (millis (t_action tk)) (atSwitch tk s)) eqn:Hdue.
    + apply andb_true_iff in Hdue. destruct Hdue as (_ & Hdue).
      unfold transmitDue in Hdue. rewrite Hl, HL in Hdue. apply Z.leb_le in Hdue.
      pose proof (sub_millis_le L (t_action tk) HLt) as Hsub.
      assert (Hap : apart L (t_action tk)) by (unfold apart; lia).
      destruct (IH (fst (loop tk s)) (t_action tk) Ht' Hlast Hle Hsorted' Hrest)
        as (Hall & Hss).
      cbn. split.
      * constructor; [exact Hap |].
        eapply Forall_impl; [| exact Hall]. unfold apart in *. intros; lia.
      * constructor; assumption.
    + rewrite Hl in Hlast.
      destruct (IH (fst (loop tk s)) L Ht' (eq_trans Hlast HL) Hge' Hsorted' Hrest)
        as (Hall & Hss).
      cbn. split; assumption.
Qed.

Lemma run_replay_apart ticks :
  forall s,
    StronglySorted Z.le (map t_action ticks) ->
    throughout replaying ticks s ->
    StronglySorted apart (sendTimes (snd (run ticks s))).
Proof.
  induction ticks as [| tk rest IH]; intros s Hsorted Hthr.
  - cbn. constructor.
  - destruct Hthr as (Hrep & Hrest).
    inversion Hsorted as [| ? ? Hsorted' Hle]; subst.
    destruct (pass_replay tk s Hrep) as (Ht' & _ & Hlast & _ & Hlog).
    cbn [run snd]. rewrite sendTimes_cons, Hlog.
    destruct (rfModuleConnected (atSwitch tk s)
              && transmitDue (millis (t_action tk)) (atSwitch tk s)).
    + destruct (run_replay_after rest (fst (loop tk s)) (t_action tk)
                  Ht' Hlast Hle Hsorted' Hrest) as (Hall & Hss).
      cbn. constructor; assumption.
    + cbn. apply IH; assumption.
Qed.

(** The parameters of every replay are those of the stored record. *)
Lemma run_replay_calls ticks :
  forall s,
    throughout replaying ticks s ->
    Forall (fun pass => filter isTx (snd pass) = [] \/
                        filter isTx (snd pass) = replayCall (capturedSignal s))
           (snd (run ticks s)).
Proof.
  induction ticks as [| tk rest IH]; intros s Hthr; cbn [run snd]; [constructor |].
  destruct Hthr as (Hrep & Hrest).
  destruct (pass_replay tk s Hrep) as (_ & Hstore & _ & _ & Hlog).
  constructor.
  - cbn [snd]. rewrite Hlog. destruct (_ && _); auto.
  - rewrite <- Hstore. apply IH, Hrest.
Qed.

(** The counter moves by one increment per send. *)
Lemma run_replay_count_from ticks :
  forall s,
    isTransmitting s = true ->
    throughout replaying ticks s ->
    transmitCount (fst (run ticks s)) =
    Nat.iter (List.length (sendTimes (snd (run ticks s)))) increment (transmitCount s).
Proof.
  induction ticks as [| tk rest IH]; intros s Ht Hthr; [reflexivity |].
  destruct Hthr as (Hrep & Hrest).
  destruct (pass_replay tk s Hrep) as (Ht' & _ & _ & Hcount & Hlog).
  assert (Hrt : isTransmitting (atSwitch tk s) = true).
  { unfold replaying in Hrep.
    destruct (isTransmitting (atSwitch tk s)); [reflexivity | discriminate]. }
  destruct (atSwitch_keeps_replay tk s Ht Hrt) as (_ & Hc).
  cbn [run fst snd]. rewrite sendTimes_cons, Hlog, (IH _ Ht' Hrest), Hcount, Hc.
  destruct (_ && _); cbn [replayCall filter isTx isSend map app List.length].
  - rewrite <- Nat.iter_succ_r. reflexivity.
  - reflexivity.
Qed.

Lemma run_replay_count ticks s :
  throughout replaying ticks s ->
  transmitCount (fst (run ticks s)) =
  Nat.iter (List.length (sendTimes (snd (run ticks s)))) increment (countAtStart ticks s).
Proof.
  destruct ticks as [| tk rest]; [reflexivity |].
  intros (Hrep & Hrest).
  destruct (pass_replay tk s Hrep) as (Ht' & _ & _ & Hcount & Hlog).
  cbn [run fst snd countAtStart].
  rewrite sendTimes_cons, Hlog, (run_replay_count_from _ _ Ht' Hrest), Hcount.
  destruct (_ && _); cbn [replayCall filter isTx isSend map app List.length].
  - rewrite <- Nat.iter_succ_r. reflexivity.
  - reflexivity.
Qed.

(** C3.  Over any run of passes whose radio-action times do not decrease,
    with replay on (Emulate mode, [isTransmitting], valid capture) at the
    mode switch of every pass: no window of TRANSMIT_INTERVAL milliseconds
    holds two sends, however the passes are spaced; the transmitter calls
    of a pass are either none or exactly setProtocol, setPulseLength and
    send with the stored protocol, pulse length, value and bit length; and
    [transmitCount] ends as the counter of the first mode switch
    incremented once per send. *)
Theorem replay_at_most_once_per_interval ticks s :
  StronglySorted Z.le (map t_action ticks) ->
  throughout replaying ticks s ->
  (forall w, (List.length (filter (inWindow w) (sendTimes (snd (run ticks s)))) <= 1)%nat) /\
  Forall (fun pass => filter isTx (snd pass) = [] \/
                      filter isTx (snd pass) =
                      [TxSetProtocol (protocol (capturedSignal s));
                       TxSetPulseLength (pulseLength (capturedSignal s));
                       TxSend (value (capturedSignal s)) (bitLength (capturedSignal s))])
         (snd (run ticks s)) /\
  transmitCount (fst (run ticks s)) =
  Nat.iter (List.length (sendTimes (snd (run ticks s)))) increment (countAtStart ticks s).
Proof.
  intros Hsorted Hthr. split; [| split].
  - apply apart_window, run_replay_apart; assumption.
  - apply run_replay_calls, Hthr.
  - apply run_replay_count, Hthr.
Qed.

Lemma replay_at_most_once_per_interval_witness :
  StronglySorted Z.le (map t_action replayRun) /\
  throughout replaying replayRun replayOn /\
  sendTimes (snd (run replayRun replayOn)) = [10000; 10500] /\
  (List.length (filter (inWindow 10000) (sendTimes (snd (run replayRun replayOn)))) <= 1)%nat /\
  transmitCount (fst (run replayRun replayOn)) = 2.
Proof.
  assert (Hs : StronglySorted Z.le (map t_action replayRun))
    by (cbn; repeat constructor; lia).
  assert (Ht : throughout replaying replayRun replayOn) by (vm_compute; auto).
  destruct (replay_at_most_once_per_interval _ _ Hs Ht) as (Hw & _ & Hc).
  split; [exact Hs | split; [exact Ht | split; [reflexivity | split]]].
  - apply Hw.
  - rewrite Hc. reflexivity.
Defined.

(** ** Interval tests and clock wraparound *)

(** C9.  The five interval tests (link recheck, animation, debounce,
    transmit gate, jam gate) compare the wrapped difference
    [now - last] with the interval.  Whenever the stamp was taken at true
    time [T0] and the clock is read at true time [T1], less than one clock
    period later, each test decides exactly as the true elapsed time
    [T1 - T0] does, on either side of a wrap of [millis]. *)
Theorem interval_tests_survive_wraparound T0 T1 s :
  T0 <= T1 < T0 + Word.modulus ->
  (lastRFCheck s = millis T0 ->
   recheckDue (millis T1) s = (RF_CHECK_INTERVAL <? T1 - T0)) /\
  (lastAnimUpdate s = millis T0 ->
   animDue (millis T1) s = (ANIM_SPEED <? T1 - T0)) /\
  (lastPress (btnState s) = millis T0 ->
   debounced (millis T1) s = (T1 - T0 <? DEBOUNCE_DELAY)) /\
  (lastTransmit s = millis T0 ->
   transmitDue (millis T1) s = (TRANSMIT_INTERVAL <=? T1 - T0)) /\
  (lastJam s = millis T0 ->
   jamDue (millis T1) s = (JAM_INTERVAL <=? T1 - T0)).
Proof.
  intros H. unfold recheckDue, animDue, debounced, transmitDue, jamDue.
  repeat split; intros ->; rewrite (sub_millis _ _ H); reflexivity.
Qed.

Lemma interval_tests_survive_wraparound_witness :
  millis afterWrap < millis beforeWrap /\
  recheckDue (millis afterWrap) (stampedAt beforeWrap) = false /\
  animDue (millis afterWrap) (stampedAt beforeWrap) = true /\
  debounced (millis afterWrap) (stampedAt beforeWrap) = false /\
  transmitDue (millis afterWrap) (stampedAt beforeWrap) = true /\
  jamDue (millis afterWrap) (stampedAt beforeWrap) = true.
Proof.
  assert (Hb : beforeWrap <= afterWrap < beforeWrap + Word.modulus)
    by (unfold beforeWrap, afterWrap, Word.modulus; lia).
  destruct (interval_tests_survive_wraparound _ _ (stampedAt beforeWrap) Hb)
    as (H1 & H2 & H3 & H4 & H5).
  split; [reflexivity |].
  rewrite (H1 eq_refl), (H2 eq_refl), (H3 eq_refl), (H4 eq_refl), (H5 eq_refl).
  repeat split.
Defined.

(** The other form gives a different answer across the wrap: fifty
    milliseconds after a stamp taken just before the wrap it reports the
    transmit interval as elapsed. *)
Lemma naive_test_differs_at_wraparound :
  transmitDue (millis (Word.modulus - 50)) (stampedAt beforeWrap) = false /\
  naiveDue TRANSMIT_INTERVAL (millis (Word.modulus - 50)) (millis beforeWrap) = true.
Proof. split; reflexivity. Qed.

(** ** The flags follow the mode *)

Lemma flagsFollowMode_fields s s' :
  currentMode s' = currentMode s -> isTransmitting s' = isTransmitting s ->
  isJamming s' = isJamming s ->
  (valid (capturedSignal s) = true -> valid (capturedSignal s') = true) ->
  flagsFollowMode s -> flagsFollowMode s'.
Proof.
  unfold flagsFollowMode. intros -> -> -> Hv (H1 & H2). split; [| exact H2].
  intros Ht. destruct (H1 Ht) as (Hm & Hval). auto.
Qed.

Lemma onUp_flags now s : flagsFollowMode s -> flagsFollowMode (fst (onUp now s)).
Proof.
  apply flagsFollowMode_fields; rewrite onUp_shape; try reflexivity. auto.
Qed.

Lemma onDown_flags now s : flagsFollowMode s -> flagsFollowMode (fst (onDown now s)).
Proof.
  apply flagsFollowMode_fields; rewrite onDown_shape; try reflexivity. auto.
Qed.

Lemma onSelect_flags now s : flagsFollowMode s -> flagsFollowMode (fst (onSelect now s)).
Proof.
  unfold flagsFollowMode. intros (H1 & H2).
  destruct (selectEdge s) eqn:He; [| rewrite (onSelect_idle _ _ He); auto].
  destruct (currentMode s) eqn:Hm.
  - rewrite (onSelect_menu _ _ He Hm). cbn. split; discriminate.
  - rewrite (onSelect_read _ _ He Hm). cbn. rewrite Hm. auto.
  - destruct (valid (capturedSignal s)) eqn:Hv.
    + rewrite (onSelect_emulate_valid _ _ He Hm Hv). cbn. rewrite Hm, Hv. auto.
    + assert (Hs := onSelect_emulate_invalid now s He Hm Hv).
      rewrite Hs. cbn. rewrite Hm, Hv. auto.
  - rewrite (onSelect_jam _ _ He Hm). cbn. rewrite Hm. split; [exact H1 | auto].
Qed.

Lemma onBack_flags now s : flagsFollowMode s -> flagsFollowMode (fst (onBack now s)).
Proof.
  intros H. destruct (backEdge s) eqn:He.
  - rewrite (onBack_fire _ _ He). split; cbn; discriminate.
  - rewrite (onBack_idle _ _ He). exact H.
Qed.

Lemma handleButtons_flags now g s :
  flagsFollowMode s -> flagsFollowMode (fst (handleButtons now g s)).
Proof.
  intros H. destruct (debounced now s) eqn:Hd.
  - rewrite (handleButtons_debounced _ _ _ Hd). exact H.
  - rewrite (handleButtons_open_state _ _ _ Hd).
    assert (H4 : flagsFollowMode (afterBack now (sampled g s))).
    { unfold afterBack, afterSelect, afterDown, afterUp.
      apply onBack_flags, onSelect_flags, onDown_flags, onUp_flags. exact H. }
    exact H4.
Qed.

Lemma loop_flags tk s : flagsFollowMode s -> flagsFollowMode (fst (loop tk s)).
Proof.
  intros H. rewrite loop_state.
  assert (Hsw : flagsFollowMode (atSwitch tk s)).
  { rewrite atSwitch_eq. apply handleButtons_flags.
    revert H. apply flagsFollowMode_fields;
      rewrite animate_shape; cbn; rewrite monitor_shape; try reflexivity. auto. }
  revert Hsw. apply flagsFollowMode_fields.
  - apply modeLogic_mode.
  - apply modeLogic_isTransmitting.
  - apply modeLogic_isJamming.
  - intros Hv. rewrite modeLogic_store.
    destruct (currentMode (atSwitch tk s)); try exact Hv.
    destruct (rfModuleConnected (atSwitch tk s)); try exact Hv.
    destruct (rx tk) as [ev |]; try exact Hv.
    destruct (rxValue ev =? 0); [exact Hv | reflexivity].
Qed.

Lemma run_flags ticks :
  forall s, flagsFollowMode s -> flagsFollowMode (fst (run ticks s)).
Proof.
  induction ticks as [| tk rest IH]; intros s H; [exact H |].
  cbn [run fst]. apply IH, loop_flags, H.
Qed.

Lemma booted_flags : flagsFollowMode booted.
Proof. split; discriminate. Qed.

(** So from boot on, replay is on whenever [isTransmitting] is set. *)
Lemma transmitting_is_replaying ticks :
  isTransmitting (fst (run ticks booted)) = true ->
  replaying (fst (run ticks booted)) = true.
Proof.
  intros Ht. destruct (run_flags ticks booted booted_flags) as (H1 & _).
  destruct (H1 Ht) as (Hm & Hv). unfold replaying. rewrite Ht, Hm, Hv. reflexivity.
Qed.

(** The menu range holds from boot on as well. *)
Lemma loop_range tk s : inMenuRange s -> inMenuRange (fst (loop tk s)).
Proof.
  intros H. rewrite loop_state. unfold inMenuRange.
  rewrite modeLogic_shape.
  cbn [menuSelection set_capturedSignal set_lastTransmit set_lastJam set_transmitCount].
  rewrite atSwitch_eq.
  apply handleButtons_range. unfold inMenuRange.
  rewrite animate_shape. cbn. rewrite monitor_shape. exact H.
Qed.

Lemma run_range ticks : forall s, inMenuRange s -> inMenuRange (fst (run ticks s)).
Proof.
  induction ticks as [| tk rest IH]; intros s H; [exact H |].
  cbn [run fst]. apply IH, loop_range, H.
Qed.

(** In the menu both flags are off. *)
Lemma menu_flags_off s :
  flagsFollowMode s -> currentMode s = MENU ->
  isTransmitting s = false /\ isJamming s = false.
Proof.
  intros (H1 & H2) Hm. split.
  - destruct (isTransmitting s); [| reflexivity].
    destruct (H1 eq_refl) as (He & _). congruence.
  - destruct (isJamming s); [| reflexivity].
    specialize (H2 eq_refl). congruence.
Qed.

(** ** The end-to-end scenario

    Boot, Select into Read mode, receive 0xABCD12 (24 bits, protocol 1,
    pulse 350), Back, Down to the second item, Select into Emulate, Select
    to start replay: the first send goes out in that pass with the stored
    parameters, the second half a second later, and the counter reads 2. *)
Example end_to_end_scenario :
  currentMode booted = MENU /\
  capturedSignal (fst (run scenario booted)) = captureOf remote 3250 /\
  currentMode (fst (run scenario booted)) = EMULATE /\
  isTransmitting (fst (run scenario booted)) = true /\
  sendTimes (snd (run scenario booted)) = [5000; 5500] /\
  transmitCount (fst (run scenario booted)) = 2 /\
  filter isTx (snd (loop (tickAt 5500 released true None)
                         (fst (run (removelast scenario) booted))))
  = [TxSetProtocol 1; TxSetPulseLength 350; TxSend 0xABCD12 24].
Proof. vm_compute. repeat split. Qed.

(** * Further properties of the sketch *)

(** ** The log of a pass *)

Lemma monitor_log_quiet tk s :
  frames (snd (monitor tk s)) = [] /\ filter isPoll (snd (monitor tk s)) = [].
Proof.
  unfold monitor, when, ifS, checkRFModule.
  destruct (recheckDue _ s); [| split; reflexivity].
  destruct (heard tk), (txOk tk), (rfModuleConnected s); split; reflexivity.
Qed.

Lemma serial_quiet evs :
  forallb isSerial evs = true -> frames evs = [] /\ filter isPoll evs = [].
Proof.
  induction evs as [| e evs IH]; [split; reflexivity |].
  cbn [forallb]. intros H. apply andb_true_iff in H. destruct H as (He & H).
  destruct (IH H) as (IH1 & IH2).
  destruct e; try discriminate. cbn. auto.
Qed.

Lemma prelude_log_quiet tk s :
  frames (snd (prelude tk s)) = [] /\ filter isPoll (snd (prelude tk s)) = [].
Proof.
  unfold prelude. rewrite !snd_seq, animate_log. cbn [app].
  destruct (monitor_log_quiet tk s) as (Hf & Hp).
  destruct (serial_quiet _
              (handleButtons_serial (millis (t_buttons tk)) (gpio tk)
                 (fst (animate tk (fst (monitor tk s)))))) as (Hf' & Hp').
  rewrite frames_app, filter_app, Hf, Hp, Hf', Hp'. split; reflexivity.
Qed.

(** The transmitter calls of the mode switch, case by case. *)
Lemma modeLogic_tx tk d :
  filter isTx (snd (modeLogic tk d)) =
  if rfModuleConnected d then
    match currentMode d with
    | EMULATE =>
        if isTransmitting d && transmitDue (millis (t_action tk)) d
           && valid (capturedSignal d)
        then replayCall (capturedSignal d) else []
    | JAM =>
        if isJamming d && jamDue (millis (t_action tk)) d
        then jamCall (rnd tk) d else []
    | _ => []
    end
  else [].
Proof.
  unfold modeLogic, rfError, displayWarning, drawMenu, handleRFReception,
    transmitSignal, jamSignals, drawEmulateMode, drawJamMode, drawReadMode.
  destruct (rfModuleConnected d), (currentMode d); try reflexivity.
  - destruct (rx tk) as [ev |]; [| reflexivity].
    destruct (rxValue ev =? 0); reflexivity.
  - unfold_cmds. cbn.
    destruct (isTransmitting d); [| reflexivity].
    destruct (transmitDue _ d); [| reflexivity].
    destruct (valid (capturedSignal d)); reflexivity.
  - unfold_cmds. cbn.
    destruct (isJamming d); [| reflexivity].
    destruct (jamDue _ d); reflexivity.
Qed.

(** The receiver polls of the mode switch. *)
Lemma modeLogic_poll tk d :
  filter isPoll (snd (modeLogic tk d)) =
  if rfModuleConnected d && Mode_eqb (currentMode d) READ
  then [RxAvailable (match rx tk with Some _ => true | None => false end)]
  else [].
Proof.
  unfold modeLogic, rfError, displayWarning, drawMenu, handleRFReception,
    transmitSignal, jamSignals, drawEmulateMode, drawJamMode, drawReadMode.
  destruct (rfModuleConnected d), (currentMode d); try reflexivity.
  - destruct (rx tk) as [ev |]; [| reflexivity].
    destruct (rxValue ev =? 0); reflexivity.
  - unfold_cmds. cbn. repeat (split_if; cbn); reflexivity.
  - unfold_cmds. cbn. repeat (split_if; cbn); reflexivity.
Qed.

(** The one frame of the mode switch. *)
Lemma modeLogic_frame tk d :
  exists f, frames (snd (modeLogic tk d)) = [f] /\ frameFits d f.
Proof.
  unfold modeLogic, rfError, displayWarning, drawMenu, handleRFReception,
    transmitSignal, jamSignals, drawEmulateMode, drawJamMode, drawReadMode.
  destruct (currentMode d) eqn:Hm, (rfModuleConnected d) eqn:Hc; cbn [negb];
    try (eexists; split; [reflexivity |]; cbn; rewrite ?Hm, ?Hc;
         first [reflexivity | split; [discriminate | reflexivity]
               | split; reflexivity]).
  - destruct (rx tk) as [ev |].
    + destruct (rxValue ev =? 0); eexists; (split; [reflexivity |]);
        cbn; rewrite Hm, Hc; split; reflexivity.
    + eexists; split; [reflexivity |]. cbn. rewrite Hm, Hc. split; reflexivity.
  - unfold_cmds. cbn. repeat (split_if; cbn);
      eexists; (split; [reflexivity |]); cbn; rewrite Hm, Hc; split; reflexivity.
  - unfold_cmds. cbn. repeat (split_if; cbn);
      eexists; (split; [reflexivity |]); cbn; rewrite Hm, Hc; split; reflexivity.
Qed.

Lemma loop_frames tk s :
  frames (snd (loop tk s)) = frames (snd (modeLogic tk (atSwitch tk s))).
Proof.
  rewrite loop_log, !frames_app.
  destruct (prelude_log_quiet tk s) as (-> & _). cbn. apply app_nil_r.
Qed.

Lemma loop_polls tk s :
  filter isPoll (snd (loop tk s)) = filter isPoll (snd (modeLogic tk (atSwitch tk s))).
Proof.
  rewrite loop_log, !filter_app.
  destruct (prelude_log_quiet tk s) as (_ & ->). cbn. apply app_nil_r.
Qed.

(** X1.  Every pass of [loop()] draws exactly one frame, the one that
    belongs to the mode and the link status its mode switch sees, and ends
    with the 30 ms delay. *)
Theorem pass_draws_one_frame tk s :
  (exists f, frames (snd (loop tk s)) = [f] /\ frameFits (atSwitch tk s) f) /\
  last (snd (loop tk s)) (Delay 0) = Delay 30.
Proof.
  split.
  - rewrite loop_frames. apply modeLogic_frame.
  - rewrite loop_log, app_assoc. apply last_last.
Qed.


(** ** Passes without an accepted edge *)

Lemma handleButtons_no_edge now g s :
  debounced now s = false -> anyEdge (sampled g s) = false ->
  handleButtons now g s = (snapshot (sampled g s), []).
Proof.
  intros Hd He. unfold anyEdge in He.
  apply orb_false_iff in He. destruct He as (He & Hb).
  apply orb_false_iff in He. destruct He as (He & Hs).
  apply orb_false_iff in He. destruct He as (Hu & Hdn).
  rewrite (surjective_pairing (handleButtons now g s)). f_equal.
  - rewrite (handleButtons_open_state _ _ _ Hd), (afterBack_idle _ _ Hb),
      (afterSelect_idle _ _ Hs), (afterDown_idle _ _ Hu Hdn). reflexivity.
  - rewrite (handleButtons_open _ _ _ Hd), !snd_seq.
    rewrite (onUp_idle _ _ Hu). cbn [fst snd].
    rewrite (onDown_idle _ _ Hdn). cbn [fst snd].
    rewrite (onSelect_idle _ _ Hs). cbn [fst snd].
    rewrite (onBack_idle _ _ Hb). reflexivity.
Qed.

Lemma beforeButtons_btnState tk s : btnState (beforeButtons tk s) = btnState s.
Proof.
  unfold beforeButtons. rewrite animate_shape. cbn. rewrite monitor_shape. reflexivity.
Qed.

Lemma beforeButtons_modeState tk s : sameModeState s (beforeButtons tk s).
Proof.
  unfold beforeButtons, sameModeState.
  rewrite animate_shape. cbn. rewrite monitor_shape. cbn. auto.
Qed.

Lemma beforeButtons_debounced tk now s :
  debounced now (beforeButtons tk s) = debounced now s.
Proof. unfold debounced. rewrite beforeButtons_btnState. reflexivity. Qed.

Lemma beforeButtons_edges tk g s :
  upEdge (sampled g (beforeButtons tk s)) = upEdge (sampled g s) /\
  downEdge (sampled g (beforeButtons tk s)) = downEdge (sampled g s) /\
  selectEdge (sampled g (beforeButtons tk s)) = selectEdge (sampled g s) /\
  backEdge (sampled g (beforeButtons tk s)) = backEdge (sampled g s).
Proof.
  unfold upEdge, downEdge, selectEdge, backEdge, sampled.
  cbn [btnState set_btnState]. rewrite beforeButtons_btnState. auto.
Qed.

Lemma beforeButtons_anyEdge tk g s :
  anyEdge (sampled g (beforeButtons tk s)) = anyEdge (sampled g s).
Proof.
  unfold anyEdge. destruct (beforeButtons_edges tk g s) as (-> & -> & -> & ->).
  reflexivity.
Qed.

Lemma atSwitch_before tk s :
  atSwitch tk s =
  fst (handleButtons (millis (t_buttons tk)) (gpio tk) (beforeButtons tk s)).
Proof. reflexivity. Qed.

Lemma modeLogic_modeState tk d : sameModeState d (fst (modeLogic tk d)).
Proof.
  unfold sameModeState. rewrite modeLogic_shape. cbn. auto.
Qed.

Lemma sameModeState_trans s1 s2 s3 :
  sameModeState s1 s2 -> sameModeState s2 s3 -> sameModeState s1 s3.
Proof.
  unfold sameModeState. intros (? & ? & ? & ?) (? & ? & ? & ?).
  repeat split; congruence.
Qed.

(** X3.  The mode, the menu selection and the two flags change only
    through an accepted button edge: a pass whose call of handleButtons
    is inside the debounce window, or sees no rising edge, leaves all four
    as they were and writes nothing for the buttons. *)
Theorem mode_changes_need_an_edge tk s :
  debounced (millis (t_buttons tk)) s = true \/ anyEdge (sampled (gpio tk) s) = false ->
  sameModeState s (fst (loop tk s)) /\
  snd (handleButtons (millis (t_buttons tk)) (gpio tk) (beforeButtons tk s)) = [].
Proof.
  intros H.
  assert (Hb : handleButtons (millis (t_buttons tk)) (gpio tk) (beforeButtons tk s)
               = (sampled (gpio tk) (beforeButtons tk s), []) \/
               handleButtons (millis (t_buttons tk)) (gpio tk) (beforeButtons tk s)
               = (snapshot (sampled (gpio tk) (beforeButtons tk s)), [])).
  { destruct (debounced (millis (t_buttons tk)) s) eqn:Hd.
    - left. apply handleButtons_debounced. rewrite beforeButtons_debounced. exact Hd.
    - right. destruct H as [H | H]; [discriminate |].
      apply handleButtons_no_edge.
      + rewrite beforeButtons_debounced. exact Hd.
      + rewrite beforeButtons_anyEdge. exact H. }
  split.
  - rewrite loop_state.
    eapply sameModeState_trans; [| apply modeLogic_modeState].
    eapply sameModeState_trans; [apply beforeButtons_modeState |].
    rewrite atSwitch_before. destruct Hb as [-> | ->]; repeat split.
  - destruct Hb as [-> | ->]; reflexivity.
Qed.

Lemma mode_changes_need_an_edge_witness :
  anyEdge (sampled released replayOn) = false /\
  sameModeState replayOn (fst (loop (tickAt 10000 released true None) replayOn)).
Proof.
  split; [reflexivity |].
  apply (mode_changes_need_an_edge (tickAt 10000 released true None) replayOn).
  right. reflexivity.
Defined.

(** X4.  Back stops the radio at once.  A pass that accepts a Back edge,
    in any mode and whatever else is pressed, ends in the menu with both
    flags off; that same pass calls neither the transmitter nor the
    receiver poll, and the frame it draws is the menu. *)
Theorem back_stops_the_radio tk s :
  debounced (millis (t_buttons tk)) s = false ->
  backEdge (sampled (gpio tk) s) = true ->
  currentMode (fst (loop tk s)) = MENU /\
  isTransmitting (fst (loop tk s)) = false /\
  isJamming (fst (loop tk s)) = false /\
  filter isTx (snd (loop tk s)) = [] /\
  filter isPoll (snd (loop tk s)) = [] /\
  exists sel rf sig, frames (snd (loop tk s)) = [FrMenu sel rf sig].
Proof.
  intros Hd Hb.
  assert (Hsw : currentMode (atSwitch tk s) = MENU /\
                isTransmitting (atSwitch tk s) = false /\
                isJamming (atSwitch tk s) = false).
  { rewrite atSwitch_before. apply handleButtons_back.
    - rewrite beforeButtons_debounced. exact Hd.
    - destruct (beforeButtons_edges tk (gpio tk) s) as (_ & _ & _ & ->). exact Hb. }
  destruct Hsw as (Hm & Ht & Hj).
  rewrite loop_state, modeLogic_mode, modeLogic_isTransmitting, modeLogic_isJamming.
  split; [exact Hm | split; [exact Ht | split; [exact Hj |]]].
  rewrite loop_log_tx, loop_polls, loop_frames, modeLogic_tx, modeLogic_poll, Hm.
  split; [destruct (rfModuleConnected (atSwitch tk s)); reflexivity |].
  split; [destruct (rfModuleConnected (atSwitch tk s)); reflexivity |].
  unfold modeLogic. rewrite Hm. unfold drawMenu. cbn. eauto.
Qed.

Lemma back_stops_the_radio_witness :
  debounced (millis 10000) replayOn = false /\
  backEdge (sampled (holding BTN_BACK) replayOn) = true /\
  currentMode (fst (loop (tickAt 10000 (holding BTN_BACK) true None) replayOn)) = MENU /\
  filter isTx (snd (loop (tickAt 10000 (holding BTN_BACK) true None) replayOn)) = [].
Proof.
  destruct (back_stops_the_radio (tickAt 10000 (holding BTN_BACK) true None) replayOn
              eq_refl eq_refl) as (H1 & _ & _ & H4 & _).
  repeat split; assumption.
Defined.

(** ** What holds from boot on *)

Lemma setup_state g d h t s r :
  setup g d h t s = Some r ->
  d = true /\
  fst r = set_currentMode MENU
            (set_rfModuleConnected (h || t) (snapshot (sampled g s))).
Proof.
  unfold setup. destruct d; cbn [negb]; [| discriminate].
  intros H. injection H as <-. split; [reflexivity |].
  cbn [fst]. unfold checkRFModule. destruct h; reflexivity.
Qed.

Lemma setup_flags g d h t r :
  setup g d h t initial = Some r -> flagsFollowMode (fst r) /\ inMenuRange (fst r).
Proof.
  intros H. destruct (setup_state _ _ _ _ _ _ H) as (_ & ->).
  split; [split; discriminate |].
  unfold inMenuRange, menuItems. cbn. lia.
Qed.

(** X5.  From boot on the flags follow the mode.  After [setup] and any
    number of passes, whatever the buttons, the receiver and the link do:
    [isTransmitting] is set only in Emulate mode and only with a valid
    capture, [isJamming] only in Jam mode, and never both. *)
Theorem flags_follow_mode_from_boot g d h t r ticks :
  setup g d h t initial = Some r ->
  (isTransmitting (fst (run ticks (fst r))) = true ->
   currentMode (fst (run ticks (fst r))) = EMULATE /\
   valid (capturedSignal (fst (run ticks (fst r)))) = true) /\
  (isJamming (fst (run ticks (fst r))) = true ->
   currentMode (fst (run ticks (fst r))) = JAM) /\
  isTransmitting (fst (run ticks (fst r))) && isJamming (fst (run ticks (fst r))) = false.
Proof.
  intros H. destruct (setup_flags _ _ _ _ _ H) as (Hf & _).
  destruct (run_flags ticks _ Hf) as (H1 & H2).
  split; [exact H1 | split; [exact H2 |]].
  destruct (isTransmitting (fst (run ticks (fst r)))) eqn:Ht; [| reflexivity].
  destruct (isJamming (fst (run ticks (fst r)))) eqn:Hj; [| reflexivity].
  destruct (H1 eq_refl) as (Hm & _). rewrite (H2 eq_refl) in Hm. discriminate.
Qed.

Lemma flags_follow_mode_from_boot_witness :
  setup released true false true initial = Some (powerUp released false true) /\
  isTransmitting (fst (run scenario (fst (powerUp released false true)))) = true /\
  currentMode (fst (run scenario (fst (powerUp released false true)))) = EMULATE /\
  isTransmitting (fst (run scenario (fst (powerUp released false true))))
  && isJamming (fst (run scenario (fst (powerUp released false true)))) = false.
Proof.
  assert (H : setup released true false true initial
              = Some (powerUp released false true)) by reflexivity.
  destruct (flags_follow_mode_from_boot _ _ _ _ _ scenario H) as (H1 & _ & H3).
  assert (Ht : isTransmitting (fst (run scenario (fst (powerUp released false true))))
               = true) by (vm_compute; reflexivity).
  split; [exact H | split; [exact Ht | split; [apply (H1 Ht) | exact H3]]].
Defined.

(** The SELECT block in the menu leaves the menu when the selection names
    an item. *)
Lemma onSelect_menu_enters now s :
  selectEdge s = true -> currentMode s = MENU -> inMenuRange s ->
  currentMode (fst (onSelect now s)) <> MENU.
Proof.
  intros He Hm Hr. rewrite (onSelect_menu _ _ He Hm), enterSelected_state.
  unfold inMenuRange, menuItems in Hr.
  destruct (menuSelection s =? 0) eqn:H0; [cbn; discriminate |].
  destruct (menuSelection s =? 1) eqn:H1; [cbn; discriminate |].
  destruct (menuSelection s =? 2) eqn:H2; [cbn; discriminate |].
  zify_tests. lia.
Qed.

(** X6.  From boot on the menu selection names one of the three items, so
    the [switch] without a default case in the SELECT block always finds a
    case: a call that accepts a Select edge in the menu, and no Back edge,
    leaves the menu, whatever Up and Down do in the same call. *)
Theorem menu_select_always_enters g d h t r ticks now g' :
  setup g d h t initial = Some r ->
  inMenuRange (fst (run ticks (fst r))) /\
  (currentMode (fst (run ticks (fst r))) = MENU ->
   debounced now (fst (run ticks (fst r))) = false ->
   selectEdge (sampled g' (fst (run ticks (fst r)))) = true ->
   backEdge (sampled g' (fst (run ticks (fst r)))) = false ->
   currentMode (fst (handleButtons now g' (fst (run ticks (fst r))))) <> MENU).
Proof.
  intros H. destruct (setup_flags _ _ _ _ _ H) as (_ & Hr0).
  pose proof (run_range ticks _ Hr0) as Hr.
  split; [exact Hr |].
  intros Hm Hd Hs Hb.
  rewrite (handleButtons_open_state _ _ _ Hd), (afterBack_idle _ _ Hb).
  change (currentMode (snapshot ?x)) with (currentMode x).
  unfold afterSelect. apply onSelect_menu_enters.
  - destruct (blocks_edges now (sampled g' (fst (run ticks (fst r))))) as (_ & He & _).
    congruence.
  - rewrite afterDown_mode. exact Hm.
  - unfold afterDown, afterUp. apply onDown_range, onUp_range. exact Hr.
Qed.

Lemma menu_select_always_enters_witness :
  setup released true false true initial = Some (powerUp released false true) /\
  inMenuRange (fst (run (firstn 6 scenario) (fst (powerUp released false true)))) /\
  currentMode (fst (run (firstn 6 scenario) (fst (powerUp released false true)))) = MENU /\
  currentMode (fst (handleButtons 4500 (holding BTN_SELECT)
                      (fst (run (firstn 6 scenario)
                              (fst (powerUp released false true)))))) <> MENU.
Proof.
  assert (H : setup released true false true initial
              = Some (powerUp released false true)) by reflexivity.
  destruct (menu_select_always_enters _ _ _ _ _ (firstn 6 scenario) 4500
              (holding BTN_SELECT) H) as (H1 & H2).
  split; [exact H | split; [exact H1 | split; [reflexivity |]]].
  apply H2; reflexivity.
Defined.

(** The selection does not name an item: SELECT stays in the menu. *)
Lemma select_out_of_range_stays :
  currentMode (fst (handleButtons 5000 (holding BTN_SELECT) (set_menuSelection 3 initial)))
  = MENU.
Proof. reflexivity. Qed.

(** X7.  [setup] takes the snapshot of the buttons, so a button held down
    since power-up is no rising edge: as long as the pins read as they did
    in [setup], handleButtons accepts nothing, writes nothing, keeps the
    debounce stamp, and leaves the mode, the selection and the flags. *)
Theorem setup_snapshot_prevents_first_edge g d h t s r now :
  setup g d h t s = Some r ->
  anyEdge (sampled g (fst r)) = false /\
  snd (handleButtons now g (fst r)) = [] /\
  lastPress (btnState (fst (handleButtons now g (fst r)))) = lastPress (btnState s) /\
  sameModeState (fst r) (fst (handleButtons now g (fst r))).
Proof.
  intros H. destruct (setup_state _ _ _ _ _ _ H) as (_ & Hr).
  assert (He : anyEdge (sampled g (fst r)) = false).
  { rewrite Hr. unfold_edges. unfold buttonRisingEdge, sampled. cbn.
    destruct (pressed g BTN_UP), (pressed g BTN_DOWN), (pressed g BTN_SELECT),
      (pressed g BTN_BACK); reflexivity. }
  split; [exact He |].
  destruct (debounced now (fst r)) eqn:Hd.
  - rewrite (handleButtons_debounced _ _ _ Hd). rewrite Hr. repeat split.
  - rewrite (handleButtons_no_edge _ _ _ Hd He). rewrite Hr. repeat split.
Qed.

Lemma setup_snapshot_prevents_first_edge_witness :
  setup (holding BTN_SELECT) true false true initial
  = Some (powerUp (holding BTN_SELECT) false true) /\
  anyEdge (sampled (holding BTN_SELECT) (fst (powerUp (holding BTN_SELECT) false true)))
  = false /\
  snd (handleButtons 5000 (holding BTN_SELECT)
         (fst (powerUp (holding BTN_SELECT) false true))) = [] /\
  currentMode (fst (handleButtons 5000 (holding BTN_SELECT)
                      (fst (powerUp (holding BTN_SELECT) false true)))) = MENU.
Proof.
  assert (H : setup (holding BTN_SELECT) true false true initial
              = Some (powerUp (holding BTN_SELECT) false true)) by reflexivity.
  destruct (setup_snapshot_prevents_first_edge _ _ _ _ _ _ 5000 H)
    as (H1 & H2 & _ & H4 & _).
  split; [exact H | split; [exact H1 | split; [exact H2 |]]].
  rewrite H4. reflexivity.
Defined.

(** X8.  [setup] runs into its endless loop exactly when the display does
    not start.  Otherwise it ends in the menu, the link flag holds the
    result of the link check (a transmission heard, or the TX pin reading
    back), the rest of the state is untouched apart from the buttons, and
    the two warning lines are written exactly when the link was not
    found. *)
Theorem setup_outcome g d h t s :
  (setup g d h t s = None <-> d = false) /\
  (forall r, setup g d h t s = Some r ->
     currentMode (fst r) = MENU /\
     rfModuleConnected (fst r) = h || t /\
     onlyButtons (set_currentMode MENU (set_rfModuleConnected (h || t) s)) (fst r) /\
     (In (Serial "WARNING: RF module not detected!") (snd r) <-> h || t = false)).
Proof.
  split.
  - unfold setup. destruct d; cbn [negb]; split; intros H; try discriminate; reflexivity.
  - intros r H. destruct (setup_state _ _ _ _ _ _ H) as (Hd & Hr).
    rewrite Hr. split; [reflexivity | split; [reflexivity | split; [reflexivity |]]].
    unfold setup in H. rewrite Hd in H. cbn [negb] in H. injection H as <-.
    unfold checkRFModule, bootAnimation. cbn [snd fst].
    destruct h, t; cbn; split; intros Hx; try discriminate; try reflexivity;
      try (repeat (destruct Hx as [Hx | Hx]; [discriminate |]); contradiction);
      try (repeat (first [left; reflexivity | right])).
Qed.

Lemma setup_outcome_witness :
  setup released true false false initial = Some (powerUp released false false) /\
  currentMode (fst (powerUp released false false)) = MENU /\
  rfModuleConnected (fst (powerUp released false false)) = false /\
  In (Serial "WARNING: RF module not detected!") (snd (powerUp released false false)) /\
  setup released false true true initial = None.
Proof.
  assert (H : setup released true false false initial
              = Some (powerUp released false false)) by reflexivity.
  destruct (setup_outcome released true false false initial) as (_ & A).
  destruct (A _ H) as (A1 & A2 & _ & A4).
  destruct (setup_outcome released false true true initial) as (B & _).
  split; [exact H | split; [exact A1 | split; [exact A2 | split]]].
  - apply A4. reflexivity.
  - apply B. reflexivity.
Defined.

(** ** The animation counter *)

Lemma animate_range tk s : inAnimRange (fst (animate tk s)) \/ fst (animate tk s) = s.
Proof.
  unfold animate, when, ifS. destruct (animDue _ s); [left | right; reflexivity].
  unfold inAnimRange, seq, modify. cbn. apply Z.mod_pos_bound. lia.
Qed.

Lemma loop_animFrame tk s :
  animFrame (fst (loop tk s)) = animFrame (fst (animate tk (fst (monitor tk s)))).
Proof.
  rewrite loop_state, modeLogic_shape.
  cbn [animFrame set_capturedSignal set_lastTransmit set_lastJam set_transmitCount].
  rewrite atSwitch_eq.
  destruct (handleButtons_frame (millis (t_buttons tk)) (gpio tk)
              (fst (animate tk (fst (monitor tk s))))) as (_ & _ & _ & -> & _).
  reflexivity.
Qed.

Lemma loop_animRange tk s : inAnimRange s -> inAnimRange (fst (loop tk s)).
Proof.
  intros H. unfold inAnimRange. rewrite loop_animFrame.
  destruct (animate_range tk (fst (monitor tk s))) as [Hr | ->]; [exact Hr |].
  rewrite monitor_shape. exact H.
Qed.

Lemma run_animRange ticks : forall s, inAnimRange s -> inAnimRange (fst (run ticks s)).
Proof.
  induction ticks as [| tk rest IH]; intros s H; [exact H |].
  cbn [run fst]. apply IH, loop_animRange, H.
Qed.

(** X9.  The animation counter stays within [0, 1000) over any run that
    starts there, as the initial state does.  A pass whose animation test
    holds advances it by one, from 999 back to 0; any other pass leaves
    it alone. *)
Theorem animation_counter_stays_in_range s :
  inAnimRange s ->
  (forall ticks, inAnimRange (fst (run ticks s))) /\
  (forall tk,
      animFrame (fst (loop tk s)) =
      if animDue (millis (t_anim tk)) s
      then (if animFrame s =? 999 then 0 else animFrame s + 1)
      else animFrame s).
Proof.
  intros H. split.
  - intros ticks. apply run_animRange, H.
  - intros tk. rewrite loop_animFrame.
    assert (Hd : animDue (millis (t_anim tk)) (fst (monitor tk s))
                 = animDue (millis (t_anim tk)) s).
    { unfold animDue. rewrite monitor_shape. reflexivity. }
    assert (Ha : animFrame (fst (monitor tk s)) = animFrame s)
      by (rewrite monitor_shape; reflexivity).
    unfold animate, when, ifS. rewrite Hd.
    destruct (animDue (millis (t_anim tk)) s); [| exact Ha].
    unfold seq, modify. cbn. rewrite Ha.
    unfold inAnimRange in H. unfold Word.wrap, Word.modulus.
    rewrite (Z.mod_small (animFrame s + 1)) by lia.
    destruct (animFrame s =? 999) eqn:E; zify_tests.
    + rewrite E. reflexivity.
    + apply Z.mod_small. lia.
Qed.

Lemma animation_counter_stays_in_range_witness :
  inAnimRange (set_animFrame 999 initial) /\
  inAnimRange (fst (run scenario (set_animFrame 999 initial))) /\
  animFrame (fst (loop (tickAt 3000 released true None) (set_animFrame 999 initial))) = 0.
Proof.
  assert (H : inAnimRange (set_animFrame 999 initial))
    by (unfold inAnimRange; cbn; lia).
  destruct (animation_counter_stays_in_range _ H) as (H1 & H2).
  split; [exact H | split; [apply H1 |]].
  rewrite H2. reflexivity.
Defined.

(** ** Menu navigation forth and back *)

Lemma menu_step_up m :
  0 <= m < menuItems ->
  (if Word.to_int (m - 1) <? 0 then menuItems - 1 else Word.to_int (m - 1))
  = (m + 2) mod 3.
Proof.
  unfold menuItems. intros H.
  rewrite to_int_small by (unfold Word.half; lia).
  assert (m = 0 \/ m = 1 \/ m = 2) as [-> | [-> | ->]] by lia; reflexivity.
Qed.

Lemma menu_step_down m :
  0 <= m < menuItems ->
  (if menuItems <=? Word.to_int (m + 1) then 0 else Word.to_int (m + 1))
  = (m + 1) mod 3.
Proof.
  unfold menuItems. intros H.
  rewrite to_int_small by (unfold Word.half; lia).
  assert (m = 0 \/ m = 1 \/ m = 2) as [-> | [-> | ->]] by lia; reflexivity.
Qed.

Lemma up_call_moves now g s :
  debounced now s = false -> currentMode s = MENU -> inMenuRange s ->
  upEdge (sampled g s) = true -> downEdge (sampled g s) = false ->
  menuSelection (fst (handleButtons now g s)) = (menuSelection s + 2) mod 3.
Proof.
  intros Hd Hm Hr Hu Hdn.
  rewrite (up_call_menuSelection _ _ _ Hd Hdn), (onUp_menu _ _ Hu Hm).
  apply menu_step_up. exact Hr.
Qed.

Lemma down_call_moves now g s :
  debounced now s = false -> currentMode s = MENU -> inMenuRange s ->
  downEdge (sampled g s) = true -> upEdge (sampled g s) = false ->
  menuSelection (fst (handleButtons now g s)) = (menuSelection s + 1) mod 3.
Proof.
  intros Hd Hm Hr Hdn Hu.
  rewrite (down_call_menuSelection _ _ _ Hd Hu), (onDown_menu _ _ Hdn Hm).
  apply menu_step_down. exact Hr.
Qed.

(** X10.  In the menu, with the selection on one of the three items, a
    call that accepts Up alone moves the selection one item back and a
    call that accepts Down alone one item forth, both cyclically; a call
    that accepts Up and Down together leaves the selection where it
    was. *)
Theorem menu_up_and_down_are_inverse now g s :
  debounced now s = false -> currentMode s = MENU -> inMenuRange s ->
  (upEdge (sampled g s) = true -> downEdge (sampled g s) = false ->
   menuSelection (fst (handleButtons now g s)) = (menuSelection s + 2) mod 3) /\
  (downEdge (sampled g s) = true -> upEdge (sampled g s) = false ->
   menuSelection (fst (handleButtons now g s)) = (menuSelection s + 1) mod 3) /\
  (upEdge (sampled g s) = true -> downEdge (sampled g s) = true ->
   menuSelection (fst (handleButtons now g s)) = menuSelection s).
Proof.
  intros Hd Hm Hr. split; [| split].
  - intros Hu Hdn. apply up_call_moves; assumption.
  - intros Hdn Hu. apply down_call_moves; assumption.
  - intros Hu Hdn. rewrite (handleButtons_open_state _ _ _ Hd).
    change (menuSelection (snapshot ?x)) with (menuSelection x).
    rewrite afterBack_menuSelection. unfold afterDown, afterUp.
    destruct (blocks_edges now (sampled g s)) as (Hd1 & _ & _).
    assert (Hm1 : currentMode (fst (onUp now (sampled g s))) = MENU).
    { rewrite onUp_shape. exact Hm. }
    rewrite onDown_menu; [| unfold afterUp in Hd1; congruence | exact Hm1].
    rewrite (onUp_menu _ _ Hu Hm).
    change (menuSelection (sampled g s)) with (menuSelection s).
    rewrite (menu_step_up _ Hr).
    rewrite menu_step_down by (unfold menuItems; apply Z.mod_pos_bound; lia).
    unfold inMenuRange, menuItems in Hr.
    assert (menuSelection s = 0 \/ menuSelection s = 1 \/ menuSelection s = 2)
      as [-> | [-> | ->]] by lia; reflexivity.
Qed.

Lemma menu_up_and_down_are_inverse_witness :
  debounced 5000 (set_menuSelection 1 initial) = false /\
  upEdge (sampled (holding BTN_UP) (set_menuSelection 1 initial)) = true /\
  menuSelection (fst (handleButtons 5000 (holding BTN_UP) (set_menuSelection 1 initial)))
  = 0 /\
  menuSelection (fst (handleButtons 5000 (holding BTN_DOWN) (set_menuSelection 1 initial)))
  = 2 /\
  menuSelection (fst (handleButtons 5000 holdingUpDown (set_menuSelection 1 initial)))
  = 1.
Proof.
  assert (Hd : debounced 5000 (set_menuSelection 1 initial) = false) by reflexivity.
  assert (Hm : currentMode (set_menuSelection 1 initial) = MENU) by reflexivity.
  assert (Hr : inMenuRange (set_menuSelection 1 initial))
    by (unfold inMenuRange, menuItems; cbn; lia).
  destruct (menu_up_and_down_are_inverse 5000 (holding BTN_UP) _ Hd Hm Hr) as (A & _).
  destruct (menu_up_and_down_are_inverse 5000 (holding BTN_DOWN) _ Hd Hm Hr) as (_ & B & _).
  destruct (menu_up_and_down_are_inverse 5000 holdingUpDown _ Hd Hm Hr) as (_ & _ & C).
  split; [exact Hd | split; [reflexivity | split; [| split]]].
  - rewrite A; reflexivity.
  - rewrite B; reflexivity.
  - rewrite C; reflexivity.
Defined.

(** ** Switching replay and jamming on *)

Lemma sub_millis_zero T : Word.sub (millis T) 0 = millis T.
Proof.
  unfold Word.sub, millis, Word.wrap. rewrite Z.sub_0_r. apply Z.mod_mod.
  unfold Word.modulus. lia.
Qed.

(** Outside the menu the UP and DOWN blocks leave all but the stamp, and
    the SELECT block sees the edge [readButtons] sampled. *)
Lemma nonmenu_before_select now g s :
  currentMode s <> MENU ->
  onlyButtons (sampled g s) (afterDown now (sampled g s)) /\
  currentMode (afterDown now (sampled g s)) = currentMode s /\
  selectEdge (afterDown now (sampled g s)) = selectEdge (sampled g s).
Proof.
  intros Hm.
  assert (H : onlyButtons (sampled g s) (afterDown now (sampled g s)))
    by (apply afterDown_onlyButtons; exact Hm).
  split; [exact H | split].
  - rewrite (onlyButtons_mode _ _ H). reflexivity.
  - destruct (blocks_edges now (sampled g s)) as (_ & He & _). exact He.
Qed.

Lemma select_call_nonmenu now g s :
  debounced now s = false -> backEdge (sampled g s) = false ->
  fst (handleButtons now g s) = snapshot (fst (onSelect now (afterDown now (sampled g s)))).
Proof.
  intros Hd Hb.
  rewrite (handleButtons_open_state _ _ _ Hd), (afterBack_idle _ _ Hb). reflexivity.
Qed.

(** A call that accepts Select in Emulate mode, with a capture and replay
    off, leaves replay on with a fresh gate. *)
Lemma emulate_select_on now g s :
  debounced now s = false -> currentMode s = EMULATE ->
  selectEdge (sampled g s) = true -> backEdge (sampled g s) = false ->
  valid (capturedSignal s) = true -> isTransmitting s = false ->
  replaying (fst (handleButtons now g s)) = true /\
  lastTransmit (fst (handleButtons now g s)) = 0 /\
  transmitCount (fst (handleButtons now g s)) = 0.
Proof.
  intros Hd Hm Hs Hb Hv Ht.
  destruct (nonmenu_before_select now g s) as (Hob & Hm' & He);
    [congruence |].
  rewrite (select_call_nonmenu _ _ _ Hd Hb).
  rewrite onSelect_emulate_valid.
  - rewrite Hob. unfold replaying. cbn. rewrite Hm, Hv, Ht. repeat split.
  - congruence.
  - congruence.
  - rewrite (onlyButtons_store _ _ Hob). exact Hv.
Qed.

(** X11.  Replay starts in the pass that switches it on.  When a pass
    accepts Select in Emulate mode with a capture and replay off, and the
    link is up at its mode switch, the same pass sends, because the gate
    was reset to 0, provided [millis()] reads at least TRANSMIT_INTERVAL;
    in the first half second after the clock has wrapped it does not, and
    the first send waits.  The counter then reads 1, respectively 0. *)
Theorem replay_starts_in_the_same_pass tk s :
  currentMode s = EMULATE -> valid (capturedSignal s) = true ->
  isTransmitting s = false ->
  debounced (millis (t_buttons tk)) s = false ->
  selectEdge (sampled (gpio tk) s) = true -> backEdge (sampled (gpio tk) s) = false ->
  rfModuleConnected (atSwitch tk s) = true ->
  isTransmitting (fst (loop tk s)) = true /\
  filter isTx (snd (loop tk s)) =
  (if TRANSMIT_INTERVAL <=? millis (t_action tk)
   then replayCall (capturedSignal s) else []) /\
  transmitCount (fst (loop tk s)) =
  (if TRANSMIT_INTERVAL <=? millis (t_action tk) then 1 else 0).
Proof.
  intros Hm Hv Ht Hd Hs Hb Hc.
  destruct (beforeButtons_modeState tk s) as (Hm' & _ & Ht' & _).
  destruct (beforeButtons_edges tk (gpio tk) s) as (_ & _ & Hs' & Hb').
  assert (Hv' : valid (capturedSignal (beforeButtons tk s)) = true).
  { unfold beforeButtons. rewrite animate_shape. cbn. rewrite monitor_shape. exact Hv. }
  destruct (emulate_select_on (millis (t_buttons tk)) (gpio tk) (beforeButtons tk s))
    as (Hrep & Hl & Hcnt); try congruence.
  { rewrite beforeButtons_debounced. exact Hd. }
  rewrite <- atSwitch_before in Hrep, Hl, Hcnt.
  destruct (pass_replay tk s Hrep) as (Hti & _ & _ & Hcount & Hlog).
  rewrite Hc in Hcount, Hlog. cbn [andb] in Hcount, Hlog.
  assert (Hdue : transmitDue (millis (t_action tk)) (atSwitch tk s)
                 = (TRANSMIT_INTERVAL <=? millis (t_action tk))).
  { unfold transmitDue. rewrite Hl, sub_millis_zero. reflexivity. }
  rewrite Hdue in Hcount, Hlog. rewrite Hcnt in Hcount.
  split; [exact Hti | split; [exact Hlog |]].
  rewrite Hcount. destruct (TRANSMIT_INTERVAL <=? millis (t_action tk)); reflexivity.
Qed.

Lemma replay_starts_in_the_same_pass_witness :
  filter isTx (snd (loop (tickAt 5000 (holding BTN_SELECT) true None) emulateReady))
  = replayCall (capturedSignal emulateReady) /\
  filter isTx (snd (loop (tickAt (Word.modulus + 300) (holding BTN_SELECT) true None)
                         emulateReady)) = [].
Proof.
  destruct (replay_starts_in_the_same_pass
              (tickAt 5000 (holding BTN_SELECT) true None) emulateReady
              eq_refl eq_refl eq_refl eq_refl eq_refl eq_refl eq_refl) as (_ & H1 & _).
  destruct (replay_starts_in_the_same_pass
              (tickAt (Word.modulus + 300) (holding BTN_SELECT) true None) emulateReady
              eq_refl eq_refl eq_refl eq_refl eq_refl eq_refl eq_refl) as (_ & H2 & _).
  split; [exact H1 | exact H2].
Defined.

(** ** Jamming *)

(** One pass of the mode switch while jamming is on. *)
Lemma modeLogic_jam tk s :
  jamming s = true ->
  fst (modeLogic tk s) =
  (if rfModuleConnected s && jamDue (millis (t_action tk)) s
   then set_lastJam (millis (t_action tk)) s else s) /\
  filter isTx (snd (modeLogic tk s)) =
  (if rfModuleConnected s && jamDue (millis (t_action tk)) s
   then jamCall (rnd tk) s else []).
Proof.
  unfold jamming. intros H. apply andb_true_iff in H. destruct H as (Hj & Hm).
  destruct (currentMode s) eqn:Hmode; try discriminate. clear Hm.
  unfold modeLogic. rewrite Hmode.
  destruct (rfModuleConnected s); cbn [negb andb].
  - unfold jamSignals, drawJamMode. unfold_cmds. cbn. rewrite Hj.
    destruct (jamDue (millis (t_action tk)) s); cbn; split; reflexivity.
  - split; reflexivity.
Qed.

Lemma onSelect_keeps_jam now s :
  isJamming s = true -> isJamming (fst (onSelect now s)) = true ->
  lastJam (fst (onSelect now s)) = lastJam s.
Proof.
  block; intros H1 H2; try discriminate; try rewrite H1 in *; try discriminate; auto.
Qed.

Lemma handleButtons_keeps_jam now g s :
  isJamming s = true -> isJamming (fst (handleButtons now g s)) = true ->
  lastJam (fst (handleButtons now g s)) = lastJam s.
Proof.
  destruct (debounced now s) eqn:Hd.
  - rewrite (handleButtons_debounced _ _ _ Hd). auto.
  - rewrite (handleButtons_open_state _ _ _ Hd).
    change (isJamming (snapshot ?x)) with (isJamming x).
    change (lastJam (snapshot ?x)) with (lastJam x).
    intros H0 H4.
    destruct (backEdge (sampled g s)) eqn:Hb.
    + unfold afterBack in H4. rewrite onBack_fire in H4; [discriminate |].
      destruct (blocks_edges now (sampled g s)) as (_ & _ & H). congruence.
    + rewrite (afterBack_idle _ _ Hb) in *. unfold afterSelect in *.
      assert (H2 : isJamming (afterDown now (sampled g s)) = true
                   /\ lastJam (afterDown now (sampled g s)) = lastJam s).
      { unfold afterDown, afterUp. rewrite onDown_shape. cbn.
        rewrite onUp_shape. cbn. auto. }
      destruct H2 as (Hj & Hl).
      rewrite (onSelect_keeps_jam _ _ Hj H4). exact Hl.
Qed.

Lemma atSwitch_keeps_jam tk s :
  isJamming s = true -> isJamming (atSwitch tk s) = true ->
  lastJam (atSwitch tk s) = lastJam s.
Proof.
  rewrite atSwitch_eq. intros H0 H1.
  assert (H : isJamming (fst (animate tk (fst (monitor tk s)))) = true
              /\ lastJam (fst (animate tk (fst (monitor tk s)))) = lastJam s).
  { rewrite animate_shape. cbn. rewrite monitor_shape. cbn. auto. }
  destruct H as (Hj & Hl).
  rewrite (handleButtons_keeps_jam _ _ _ Hj H1). exact Hl.
Qed.

Lemma pass_jam tk s :
  jamming (atSwitch tk s) = true ->
  isJamming (fst (loop tk s)) = true /\
  lastJam (fst (loop tk s)) =
    (if rfModuleConnected (atSwitch tk s) && jamDue (millis (t_action tk)) (atSwitch tk s)
     then millis (t_action tk) else lastJam (atSwitch tk s)) /\
  filter isTx (snd (loop tk s)) =
    (if rfModuleConnected (atSwitch tk s) && jamDue (millis (t_action tk)) (atSwitch tk s)
     then jamCall (rnd tk) (atSwitch tk s) else []).
Proof.
  intros H. destruct (modeLogic_jam tk _ H) as (Hst & Hlog).
  rewrite loop_log_tx, Hlog, loop_state, Hst.
  assert (Hj : isJamming (atSwitch tk s) = true).
  { unfold jamming in H. destruct (isJamming (atSwitch tk s)); [reflexivity | discriminate]. }
  destruct (rfModuleConnected (atSwitch tk s) && jamDue _ (atSwitch tk s));
    cbn [isJamming lastJam set_lastJam]; auto.
Qed.

Lemma jamCall_shape v d : isJamCall (jamCall v d).
Proof.
  exists (animFrame d mod 3 + 1), v. split; [reflexivity |].
  pose proof (Z.mod_pos_bound (animFrame d) 3). lia.
Qed.

Lemma apartBy_window d l :
  StronglySorted (apartBy d) l ->
  forall w, (List.length (filter (inWindowOf d w) l) <= 1)%nat.
Proof.
  induction 1 as [| a l Hs IH Hall]; intros w; [cbn; lia |].
  cbn [filter]. destruct (inWindowOf d w a) eqn:Ha; [| apply IH].
  assert (Hnone : filter (inWindowOf d w) l = []).
  { clear IH Hs. induction l as [| b l IHl]; [reflexivity |].
    inversion Hall as [| ? ? Hab Hrest]; subst.
    cbn [filter]. rewrite (IHl Hrest).
    unfold inWindowOf, apartBy in *.
    apply andb_true_iff in Ha. destruct Ha as (Ha1 & Ha2).
    apply Z.leb_le in Ha1. apply Z.ltb_lt in Ha2.
    destruct (w <=? b) eqn:H1; [| reflexivity].
    destruct (b <? w + d) eqn:H2; [| reflexivity].
    apply Z.ltb_lt in H2. lia. }
  rewrite Hnone. cbn. lia.
Qed.

Lemma run_jam_after ticks :
  forall s L,
    isJamming s = true -> lastJam s = millis L ->
    Forall (fun t => L <= t) (map t_action ticks) ->
    StronglySorted Z.le (map t_action ticks) ->
    throughout jamming ticks s ->
    Forall (apartBy JAM_INTERVAL L) (sendTimes (snd (run ticks s))) /\
    StronglySorted (apartBy JAM_INTERVAL) (sendTimes (snd (run ticks s))).
Proof.
  induction ticks as [| tk rest IH]; intros s L Hj HL Hge Hsorted Hthr.
  - cbn. split; constructor.
  - destruct Hthr as (Hjam & Hrest).
    inversion Hge as [| ? ? HLt Hge']; subst.
    inversion Hsorted as [| ? ? Hsorted' Hle]; subst.
    destruct (pass_jam tk s Hjam) as (Hj' & Hlast & Hlog).
    assert (Hjs : isJamming (atSwitch tk s) = true).
    { unfold jamming in Hjam.
      destruct (isJamming (atSwitch tk s)); [reflexivity | discriminate]. }
    pose proof (atSwitch_keeps_jam tk s Hj Hjs) as Hl.
    cbn [run snd]. rewrite sendTimes_cons, Hlog.
    destruct (rfModuleConnected (atSwitch tk s)
              && jamDue (millis (t_action tk)) (atSwitch tk s)) eqn:Hdue.
    + apply andb_true_iff in Hdue. destruct Hdue as (_ & Hdue).
      unfold jamDue in Hdue. rewrite Hl, HL in Hdue. apply Z.leb_le in Hdue.
      pose proof (sub_millis_le L (t_action tk) HLt) as Hsub.
      assert (Hap : apartBy JAM_INTERVAL L (t_action tk)) by (unfold apartBy; lia).
      destruct (IH (fst (loop tk s)) (t_action tk) Hj' Hlast Hle Hsorted' Hrest)
        as (Hall & Hss).
      cbn. split.
      * constructor; [exact Hap |].
        eapply Forall_impl; [| exact Hall]. unfold apartBy in *. intros; lia.
      * constructor; assumption.
    + rewrite Hl in Hlast.
      destruct (IH (fst (loop tk s)) L Hj' (eq_trans Hlast HL) Hge' Hsorted' Hrest)
        as (Hall & Hss).
      cbn. split; assumption.
Qed.

Lemma run_jam_apart ticks :
  forall s,
    StronglySorted Z.le (map t_action ticks) ->
    throughout jamming ticks s ->
    StronglySorted (apartBy JAM_INTERVAL) (sendTimes (snd (run ticks s))).
Proof.
  induction ticks as [| tk rest IH]; intros s Hsorted Hthr.
  - cbn. constructor.
  - destruct Hthr as (Hjam & Hrest).
    inversion Hsorted as [| ? ? Hsorted' Hle]; subst.
    destruct (pass_jam tk s Hjam) as (Hj' & Hlast & Hlog).
    cbn [run snd]. rewrite sendTimes_cons, Hlog.
    destruct (rfModuleConnected (atSwitch tk s)
              && jamDue (millis (t_action tk)) (atSwitch tk s)).
    + destruct (run_jam_after rest (fst (loop tk s)) (t_action tk)
                  Hj' Hlast Hle Hsorted' Hrest) as (Hall & Hss).
      cbn. constructor; assumption.
    + cbn. apply IH; assumption.
Qed.

Lemma run_jam_calls ticks :
  forall s,
    throughout jamming ticks s ->
    Forall (fun pass => filter isTx (snd pass) = [] \/ isJamCall (filter isTx (snd pass)))
           (snd (run ticks s)).
Proof.
  induction ticks as [| tk rest IH]; intros s Hthr; cbn [run snd]; [constructor |].
  destruct Hthr as (Hjam & Hrest).
  destruct (pass_jam tk s Hjam) as (_ & _ & Hlog).
  constructor.
  - cbn [snd]. rewrite Hlog. destruct (_ && _); [right; apply jamCall_shape | auto].
  - apply IH, Hrest.
Qed.

(** X12.  Over any run of passes whose radio-action times do not decrease,
    with jamming on (Jam mode, [isJamming]) at the mode switch of every
    pass: no window of JAM_INTERVAL milliseconds holds two sends, and the
    transmitter calls of a pass are either none or one burst, setProtocol
    with protocol 1, 2 or 3 followed by a send of 24 bits. *)
Theorem jam_at_most_once_per_interval ticks s :
  StronglySorted Z.le (map t_action ticks) ->
  throughout jamming ticks s ->
  (forall w,
      (List.length (filter (inWindowOf JAM_INTERVAL w) (sendTimes (snd (run ticks s))))
       <= 1)%nat) /\
  Forall (fun pass => filter isTx (snd pass) = [] \/ isJamCall (filter isTx (snd pass)))
         (snd (run ticks s)).
Proof.
  intros Hsorted Hthr. split.
  - apply apartBy_window, run_jam_apart; assumption.
  - apply run_jam_calls, Hthr.
Qed.

Lemma jam_at_most_once_per_interval_witness :
  StronglySorted Z.le (map t_action jamRun) /\
  throughout jamming jamRun jamOn /\
  sendTimes (snd (run jamRun jamOn)) = [10000; 10060] /\
  (List.length (filter (inWindowOf JAM_INTERVAL 10000) (sendTimes (snd (run jamRun jamOn))))
   <= 1)%nat.
Proof.
  assert (Hs : StronglySorted Z.le (map t_action jamRun))
    by (cbn; repeat constructor; lia).
  assert (Ht : throughout jamming jamRun jamOn) by (vm_compute; auto).
  destruct (jam_at_most_once_per_interval _ _ Hs Ht) as (Hw & _).
  split; [exact Hs | split; [exact Ht | split; [reflexivity | apply Hw]]].
Defined.

(** A call that accepts Select in Jam mode negates the flag and resets the
    gate, and assigns nothing else outside [btnState]. *)
Lemma jam_select_state now g s :
  debounced now s = false -> currentMode s = JAM ->
  selectEdge (sampled g s) = true -> backEdge (sampled g s) = false ->
  onlyButtons (set_lastJam 0 (set_isJamming (negb (isJamming s)) s))
              (fst (handleButtons now g s)).
Proof.
  intros Hd Hm Hs Hb.
  destruct (nonmenu_before_select now g s) as (Hob & Hm' & He); [congruence |].
  rewrite (select_call_nonmenu _ _ _ Hd Hb).
  rewrite onSelect_jam by congruence.
  rewrite Hob. unfold onlyButtons. cbn. reflexivity.
Qed.

(** X13.  In Jam mode a call that accepts Select, and no Back edge,
    negates [isJamming], resets the jam gate to 0 and changes nothing else
    but the button bookkeeping.  When that switches jamming on and the
    link is up, the same pass sends its first burst, provided [millis()]
    reads at least JAM_INTERVAL. *)
Theorem jam_select_toggles tk s :
  currentMode s = JAM ->
  debounced (millis (t_buttons tk)) s = false ->
  selectEdge (sampled (gpio tk) s) = true -> backEdge (sampled (gpio tk) s) = false ->
  onlyButtons (set_lastJam 0 (set_isJamming (negb (isJamming s)) s))
              (fst (handleButtons (millis (t_buttons tk)) (gpio tk) s)) /\
  (isJamming s = false -> rfModuleConnected (atSwitch tk s) = true ->
   isJamming (fst (loop tk s)) = true /\
   filter isTx (snd (loop tk s)) =
   (if JAM_INTERVAL <=? millis (t_action tk)
    then jamCall (rnd tk) (atSwitch tk s) else [])).
Proof.
  intros Hm Hd Hs Hb. split; [apply jam_select_state; assumption |].
  intros Hj Hc.
  destruct (beforeButtons_modeState tk s) as (Hm' & _ & _ & Hj').
  destruct (beforeButtons_edges tk (gpio tk) s) as (_ & _ & Hs' & Hb').
  assert (Hst := jam_select_state (millis (t_buttons tk)) (gpio tk) (beforeButtons tk s)).
  rewrite beforeButtons_debounced in Hst.
  specialize (Hst Hd (eq_trans Hm' Hm) (eq_trans Hs' Hs) (eq_trans Hb' Hb)).
  rewrite <- atSwitch_before in Hst.
  assert (Hsw : jamming (atSwitch tk s) = true /\ lastJam (atSwitch tk s) = 0).
  { rewrite Hst. unfold jamming. cbn. rewrite Hj', Hj, Hm', Hm. split; reflexivity. }
  destruct Hsw as (Hjam & Hl).
  destruct (pass_jam tk s Hjam) as (Hji & _ & Hlog).
  rewrite Hc in Hlog. cbn [andb] in Hlog.
  assert (Hdue : jamDue (millis (t_action tk)) (atSwitch tk s)
                 = (JAM_INTERVAL <=? millis (t_action tk))).
  { unfold jamDue. rewrite Hl, sub_millis_zero. reflexivity. }
  rewrite Hdue in Hlog. split; assumption.
Qed.

Lemma jam_select_toggles_witness :
  isJamming (fst (loop (tickAt 5000 (holding BTN_SELECT) true None) jamReady)) = true /\
  filter isTx (snd (loop (tickAt 5000 (holding BTN_SELECT) true None) jamReady))
  = [TxSetProtocol 2; TxSend 1 24] /\
  onlyButtons (set_lastJam 0 (set_isJamming false jamOn))
              (fst (handleButtons (millis 5000) (holding BTN_SELECT) jamOn)).
Proof.
  destruct (jam_select_toggles (tickAt 5000 (holding BTN_SELECT) true None) jamReady
              eq_refl eq_refl eq_refl eq_refl) as (_ & H).
  destruct (H eq_refl eq_refl) as (H1 & H2).
  destruct (jam_select_toggles (tickAt 5000 (holding BTN_SELECT) true None) jamOn
              eq_refl eq_refl eq_refl eq_refl) as (H3 & _).
  split; [exact H1 | split; [rewrite H2; reflexivity | exact H3]].
Defined.

(** ** A burst of calls inside the debounce window *)

Lemma handleAll_debounced calls :
  forall s g0,
    Forall (fun c => debounced (fst c) s = true) calls ->
    handleAll calls s =
    (match calls with [] => s | _ => sampled (snd (last calls (0, g0))) s end, []).
Proof.
  induction calls as [| c rest IH]; intros s g0 H; [reflexivity |].
  inversion H as [| ? ? Hc Hrest]; subst.
  cbn [handleAll]. rewrite (handleButtons_debounced _ _ _ Hc). cbn [fst snd app].
  assert (Hrest' : Forall (fun c0 => debounced (fst c0) (sampled (snd c) s) = true) rest).
  { eapply Forall_impl; [| exact Hrest]. intros a Ha. exact Ha. }
  rewrite (IH (sampled (snd c) s) g0 Hrest').
  destruct rest as [| c' rest']; reflexivity.
Qed.

(** X14.  Calls of handleButtons made while [now - lastPress] is below
    DEBOUNCE_DELAY, however many and whatever the pins read, handle
    nothing: they write no line, and they leave the mode, the selection,
    the flags, the snapshot and the stamp as they were.  The next call
    acts as if none of them had been made. *)
Theorem burst_inside_debounce_window_is_ignored calls s now g :
  Forall (fun c => debounced (fst c) s = true) calls ->
  snd (handleAll calls s) = [] /\
  onlyButtons s (fst (handleAll calls s)) /\
  upLast (btnState (fst (handleAll calls s))) = upLast (btnState s) /\
  downLast (btnState (fst (handleAll calls s))) = downLast (btnState s) /\
  selectLast (btnState (fst (handleAll calls s))) = selectLast (btnState s) /\
  backLast (btnState (fst (handleAll calls s))) = backLast (btnState s) /\
  lastPress (btnState (fst (handleAll calls s))) = lastPress (btnState s) /\
  handleButtons now g (fst (handleAll calls s)) = handleButtons now g s.
Proof.
  intros H.
  rewrite (handleAll_debounced calls s released H). cbn [fst snd].
  destruct calls as [| c rest].
  - split; [reflexivity | split; [destruct s; reflexivity |]].
    repeat split.
  - split; [reflexivity | split; [apply onlyButtons_sampled |]].
    repeat split.
Qed.

Lemma burst_inside_debounce_window_is_ignored_witness :
  Forall (fun c => debounced (fst c) pressedAt1000 = true)
         [(1050, holding BTN_UP); (1100, released); (1150, holding BTN_SELECT)] /\
  handleButtons 1250 (holding BTN_SELECT)
    (fst (handleAll [(1050, holding BTN_UP); (1100, released); (1150, holding BTN_SELECT)]
            pressedAt1000))
  = handleButtons 1250 (holding BTN_SELECT) pressedAt1000.
Proof.
  assert (H : Forall (fun c => debounced (fst c) pressedAt1000 = true)
                [(1050, holding BTN_UP); (1100, released); (1150, holding BTN_SELECT)])
    by (repeat constructor).
  split; [exact H |].
  apply (burst_inside_debounce_window_is_ignored _ _ 1250 (holding BTN_SELECT) H).
Defined.

(** ** Receptions in a row *)

Lemma reading_at_switch tk s :
  reading (atSwitch tk s) = true ->
  currentMode (atSwitch tk s) = READ /\ rfModuleConnected (atSwitch tk s) = true.
Proof.
  unfold reading. intros H. apply andb_true_iff in H. destruct H as (Hc & Hm).
  split; [| exact Hc]. destruct (currentMode (atSwitch tk s)); try discriminate.
  reflexivity.
Qed.

(** X15.  Over a run of passes that are all in Read mode with the link up,
    the record ends as the reception history dictates: every nonzero
    value replaces the whole record, with the clock reading of its pass,
    and a zero value or an empty receiver leaves the record of the
    earlier passes in place.  So the record is that of the last nonzero
    reception, or the one the run started with. *)
Theorem record_holds_last_nonzero_reception ticks :
  forall s,
    throughout reading ticks s ->
    capturedSignal (fst (run ticks s)) = lastCapture ticks (capturedSignal s).
Proof.
  induction ticks as [| tk rest IH]; intros s H; [reflexivity |].
  destruct H as (Hr & Hrest). cbn [run fst lastCapture].
  rewrite (IH _ Hrest), loop_store.
  destruct (reading_at_switch _ _ Hr) as (-> & ->). reflexivity.
Qed.

Lemma record_holds_last_nonzero_reception_witness :
  throughout reading receptions readReady /\
  capturedSignal (fst (run receptions readReady)) = captureOf remote2 1060.
Proof.
  assert (H : throughout reading receptions readReady) by (vm_compute; auto).
  split; [exact H |].
  rewrite (record_holds_last_nonzero_reception _ _ H). reflexivity.
Defined.

(** ** The link monitor *)

Lemma loop_link tk s :
  rfModuleConnected (fst (loop tk s)) = rfModuleConnected (fst (monitor tk s)) /\
  lastRFCheck (fst (loop tk s)) = lastRFCheck (fst (monitor tk s)).
Proof.
  rewrite loop_state, modeLogic_shape.
  cbn [rfModuleConnected lastRFCheck set_capturedSignal set_lastTransmit set_lastJam
       set_transmitCount].
  rewrite atSwitch_eq.
  destruct (handleButtons_frame (millis (t_buttons tk)) (gpio tk)
              (fst (animate tk (fst (monitor tk s))))) as (-> & -> & _).
  rewrite animate_shape. split; reflexivity.
Qed.

Lemma monitor_state tk s :
  fst (monitor tk s) =
  if recheckDue (millis (t_check tk)) s
  then set_lastRFCheck (millis (t_checked tk))
         (set_rfModuleConnected (heard tk || txOk tk) s)
  else s.
Proof.
  unfold monitor, when, ifS, checkRFModule.
  destruct (recheckDue _ s); [| reflexivity].
  destruct (heard tk); reflexivity.
Qed.

(** X16.  The link flag changes only by the periodic check.  A pass whose
    recheck test fails leaves the flag and the check stamp alone and logs
    nothing for the monitor; a pass whose test holds sets the flag to
    "a transmission was heard, or the TX pin read back high", stamps the
    check, and writes the status-change line exactly when the flag
    changed.  Neither handleButtons nor the mode switch touches the
    flag. *)
Theorem link_flag_follows_the_check tk s :
  (recheckDue (millis (t_check tk)) s = false ->
   rfModuleConnected (fst (loop tk s)) = rfModuleConnected s /\
   lastRFCheck (fst (loop tk s)) = lastRFCheck s /\
   snd (monitor tk s) = []) /\
  (recheckDue (millis (t_check tk)) s = true ->
   rfModuleConnected (fst (loop tk s)) = heard tk || txOk tk /\
   lastRFCheck (fst (loop tk s)) = millis (t_checked tk) /\
   (In (Serial "RF Status changed: CONNECTED") (snd (monitor tk s)) <->
    rfModuleConnected s = false /\ heard tk || txOk tk = true) /\
   (In (Serial "RF Status changed: DISCONNECTED") (snd (monitor tk s)) <->
    rfModuleConnected s = true /\ heard tk || txOk tk = false)).
Proof.
  destruct (loop_link tk s) as (-> & ->). rewrite monitor_state.
  split; intros Hd; rewrite Hd.
  - split; [reflexivity | split; [reflexivity |]].
    unfold monitor, when, ifS. rewrite Hd. reflexivity.
  - split; [reflexivity | split; [reflexivity |]].
    unfold monitor, when, ifS, checkRFModule. rewrite Hd.
    destruct (heard tk), (txOk tk), (rfModuleConnected s); cbn;
      split; split; intros H;
      try (destruct H as (H1 & H2); discriminate);
      try (repeat (destruct H as [H | H]; [discriminate |]); contradiction);
      try (split; reflexivity);
      try (repeat (first [left; reflexivity | right])).
Qed.

Lemma link_flag_follows_the_check_witness :
  recheckDue (millis 1000) readLinkLost = false /\
  rfModuleConnected (fst (loop (tickAt 1000 released true None) readLinkLost)) = false /\
  recheckDue (millis 3500) readLinkLost = true /\
  rfModuleConnected (fst (loop (tickAt 3500 released true None) readLinkLost)) = true.
Proof.
  destruct (link_flag_follows_the_check (tickAt 1000 released true None) readLinkLost)
    as (H1 & _).
  destruct (link_flag_follows_the_check (tickAt 3500 released true None) readLinkLost)
    as (_ & H2).
  destruct (H1 eq_refl) as (A & _). destruct (H2 eq_refl) as (B & _).
  repeat split; assumption.
Defined.

(** ** Link checks are spaced *)

Lemma modeLogic_no_listen tk d : existsb isListen (snd (modeLogic tk d)) = false.
Proof.
  unfold modeLogic, rfError, displayWarning, drawMenu, handleRFReception,
    transmitSignal, jamSignals, drawEmulateMode, drawJamMode, drawReadMode.
  destruct (currentMode d), (rfModuleConnected d); try reflexivity.
  - destruct (rx tk) as [ev |]; [| reflexivity].
    destruct (rxValue ev =? 0); reflexivity.
  - unfold_cmds. cbn. repeat (split_if; cbn); reflexivity.
  - unfold_cmds. cbn. repeat (split_if; cbn); reflexivity.
Qed.

Lemma serial_no_listen evs : forallb isSerial evs = true -> existsb isListen evs = false.
Proof.
  induction evs as [| e evs IH]; [reflexivity |].
  cbn [forallb]. intros H. apply andb_true_iff in H. destruct H as (He & H).
  destruct e; try discriminate. cbn. auto.
Qed.

Lemma monitor_listens tk s :
  existsb isListen (snd (monitor tk s)) = recheckDue (millis (t_check tk)) s.
Proof.
  unfold monitor, when, ifS, checkRFModule.
  destruct (recheckDue _ s); [| reflexivity].
  destruct (heard tk), (txOk tk), (rfModuleConnected s); reflexivity.
Qed.

(** A pass listens for the link exactly when its recheck test holds. *)
Lemma loop_listens tk s :
  existsb isListen (snd (loop tk s)) = recheckDue (millis (t_check tk)) s.
Proof.
  rewrite loop_log. unfold prelude. rewrite !snd_seq, animate_log. cbn [app].
  rewrite !existsb_app, monitor_listens, modeLogic_no_listen.
  rewrite (serial_no_listen _ (handleButtons_serial _ _ _)). cbn.
  rewrite !orb_false_r. reflexivity.
Qed.

Lemma loop_check_stamp tk s :
  lastRFCheck (fst (loop tk s)) =
  if recheckDue (millis (t_check tk)) s then millis (t_checked tk) else lastRFCheck s.
Proof.
  destruct (loop_link tk s) as (_ & ->). rewrite monitor_state.
  destruct (recheckDue _ s); reflexivity.
Qed.

Lemma checks_after ticks :
  forall s L,
    lastRFCheck s = millis L ->
    Forall (fun t => L <= t) (monitorClock ticks) ->
    StronglySorted Z.le (monitorClock ticks) ->
    Forall (apartBy (RF_CHECK_INTERVAL + 1) L) (checkTimes ticks s) /\
    StronglySorted (apartBy (RF_CHECK_INTERVAL + 1)) (checkTimes ticks s).
Proof.
  induction ticks as [| tk rest IH]; intros s L HL Hge Hsorted.
  - cbn. split; constructor.
  - cbn [monitorClock flat_map app] in Hge, Hsorted.
    inversion Hge as [| ? ? HL1 Hge1]; subst.
    inversion Hge1 as [| ? ? HL2 Hge2]; subst.
    inversion Hsorted as [| ? ? Hs1 Hle1]; subst.
    inversion Hs1 as [| ? ? Hs2 Hle2]; subst.
    inversion Hle1 as [| ? ? Hcc _]; subst.
    cbn [checkTimes]. rewrite loop_listens.
    pose proof (loop_check_stamp tk s) as Hstamp.
    destruct (recheckDue (millis (t_check tk)) s) eqn:Hdue.
    + unfold recheckDue in Hdue. rewrite HL in Hdue. apply Z.ltb_lt in Hdue.
      pose proof (sub_millis_le L (t_check tk) HL1) as Hsub.
      destruct (IH (fst (loop tk s)) (t_checked tk) Hstamp Hle2 Hs2) as (Hall & Hss).
      assert (Hall' : Forall (apartBy (RF_CHECK_INTERVAL + 1) (t_check tk))
                        (checkTimes rest (fst (loop tk s)))).
      { eapply Forall_impl; [| exact Hall]. unfold apartBy. intros; lia. }
      cbn [app]. split.
      * constructor; [unfold apartBy; lia |].
        eapply Forall_impl; [| exact Hall']. unfold apartBy. intros; lia.
      * constructor; assumption.
    + cbn [app]. apply (IH (fst (loop tk s)) L); [congruence | exact Hge2 | exact Hs2].
Qed.

Lemma checks_apart ticks :
  forall s,
    StronglySorted Z.le (monitorClock ticks) ->
    StronglySorted (apartBy (RF_CHECK_INTERVAL + 1)) (checkTimes ticks s).
Proof.
  induction ticks as [| tk rest IH]; intros s Hsorted.
  - cbn. constructor.
  - cbn [monitorClock flat_map app] in Hsorted.
    inversion Hsorted as [| ? ? Hs1 Hle1]; subst.
    inversion Hs1 as [| ? ? Hs2 Hle2]; subst.
    inversion Hle1 as [| ? ? Hcc _]; subst.
    cbn [checkTimes]. rewrite loop_listens.
    pose proof (loop_check_stamp tk s) as Hstamp.
    destruct (recheckDue (millis (t_check tk)) s) eqn:Hdue.
    + destruct (checks_after rest (fst (loop tk s)) (t_checked tk) Hstamp Hle2 Hs2)
        as (Hall & Hss).
      cbn [app]. constructor; [exact Hss |].
      eapply Forall_impl; [| exact Hall]. unfold apartBy. intros; lia.
    + cbn [app]. apply IH. exact Hs2.
Qed.

(** X17.  Link checks are more than RF_CHECK_INTERVAL apart.  Over any
    run whose monitor clock readings do not decrease, whatever the mode,
    the buttons and the outcome of the checks: the passes that listen for
    the link start their checks more than 3000 ms after one another, so
    no stretch of 3001 ms holds two. *)
Theorem link_checks_are_spaced ticks s :
  StronglySorted Z.le (monitorClock ticks) ->
  StronglySorted (fun a b => a + RF_CHECK_INTERVAL < b) (checkTimes ticks s) /\
  (forall w,
      (List.length (filter (inWindowOf (RF_CHECK_INTERVAL + 1) w) (checkTimes ticks s))
       <= 1)%nat).
Proof.
  intros H. pose proof (checks_apart ticks s H) as Ha. split.
  - clear H. induction Ha as [| a l Hs IH Hall]; constructor; [exact IH |].
    eapply Forall_impl; [| exact Hall]. unfold apartBy. intros; lia.
  - apply apartBy_window, Ha.
Qed.

Lemma link_checks_are_spaced_witness :
  StronglySorted Z.le (monitorClock slowRun) /\
  checkTimes slowRun readLinkLost = [3500; 7000] /\
  (List.length (filter (inWindowOf (RF_CHECK_INTERVAL + 1) 3500)
                  (checkTimes slowRun readLinkLost)) <= 1)%nat.
Proof.
  assert (H : StronglySorted Z.le (monitorClock slowRun))
    by (cbn; repeat constructor; lia).
  destruct (link_checks_are_spaced slowRun readLinkLost H) as (_ & Hw).
  split; [exact H | split; [reflexivity | apply Hw]].
Defined.

(** ** The display *)

Lemma modeLogic_onScreen tk d :
  exists f, frames (snd (modeLogic tk d)) = [f] /\ frameOnScreen f.
Proof.
  assert (Hscan : forall a c, frameOnScreen
                    (FrRead (Word.wrap (a * 3) mod (SCREEN_WIDTH - 20)) c)).
  { intros a c. unfold frameOnScreen, SCREEN_WIDTH.
    pose proof (Z.mod_pos_bound (Word.wrap (a * 3)) (128 - 20)). lia. }
  assert (Hwave : forall a v b p n,
             frameOnScreen
               (FrEmulate (Some (v, b, p, Some (Word.wrap (a * 2) mod 25, n))))).
  { intros a v b p n. unfold frameOnScreen, SCREEN_WIDTH.
    pose proof (Z.mod_pos_bound (Word.wrap (a * 2)) 25). lia. }
  unfold modeLogic, rfError, displayWarning, drawMenu, handleRFReception,
    transmitSignal, jamSignals, drawEmulateMode, drawJamMode, drawReadMode.
  destruct (currentMode d), (rfModuleConnected d); cbn [negb];
    try (eexists; split; [reflexivity | exact I]).
  - destruct (rx tk) as [ev |].
    + destruct (rxValue ev =? 0); eexists; (split; [reflexivity |]); apply Hscan.
    + eexists; split; [reflexivity |]. apply Hscan.
  - unfold_cmds. cbn. repeat (split_if; cbn);
      eexists; (split; [reflexivity |]);
      repeat match goal with
             | |- context [if ?b then _ else _] => destruct b
             end; first [exact I | apply Hwave].
  - unfold_cmds. cbn. repeat (split_if; cbn);
      eexists; (split; [reflexivity | exact I]).
Qed.

(** X18.  The moving shapes stay on the display.  Whatever the animation
    counter holds, the frame a pass draws keeps the dot of the Read sweep
    and the four waves of the Emulate screen within the 128 pixels of the
    display width. *)
Theorem animated_shapes_stay_on_screen tk s f :
  In f (frames (snd (loop tk s))) -> frameOnScreen f.
Proof.
  rewrite loop_frames.
  destruct (modeLogic_onScreen tk (atSwitch tk s)) as (f' & -> & H).
  intros [<- | []]. exact H.
Qed.

Lemma animated_shapes_stay_on_screen_witness :
  frameOnScreen (FrRead 105 None) /\
  In (FrRead 105 None)
     (frames (snd (loop (tickAt 1000 released true None)
                        (set_animFrame 34 readReady)))).
Proof.
  assert (H : In (FrRead 105 None)
                 (frames (snd (loop (tickAt 1000 released true None)
                                    (set_animFrame 34 readReady)))))
    by (left; reflexivity).
  split; [| exact H].
  apply (animated_shapes_stay_on_screen _ _ _ H).
Defined.

Lemma drawMenuItems_cases s :
  drawMenuItems s = drawMenuItem 0 s ++ drawMenuItem 1 s ++ drawMenuItem 2 s.
Proof.
  unfold drawMenuItems.
  change (Z.to_nat menuItems) with 3%nat.
  cbn [drawMenuItemsFrom].
  change (0 + 1) with 1. change (1 + 1) with 2.
  rewrite app_nil_r. reflexivity.
Qed.

(** X19.  The menu highlights the selection.  With the selection on one of
    the three items, as it is from boot on, the loop of drawMenu draws
    exactly one highlight bar, on the row of the selected item, 11 pixels
    high and ending above the footer line at y = 57; it prints that item
    after the marker "> " and sets the text colour back to white last.
    With a selection outside the range no row is highlighted. *)
Theorem menu_highlights_the_selection s :
  (inMenuRange s ->
   filter isFillRect (drawMenuItems s)
   = [FillRect 5 (18 + 13 * menuSelection s) (SCREEN_WIDTH - 10) 11 WHITE] /\
   18 + 13 * menuSelection s + 11 < 57 /\
   (exists before after,
       drawMenuItems s =
       before ++ [PrintStr "> "; PrintStr (nth (Z.to_nat (menuSelection s)) items ""%string)]
              ++ after) /\
   last (filter isSetTextColor (drawMenuItems s)) (SetTextColor BLACK)
   = SetTextColor WHITE) /\
  (~ inMenuRange s -> filter isFillRect (drawMenuItems s) = []).
Proof.
  rewrite drawMenuItems_cases. unfold inMenuRange, menuItems, drawMenuItem. split.
  - intros H.
    assert (menuSelection s = 0 \/ menuSelection s = 1 \/ menuSelection s = 2)
      as [-> | [-> | ->]] by lia.
    + split; [reflexivity | split; [lia | split; [| reflexivity]]].
      eexists [_; _; _], _. reflexivity.
    + split; [reflexivity | split; [lia | split; [| reflexivity]]].
      eexists [_; _; _; _; _], _. reflexivity.
    + split; [reflexivity | split; [lia | split; [| reflexivity]]].
      eexists [_; _; _; _; _; _; _], _. reflexivity.
  - intros H.
    destruct (0 =? menuSelection s) eqn:H0; [zify_tests; lia |].
    destruct (1 =? menuSelection s) eqn:H1; [zify_tests; lia |].
    destruct (2 =? menuSelection s) eqn:H2; [zify_tests; lia |].
    reflexivity.
Qed.

Lemma menu_highlights_the_selection_witness :
  inMenuRange (set_menuSelection 1 initial) /\
  filter isFillRect (drawMenuItems (set_menuSelection 1 initial))
  = [FillRect 5 31 118 11 WHITE] /\
  ~ inMenuRange (set_menuSelection 3 initial) /\
  filter isFillRect (drawMenuItems (set_menuSelection 3 initial)) = [].
Proof.
  assert (H1 : inMenuRange (set_menuSelection 1 initial))
    by (unfold inMenuRange, menuItems; cbn; lia).
  assert (H3 : ~ inMenuRange (set_menuSelection 3 initial))
    by (unfold inMenuRange, menuItems; cbn; lia).
  destruct (menu_highlights_the_selection (set_menuSelection 1 initial)) as (A & _).
  destruct (menu_highlights_the_selection (set_menuSelection 3 initial)) as (_ & B).
  destruct (A H1) as (A1 & _).
  split; [exact H1 | split; [exact A1 | split; [exact H3 | exact (B H3)]]].
Defined.

(** ** The TX pin *)

Lemma monitor_pin tk s :
  filter isPinWrite (snd (monitor tk s)) =
  if recheckDue (millis (t_check tk)) s && negb (heard tk)
  then [PinWrite RF_TX_PIN HIGH; PinWrite RF_TX_PIN LOW] else [].
Proof.
  unfold monitor, when, ifS, checkRFModule.
  destruct (recheckDue _ s); [| reflexivity].
  destruct (heard tk), (txOk tk), (rfModuleConnected s); reflexivity.
Qed.

Lemma serial_no_pin evs : forallb isSerial evs = true -> filter isPinWrite evs = [].
Proof.
  induction evs as [| e evs IH]; [reflexivity |].
  cbn [forallb]. intros H. apply andb_true_iff in H. destruct H as (He & H).
  destruct e; try discriminate. cbn. auto.
Qed.

Lemma modeLogic_no_pin tk d : filter isPinWrite (snd (modeLogic tk d)) = [].
Proof.
  unfold modeLogic, rfError, displayWarning, drawMenu, handleRFReception,
    transmitSignal, jamSignals, drawEmulateMode, drawJamMode, drawReadMode.
  destruct (currentMode d), (rfModuleConnected d); try reflexivity.
  - destruct (rx tk) as [ev |]; [| reflexivity].
    destruct (rxValue ev =? 0); reflexivity.
  - unfold_cmds. cbn. repeat (split_if; cbn); reflexivity.
  - unfold_cmds. cbn. repeat (split_if; cbn); reflexivity.
Qed.

(** X20.  The probe of the TX pin never overlaps a transmission.  A pass
    writes the pin only in its link check, when it heard nothing: high,
    then low.  Both writes come before the mode switch, so every call
    into the transmitter of that pass finds the pin low again; after the
    monitor nothing writes the pin directly. *)
Theorem pin_probe_precedes_transmission tk s :
  snd (loop tk s) =
  snd (monitor tk s)
  ++ (snd (handleButtons (millis (t_buttons tk)) (gpio tk) (beforeButtons tk s))
      ++ snd (modeLogic tk (atSwitch tk s)) ++ [Delay 30]) /\
  filter isTx (snd (monitor tk s)) = [] /\
  filter isPinWrite (snd (monitor tk s)) =
  (if recheckDue (millis (t_check tk)) s && negb (heard tk)
   then [PinWrite RF_TX_PIN HIGH; PinWrite RF_TX_PIN LOW] else []) /\
  filter isPinWrite
    (snd (handleButtons (millis (t_buttons tk)) (gpio tk) (beforeButtons tk s))
     ++ snd (modeLogic tk (atSwitch tk s)) ++ [Delay 30]) = [].
Proof.
  split; [| split; [apply monitor_log_tx | split; [apply monitor_pin |]]].
  - rewrite loop_log. unfold prelude. rewrite !snd_seq, animate_log. cbn [app].
    rewrite <- app_assoc. reflexivity.
  - rewrite !filter_app, modeLogic_no_pin.
    rewrite (serial_no_pin _ (handleButtons_serial _ _ _)). reflexivity.
Qed.
